(** * pq-smart-wallet: the operation pipeline, embedded and verified

    A shallow embedding of the TypeScript wallet pipeline
    (demo/wallet/src/lib/{userop,bundler,signer,snap-signer}.ts and
    demo/wallet/src/App.tsx), of the snap's crypto helpers, state and
    signing handlers (pq-snap/src/crypto/index.ts, pq-snap/src/state.ts,
    pq-snap/src/handlers/sign.ts) and of the Solidity validator
    (evm/src/PQValidatorModule.sol).

    Conventions.
    - A JavaScript string is a [string]; a code unit is an [ascii], so the
      development speaks about strings whose code units fit in one byte.
    - A [Uint8Array] is a [list byte].
    - A [bigint] is a [Z]; a non-negative quantity is an [N].
    - A function that can throw returns a [Completion]. *)

From Stdlib Require Import List String Ascii NArith ZArith Lia Bool.
From Stdlib.Strings Require Import Byte.
From Stdlib Require Import DecimalString.
Import ListNotations.

Open Scope string_scope.

(* ================================================================== *)
(** * The JavaScript fragment the sources rely on                      *)
(* ================================================================== *)

Module Js.

(** Thrown values. The constructor is the error class, the argument its
    [message]; [LibraryError] stands for the error classes of viem. *)
Inductive JsError : Type :=
| Error (message : string)
| RangeError (message : string)
| SyntaxError (message : string)
| TypeError (message : string)
| LibraryError (name : string).

Definition message_of (e : JsError) : string :=
  match e with
  | Error m | RangeError m | SyntaxError m | TypeError m => m
  | LibraryError n => n
  end.

Inductive Completion (A : Type) : Type :=
| Normal (a : A)
| Throw (e : JsError).
Arguments Normal {A} a.
Arguments Throw {A} e.

Definition bind {A B} (c : Completion A) (k : A -> Completion B) : Completion B :=
  match c with
  | Normal a => k a
  | Throw e => Throw e
  end.

Definition throws {A} (c : Completion A) : bool :=
  match c with Normal _ => false | Throw _ => true end.

(** ** Strings *)

(** [s.startsWith(p)] *)
Fixpoint startsWith (s p : string) {struct p} : bool :=
  match p with
  | EmptyString => true
  | String a p' =>
      match s with
      | EmptyString => false
      | String b s' => (a =? b)%char && startsWith s' p'
      end
  end.

(** [s.slice(n)] for [0 <= n] *)
Fixpoint sliceFrom (n : nat) (s : string) : string :=
  match n, s with
  | O, _ => s
  | S _, EmptyString => EmptyString
  | S k, String _ r => sliceFrom k r
  end.

Fixpoint takeChars (n : nat) (s : string) : string :=
  match n, s with
  | O, _ => EmptyString
  | S _, EmptyString => EmptyString
  | S k, String c r => String c (takeChars k r)
  end.

(** [s.slice(a, b)] for [0 <= a] and [0 <= b] *)
Definition slice (a b : nat) (s : string) : string :=
  takeChars (b - a) (sliceFrom a s).

Fixpoint repeatChar (c : ascii) (n : nat) : string :=
  match n with
  | O => EmptyString
  | S k => String c (repeatChar c k)
  end.

(** [s.padStart(n, c)] and [s.padEnd(n, c)] with a one-character filler *)
Definition padStart (n : nat) (c : ascii) (s : string) : string :=
  repeatChar c (n - String.length s) ++ s.

Definition padEnd (n : nat) (c : ascii) (s : string) : string :=
  s ++ repeatChar c (n - String.length s).

(** [s.replace(/^0+/, '')] *)
Fixpoint stripLeadingZeros (s : string) : string :=
  match s with
  | String c r => if (c =? "0")%char then stripLeadingZeros r else s
  | EmptyString => s
  end.

(** [s.replace(p, '')] with a string pattern: the first occurrence goes. *)
Fixpoint removeFirst (p s : string) : string :=
  if startsWith s p then sliceFrom (String.length p) s
  else match s with
       | EmptyString => EmptyString
       | String c r => String c (removeFirst p r)
       end.

(** [a || b] on strings: the empty string is falsy. *)
Definition orElse (a b : string) : string :=
  match a with EmptyString => b | _ => a end.

Fixpoint allChars (f : ascii -> bool) (s : string) : bool :=
  match s with
  | EmptyString => true
  | String c r => f c && allChars f r
  end.

Fixpoint joinStrings (l : list string) : string :=
  match l with
  | [] => EmptyString
  | x :: r => x ++ joinStrings r
  end.

Definition inRange (lo hi : N) (c : ascii) : bool :=
  (lo <=? N_of_ascii c)%N && (N_of_ascii c <=? hi)%N.

(** The class [[0-9a-fA-F]] *)
Definition isHexDigit (c : ascii) : bool :=
  inRange 48 57 c || inRange 97 102 c || inRange 65 70 c.

(** The lowercase digits [[0-9a-f]] *)
Definition isLowerHexDigit (c : ascii) : bool :=
  inRange 48 57 c || inRange 97 102 c.

(** [/^[0-9a-fA-F]*$/.test(s)] *)
Definition isHexDigits (s : string) : bool := allChars isHexDigit s.

Definition lowerChar (c : ascii) : ascii :=
  if inRange 65 90 c || (inRange 192 222 c && negb (N_of_ascii c =? 215)%N)
  then ascii_of_N (N_of_ascii c + 32) else c.

Fixpoint toLowerCase (s : string) : string :=
  match s with
  | EmptyString => EmptyString
  | String c r => String (lowerChar c) (toLowerCase r)
  end.

(** White space and line terminators among the one-byte code units. *)
Definition isWhiteSpace (c : ascii) : bool :=
  let n := N_of_ascii c in
  (inRange 9 13 c || (n =? 32) || (n =? 160))%N.

Fixpoint trimStart (s : string) : string :=
  match s with
  | String c r => if isWhiteSpace c then trimStart r else s
  | EmptyString => EmptyString
  end.

(** ** Numbers *)

(** [`${n}`] for a non-negative integer *)
Definition decimal (n : nat) : string :=
  NilEmpty.string_of_uint (Nat.to_uint n).

(** [`${n}`] for an integer of either sign *)
Definition decimalZ (z : Z) : string :=
  if (z <? 0)%Z then "-" ++ decimal (Z.to_nat (- z)) else decimal (Z.to_nat z).

Definition hexDigit (d : N) : ascii :=
  match d with
  | 0 => "0" | 1 => "1" | 2 => "2" | 3 => "3"
  | 4 => "4" | 5 => "5" | 6 => "6" | 7 => "7"
  | 8 => "8" | 9 => "9" | 10 => "a" | 11 => "b"
  | 12 => "c" | 13 => "d" | 14 => "e" | _ => "f"
  end%N%char.

Fixpoint hexDigitsOf (fuel : nat) (n : N) (acc : string) : string :=
  match fuel with
  | O => acc
  | S f =>
      if (n =? 0)%N then acc
      else hexDigitsOf f (n / 16)%N (String (hexDigit (n mod 16)%N) acc)
  end.

(** [n.toString(16)] for a non-negative integer: lowercase, no leading
    zero, ["0"] for zero. A number of [N.size n] bits has at most that many
    hexadecimal digits. *)
Definition toString16 (n : N) : string :=
  if (n =? 0)%N then "0" else hexDigitsOf (N.to_nat (N.size n)) n EmptyString.

Definition hexDigitValue (c : ascii) : option N :=
  let n := N_of_ascii c in
  if inRange 48 57 c then Some (n - 48)%N
  else if inRange 97 102 c then Some (n - 87)%N
  else if inRange 65 70 c then Some (n - 55)%N
  else None.

(** The longest prefix of hexadecimal digits, read as a number; [acc] is
    [None] until the first digit. *)
Fixpoint hexPrefixValue (s : string) (acc : option N) : option N :=
  match s with
  | EmptyString => acc
  | String c r =>
      match hexDigitValue c with
      | Some d =>
          hexPrefixValue r
            (Some (16 * match acc with Some a => a | None => 0 end + d)%N)
      | None => acc
      end
  end.

Definition stripHexLiteralPrefix (s : string) : string :=
  if startsWith s "0x" || startsWith s "0X" then sliceFrom 2 s else s.

(** [parseInt(s, 16)]: leading white space, a sign, an optional [0x], then
    the longest run of digits; [None] is [NaN]. The result is exact below
    2^53, which covers the two-character slices it is applied to. *)
Definition parseInt16 (s : string) : option Z :=
  let s1 := trimStart s in
  let '(neg, s2) :=
    match s1 with
    | String "-"%char r => (true, r)
    | String "+"%char r => (false, r)
    | _ => (false, s1)
    end in
  match hexPrefixValue (stripHexLiteralPrefix s2) None with
  | None => None
  | Some v => Some (if neg then (- Z.of_N v)%Z else Z.of_N v)
  end.

Definition byteOfN (n : N) : byte :=
  match Byte.of_N (n mod 256) with
  | Some b => b
  | None => x00
  end.

(** Storing a number into a [Uint8Array] slot: [NaN] becomes 0, anything
    else is reduced modulo 256. *)
Definition toUint8 (v : option Z) : byte :=
  match v with
  | None => x00
  | Some z => byteOfN (Z.to_N (z mod 256))
  end.

Fixpoint trimEnd (s : string) : string :=
  match s with
  | EmptyString => EmptyString
  | String c r =>
      match trimEnd r with
      | EmptyString => if isWhiteSpace c then EmptyString else String c EmptyString
      | r' => String c r'
      end
  end.

Definition trim (s : string) : string := trimEnd (trimStart s).

Definition digitValue (radix : N) (c : ascii) : option N :=
  match hexDigitValue c with
  | Some d => if (d <? radix)%N then Some d else None
  | None => None
  end.

Fixpoint digitsValue (radix : N) (s : string) (acc : N) : option N :=
  match s with
  | EmptyString => Some acc
  | String c r =>
      match digitValue radix c with
      | Some d => digitsValue radix r (radix * acc + d)%N
      | None => None
      end
  end.

(** One digit at least, and nothing but digits. *)
Definition numeral (radix : N) (s : string) : option N :=
  match s with
  | EmptyString => None
  | _ => digitsValue radix s 0
  end.

(** The number a string of hexadecimal digits denotes; the empty string
    denotes zero. *)
Definition hexValue (s : string) : N :=
  match digitsValue 16 s 0 with Some v => v | None => 0%N end.

(** [BigInt(s)] on a string: white space around the literal is ignored,
    the empty literal is zero, [0x]/[0o]/[0b] literals carry no sign, a
    decimal literal may; anything else is a [SyntaxError]. *)
Definition BigIntOfString (s : string) : Completion Z :=
  let bad := Throw (SyntaxError ("Cannot convert " ++ s ++ " to a BigInt")) in
  let ofN (o : option N) :=
    match o with Some n => Normal (Z.of_N n) | None => bad end in
  let t := trim s in
  match t with
  | EmptyString => Normal 0%Z
  | String "0"%char (String c r) =>
      if (c =? "x")%char || (c =? "X")%char then ofN (numeral 16 r)
      else if (c =? "o")%char || (c =? "O")%char then ofN (numeral 8 r)
      else if (c =? "b")%char || (c =? "B")%char then ofN (numeral 2 r)
      else ofN (numeral 10 t)
  | String "-"%char r =>
      match numeral 10 r with
      | Some n => Normal (- Z.of_N n)%Z
      | None => bad
      end
  | String "+"%char r => ofN (numeral 10 r)
  | _ => ofN (numeral 10 t)
  end.

(** [BigInt(n)] on the result of [parseInt]: an integer or [NaN]. *)
Definition BigIntOfNumber (n : option Z) : Completion Z :=
  match n with
  | Some z => Normal z
  | None => Throw (RangeError "The number NaN cannot be converted to a BigInt because it is not an integer")
  end.

(** ** Effects: a completion together with the events it produced *)

Definition Run (E A : Type) : Type := (Completion A * list E)%type.

Definition ret {E A} (a : A) : Run E A := (Normal a, []).
Definition raise {E A} (e : JsError) : Run E A := (Throw e, []).
Definition emit {E} (ev : E) : Run E unit := (Normal tt, [ev]).
Definition lift {E A} (c : Completion A) : Run E A := (c, []).

Definition bindR {E A B} (m : Run E A) (k : A -> Run E B) : Run E B :=
  match fst m with
  | Normal a => let r := k a in (fst r, (snd m ++ snd r)%list)
  | Throw e => (Throw e, snd m)
  end.

(** [try { m } catch (e) { h e }] *)
Definition tryCatch {E A} (m : Run E A) (h : JsError -> Run E A) : Run E A :=
  match fst m with
  | Normal a => m
  | Throw e => let r := h e in (fst r, (snd m ++ snd r)%list)
  end.

Definition mapEvents {E F A} (f : E -> F) (m : Run E A) : Run F A :=
  (fst m, map f (snd m)).

End Js.

Import Js.

Declare Scope js_scope.
Notation "x <- c ;; k" := (Js.bind c (fun x => k))
  (at level 61, c at next level, right associativity) : js_scope.
Notation "x <~ c ;; k" := (Js.bindR c (fun x => k))
  (at level 61, c at next level, right associativity) : js_scope.
Notation "c ;;; k" := (Js.bindR c (fun _ => k))
  (at level 61, right associativity) : js_scope.
Open Scope js_scope.

(* ================================================================== *)
(** * pq-snap/src/crypto/index.ts                                      *)
(* ================================================================== *)

Module SnapCrypto.

(** [bytesToHex]: every byte as two lowercase digits, behind ["0x"]. *)
Definition byteHex (b : byte) : string :=
  padStart 2 "0" (toString16 (Byte.to_N b)).

Definition bytesToHex (bytes : list byte) : string :=
  "0x" ++ joinStrings (map byteHex bytes).

(** The loop body of the decoders: [parseInt(clean.slice(2i, 2i+2), 16)]
    stored at index [i]. *)
Definition decodeAt (clean : string) (i : nat) : byte :=
  toUint8 (parseInt16 (slice (i * 2) (i * 2 + 2) clean)).

(** [hexToBytes]: only the length is checked. *)
Definition hexToBytes (hex : string) : Completion (list byte) :=
  let cleanHex := if startsWith hex "0x" then sliceFrom 2 hex else hex in
  if negb (String.length cleanHex mod 2 =? 0)%nat
  then Throw (Error "Invalid hex string length")
  else Normal (map (decodeAt cleanHex) (seq 0 (String.length cleanHex / 2))).

(** The body of a hex string: what follows an optional ["0x"]. *)
Definition stripPrefix (hex : string) : string :=
  if startsWith hex "0x" then sliceFrom 2 hex else hex.

(** A signature with the byte at index [i] replaced, as the tests do with
    [badSig[100] ^= 0x01]. *)
Definition corruptByte (i : nat) (b : byte) (sig : list byte) : list byte :=
  (firstn i sig ++ b :: skipn (S i) sig)%list.

Inductive SecurityLevel : Type := ml_dsa44 | ml_dsa65 | ml_dsa87.

Record Sizes : Type :=
  { publicKey : nat; secretKey : nat; signature : nat }.

Definition KEY_SIZES (level : SecurityLevel) : Sizes :=
  match level with
  | ml_dsa44 => {| publicKey := 1312; secretKey := 2560; signature := 2420 |}
  | ml_dsa65 => {| publicKey := 1952; secretKey := 4032; signature := 3309 |}
  | ml_dsa87 => {| publicKey := 2592; secretKey := 4896; signature := 4627 |}
  end.

Definition DEFAULT_LEVEL : SecurityLevel := ml_dsa65.

Section WithAlgorithms.

(** [ALGORITHMS[level]] of @noble/post-quantum: opaque capabilities.
    [algo_sign level message secretKey] stands for one run of the hedged
    signer, [algo_verify level signature message publicKey] for the
    verifier; either may throw. *)
Variable algo_sign :
  SecurityLevel -> list byte -> list byte -> Completion (list byte).
Variable algo_verify :
  SecurityLevel -> list byte -> list byte -> list byte -> Completion bool.

Definition sign (secretKey message : list byte) (level : SecurityLevel)
  : Completion (list byte) :=
  let expectedSize := (KEY_SIZES level).(SnapCrypto.secretKey) in
  if negb (List.length secretKey =? expectedSize)%nat
  then Throw (Error ("Invalid secret key size: " ++ decimal (List.length secretKey)
                      ++ ", expected " ++ decimal expectedSize))
  else algo_sign level message secretKey.

Definition signUserOp (secretKey userOpHash : list byte) (level : SecurityLevel)
  : Completion (list byte) :=
  if negb (List.length userOpHash =? 32)%nat
  then Throw (Error ("UserOp hash must be 32 bytes, got "
                      ++ decimal (List.length userOpHash)))
  else sign secretKey userOpHash level.

Definition verify (publicKey message signature : list byte)
  (level : SecurityLevel) : Completion bool :=
  let sizes := KEY_SIZES level in
  if negb (List.length publicKey =? sizes.(SnapCrypto.publicKey))%nat
  then Throw (Error ("Invalid public key size: " ++ decimal (List.length publicKey)
                      ++ ", expected " ++ decimal sizes.(SnapCrypto.publicKey)))
  else if negb (List.length signature =? sizes.(SnapCrypto.signature))%nat
  then Throw (Error ("Invalid signature size: " ++ decimal (List.length signature)
                      ++ ", expected " ++ decimal sizes.(SnapCrypto.signature)))
  else
    (* try { return algo.verify(...) } catch { return false } *)
    match algo_verify level signature message publicKey with
    | Normal b => Normal b
    | Throw _ => Normal false
    end.

End WithAlgorithms.

End SnapCrypto.

(* ================================================================== *)
(** * demo/wallet/src/lib/signer.ts: the in-memory-seed signer         *)
(* ================================================================== *)

Module Signer.

Record MLDSAKeypair : Type :=
  { publicKey : list byte; secretKey : list byte }.

(** The module-level [let cachedKeypair: MLDSAKeypair | undefined]. *)
Definition State : Type := option MLDSAKeypair.

(** Calls that leave the module. *)
Inductive Call : Type :=
| CallKeygen (seed : list byte)
| CallSign (message secretKey : list byte).

Definition hexToBytesStrict (hex : string) : Completion (list byte) :=
  let clean := if startsWith hex "0x" then sliceFrom 2 hex else hex in
  if negb (String.length clean mod 2 =? 0)%nat
  then Throw (Error "Seed hex must have an even length")
  else if negb (isHexDigits clean)
  then Throw (Error "Seed contains non-hex characters")
  else Normal (map (SnapCrypto.decodeAt clean) (seq 0 (String.length clean / 2))).

Section WithMlDsa65.

(** [ml_dsa65.keygen] and [ml_dsa65.sign] of @noble/post-quantum. *)
Variable keygen : list byte -> Completion MLDSAKeypair.
Variable mldsa_sign : list byte -> list byte -> Completion (list byte).

(** Every operation returns its completion, the state it leaves and the
    calls it made, oldest first. *)
Definition configureSignerFromSeed (st : State) (seedHex : string)
  : Completion unit * State * list Call :=
  match hexToBytesStrict seedHex with
  | Throw e => (Throw e, st, [])
  | Normal seed =>
      if negb (List.length seed =? 32)%nat
      then (Throw (Error ("Expected 32-byte seed, got " ++ decimal (List.length seed))),
            st, [])
      else match keygen seed with
           | Throw e => (Throw e, st, [CallKeygen seed])
           | Normal kp => (Normal tt, Some kp, [CallKeygen seed])
           end
  end.

Definition isSignerConfigured (st : State) : bool :=
  match st with Some _ => true | None => false end.

Definition getKeypair (st : State) : Completion MLDSAKeypair :=
  match st with
  | None => Throw (Error "Signer not initialized. Load a 32-byte ML-DSA seed first.")
  | Some kp => Normal kp
  end.

Definition signUserOpHash (st : State) (hash : list byte)
  : Completion (list byte) * list Call :=
  match getKeypair st with
  | Throw e => (Throw e, [])
  | Normal kp =>
      (mldsa_sign hash kp.(secretKey), [CallSign hash kp.(secretKey)])
  end.

Definition getPublicKey (st : State) : Completion (list byte) :=
  kp <- getKeypair st ;; Normal kp.(publicKey).

End WithMlDsa65.

End Signer.

(* ================================================================== *)
(** * demo/wallet/src/lib/snap-signer.ts: the remote-plugin signer     *)
(* ================================================================== *)

Module SnapSigner.

(** A property read off a response object. *)
Inductive JsField : Type :=
| FUndefined
| FString (s : string)
| FOtherFalsy
| FOtherTruthy.

(** What [provider.request] resolves to: [null], [undefined], or a value
    whose [signature] property is read. *)
Inductive SnapResponse : Type :=
| RespNull
| RespUndefined
| RespValue (signature : JsField).

(** The [wallet_invokeSnap] request of [pq_signUserOp]. *)
Record SignRequest : Type :=
  { snapId : string; userOpHash : string; chainId : option Z }.

Definition EthereumProvider : Type := SignRequest -> Completion SnapResponse.

Definition bytesToHex (bytes : list byte) : string :=
  "0x" ++ joinStrings (map SnapCrypto.byteHex bytes).

Definition hexToBytesStrict (hex : string) : Completion (list byte) :=
  let clean := if startsWith hex "0x" then sliceFrom 2 hex else hex in
  if negb (String.length clean mod 2 =? 0)%nat
  then Throw (Error "Hex value must have an even length")
  else if negb (isHexDigits clean)
  then Throw (Error "Hex value contains non-hex characters")
  else Normal (map (SnapCrypto.decodeAt clean) (seq 0 (String.length clean / 2))).

Section WithEnvironment.

(** [window.ethereum], [SNAP_ID] and [CHAIN_ID]; the latter is
    [Number.parseInt] of a setting, so an integer or [NaN] ([None]). *)
Variable ethereum : option EthereumProvider.
Variable SNAP_ID : string.
Variable CHAIN_ID : option Z.

Definition getEthereumProvider : Completion EthereumProvider :=
  match ethereum with
  | None => Throw (Error "MetaMask not detected. Install MetaMask Flask to use Snap mode.")
  | Some p => Normal p
  end.

(** [signViaSnap] with the requests it sent to the provider. *)
Definition signViaSnap (hash : list byte)
  : Completion (list byte) * list SignRequest :=
  if negb (List.length hash =? 32)%nat
  then (Throw (Error ("Expected 32-byte UserOp hash, got " ++ decimal (List.length hash))),
        [])
  else
    let request :=
      {| snapId := SNAP_ID;
         userOpHash := bytesToHex hash;
         chainId := match CHAIN_ID with
                    | Some c => if (0 <? c)%Z then Some c else None
                    | None => None
                    end |} in
    match getEthereumProvider with
    | Throw e => (Throw e, [])
    | Normal provider =>
        match provider request with
        | Throw e => (Throw e, [request])
        | Normal RespNull =>
            (Throw (TypeError "Cannot read properties of null (reading 'signature')"),
             [request])
        | Normal RespUndefined =>
            (Throw (TypeError "Cannot read properties of undefined (reading 'signature')"),
             [request])
        | Normal (RespValue (FString s)) =>
            match s with
            | EmptyString => (Throw (Error "Snap returned an invalid signature"), [request])
            | _ => (hexToBytesStrict s, [request])
            end
        | Normal (RespValue _) =>
            (Throw (Error "Snap returned an invalid signature"), [request])
        end
    end.

End WithEnvironment.

End SnapSigner.

(* ================================================================== *)
(** * viem: the encoding helpers the wallet imports                    *)
(* ================================================================== *)

Module Viem.

Definition Hex : Type := string.

(** [isHex(value, { strict: false })] *)
Definition isHexLoose (value : string) : bool := startsWith value "0x".

(** [size(value)]: bytes of a hex string, [Math.ceil((length - 2) / 2)]. *)
Definition size (value : Hex) : nat :=
  if isHexLoose value then (String.length value - 2 + 1) / 2
  else String.length value.

Inductive Dir : Type := Left | Right.

(** [padHex(hex, { dir, size })] *)
Definition padHex (hex_ : Hex) (dir : Dir) (size : nat) : Completion Hex :=
  let hex := removeFirst "0x" hex_ in
  if (size * 2 <? String.length hex)%nat
  then Throw (LibraryError "SizeExceedsPaddingSizeError")
  else Normal ("0x" ++ match dir with
                       | Right => padEnd (size * 2) "0" hex
                       | Left => padStart (size * 2) "0" hex
                       end).

(** [pad(hex, { size })] on a hex string *)
Definition pad (hex : Hex) (size : nat) : Completion Hex := padHex hex Left size.

(** [numberToHex(value, { size })] on a bigint, unsigned. *)
Definition numberToHex (value : Z) (size : option nat) : Completion Hex :=
  let tooBig :=
    match size with
    | Some (S _ as n) => (2 ^ (8 * Z.of_nat n) - 1 <? value)%Z
    | _ => false
    end in
  if tooBig || (value <? 0)%Z
  then Throw (LibraryError "IntegerOutOfRangeError")
  else
    let hex := "0x" ++ toString16 (Z.to_N value) in
    match size with
    | Some (S _ as n) => pad hex n
    | _ => Normal hex
    end.

(** [toHex(value)] on a bigint *)
Definition toHex (value : Z) : Completion Hex := numberToHex value None.

(** [concat(values)] on hex strings *)
Definition concat (values : list Hex) : Hex :=
  "0x" ++ joinStrings (map (removeFirst "0x") values).

(** [/^0x[a-fA-F0-9]{40}$/.test(address)] *)
Definition matchesAddressRegex (address : string) : bool :=
  startsWith address "0x"
  && (String.length address =? 42)%nat
  && isHexDigits (sliceFrom 2 address).

(** A (type, value) pair of [encodeAbiParameters], for the three static
    types the wallet uses. *)
Inductive AbiParam : Type :=
| PAddress (value : string)
| PUint256 (value : Z)
| PBytes32 (value : Hex).

(** A hex string proper: the prefix, then hexadecimal digits only. *)
Definition isHexString (h : string) : bool :=
  startsWith h "0x" && isHexDigits (sliceFrom 2 h).

(** A 32-byte word: a hex string of 64 digits. *)
Definition isWord (w : string) : bool :=
  isHexString w && (String.length w =? 66)%nat.

(** The 32-byte words of the contract ABI: an address and an unsigned
    integer are padded with zeros on the left, a [bytes32] on the right. *)
Definition addressWord (a : string) : Hex :=
  "0x" ++ padStart 64 "0" (toLowerCase (sliceFrom 2 a)).

Definition uintWord (n : Z) : Hex :=
  "0x" ++ padStart 64 "0" (toString16 (Z.to_N n)).

Definition bytes32Word (b : Hex) : Hex :=
  "0x" ++ padEnd 64 "0" (sliceFrom 2 b).

Section WithKeccak.

(** [checksumAddress] hashes the address with keccak256. *)
Variable checksumAddress : string -> string.

(** [isAddress(address)], strict *)
Definition isAddress (address : string) : bool :=
  if negb (matchesAddressRegex address) then false
  else if (toLowerCase address =? address)%string then true
  else (checksumAddress address =? address)%string.

Definition encodeAddress (value : string) : Completion Hex :=
  if negb (isAddress value) then Throw (LibraryError "InvalidAddressError")
  else padHex (toLowerCase value) Left 32.

Definition encodeNumber (value : Z) : Completion Hex :=
  if (2 ^ 256 - 1 <? value)%Z || (value <? 0)%Z
  then Throw (LibraryError "IntegerOutOfRangeError")
  else numberToHex value (Some 32%nat).

Definition encodeBytes32 (value : Hex) : Completion Hex :=
  if negb (size value =? 32)%nat
  then Throw (LibraryError "AbiEncodingBytesSizeMismatchError")
  else padHex value Right 32.

Definition prepareParam (p : AbiParam) : Completion Hex :=
  match p with
  | PAddress a => encodeAddress a
  | PUint256 n => encodeNumber n
  | PBytes32 b => encodeBytes32 b
  end.

Fixpoint prepareParams (ps : list AbiParam) : Completion (list Hex) :=
  match ps with
  | [] => Normal []
  | p :: r =>
      w <- prepareParam p ;;
      ws <- prepareParams r ;;
      Normal (w :: ws)
  end.

(** [encodeAbiParameters(params, values)] when every parameter is
    static: the 32-byte words, in order. *)
Definition encodeAbiParameters (ps : list AbiParam) : Completion Hex :=
  ws <- prepareParams ps ;;
  Normal (concat ws).

End WithKeccak.

End Viem.

(* ================================================================== *)
(** * demo/wallet/src/lib/userop.ts                                    *)
(* ================================================================== *)

Module UserOp.

Import Viem.

Record PackedUserOp : Type :=
  { sender : string;
    nonce : Hex;
    initCode : Hex;
    callData : Hex;
    accountGasLimits : Hex;
    preVerificationGas : Hex;
    gasFees : Hex;
    paymasterAndData : Hex;
    signature : Hex }.

(** [Omit<PackedUserOp, 'signature'>] *)
Module Unsigned.
Record t : Type :=
  { sender : string;
    nonce : Hex;
    initCode : Hex;
    callData : Hex;
    accountGasLimits : Hex;
    preVerificationGas : Hex;
    gasFees : Hex;
    paymasterAndData : Hex }.
End Unsigned.

Record TxParams : Type :=
  { to : string; value : Z; data : option Hex }.

(** What [buildUserOp] asks of the outside. *)
Inductive Call : Type :=
| CallGetNonce (entryPoint account : string) (key : Z)
| CallSignFn (hash : list byte).

(** [hexToBytes] of this file checks nothing and throws nothing:
    [new Uint8Array(clean.length / 2)] drops the fraction of its length,
    so of an odd number of digits the complete pairs are decoded and the
    last digit is left out. *)
Definition hexToBytes (hex : string) : Completion (list byte) :=
  let clean := if startsWith hex "0x" then sliceFrom 2 hex else hex in
  Normal (map (SnapCrypto.decodeAt clean) (seq 0 (String.length clean / 2))).

Definition bytesToHex (bytes : list byte) : Hex :=
  "0x" ++ joinStrings (map SnapCrypto.byteHex bytes).

(** Lines 114-117 and 120-123 of [buildUserOp]: two quantities, each
    padded to 16 bytes, side by side. *)
Definition packPair (hi lo : Z) : Completion Hex :=
  h <- numberToHex hi None ;;
  ph <- pad h 16 ;;
  l <- numberToHex lo None ;;
  pl <- pad l 16 ;;
  Normal (concat [ph; pl]).

Section WithEnvironment.

(** Settings read from [import.meta.env]. [CHAIN_ID] is the result of
    [parseInt], an integer or [NaN]. *)
Variable ENTRYPOINT : string.
Variable KERNEL_ACCOUNT : string.
Variable PQ_VALIDATOR : string.
Variable CHAIN_ID : option Z.

(** viem's [keccak256] on a hex string (it throws on malformed input),
    [checksumAddress], and the two encoders of dynamic data. *)
Variable keccak256 : Hex -> Completion Hex.
Variable checksumAddress : string -> string.
Variable encodePacked_address_uint256_bytes :
  string -> Z -> Hex -> Completion Hex.
Variable encodeFunctionData_execute : Hex -> Hex -> Completion Hex.

(** [publicClient.readContract({ functionName: 'getNonce', ... })] *)
Variable readContract_getNonce : string -> string -> Z -> Completion Z.

(** [computeUserOpHash] *)
Definition computeUserOpHash (op : Unsigned.t) : Completion Hex :=
  (* Step 1: pack and hash dynamic fields *)
  nonce <- BigIntOfString op.(Unsigned.nonce) ;;
  initCodeHash <- keccak256 op.(Unsigned.initCode) ;;
  callDataHash <- keccak256 op.(Unsigned.callData) ;;
  preVerificationGas <- BigIntOfString op.(Unsigned.preVerificationGas) ;;
  paymasterHash <- keccak256 op.(Unsigned.paymasterAndData) ;;
  packed <- encodeAbiParameters checksumAddress
              [ PAddress op.(Unsigned.sender);
                PUint256 nonce;
                PBytes32 initCodeHash;
                PBytes32 callDataHash;
                PBytes32 op.(Unsigned.accountGasLimits);
                PUint256 preVerificationGas;
                PBytes32 op.(Unsigned.gasFees);
                PBytes32 paymasterHash ] ;;
  packedHash <- keccak256 packed ;;
  (* Step 2: hash with entrypoint and chain id *)
  chainId <- BigIntOfNumber CHAIN_ID ;;
  final <- encodeAbiParameters checksumAddress
             [ PBytes32 packedHash; PAddress ENTRYPOINT; PUint256 chainId ] ;;
  keccak256 final.

(** [buildUserOp]: the operation it returns and the outside calls it
    made. [signFn] is the active signer backend. *)
Definition buildUserOp (txParams : TxParams)
  (signFn : list byte -> Completion (list byte))
  : Run Call PackedUserOp :=
  (* 1. Encode Kernel execute() calldata *)
  executionCalldata <~ lift (encodePacked_address_uint256_bytes
                               txParams.(to) txParams.(value)
                               (match txParams.(data) with
                                | Some d => d
                                | None => "0x"
                                end)) ;;
  execMode <~ lift (pad "0x00" 32) ;;
  callData <~ lift (encodeFunctionData_execute execMode executionCalldata) ;;
  (* 2. Compute non-root validator nonce *)
  let validatorClean := toLowerCase (sliceFrom 2 PQ_VALIDATOR) in
  nonceKey <~ lift (BigIntOfString ("0x0001" ++ validatorClean ++ "0000")) ;;
  nonce <~ (readContract_getNonce ENTRYPOINT KERNEL_ACCOUNT nonceKey,
            [CallGetNonce ENTRYPOINT KERNEL_ACCOUNT nonceKey]) ;;
  (* 3. Gas parameters *)
  let verificationGasLimit := 2000000%Z in
  let callGasLimit := 100000%Z in
  let preVerificationGas := 100000%Z in
  let maxPriorityFeePerGas := 1000000000%Z in
  let maxFeePerGas := 10000000000%Z in
  accountGasLimits <~ lift (packPair verificationGasLimit callGasLimit) ;;
  gasFees <~ lift (packPair maxPriorityFeePerGas maxFeePerGas) ;;
  (* 4. Compute UserOp hash *)
  nonceHex <~ lift (toHex nonce) ;;
  pvgHex <~ lift (toHex preVerificationGas) ;;
  userOpHash <~ lift (computeUserOpHash
                        {| Unsigned.sender := KERNEL_ACCOUNT;
                           Unsigned.nonce := nonceHex;
                           Unsigned.initCode := "0x";
                           Unsigned.callData := callData;
                           Unsigned.accountGasLimits := accountGasLimits;
                           Unsigned.preVerificationGas := pvgHex;
                           Unsigned.gasFees := gasFees;
                           Unsigned.paymasterAndData := "0x" |}) ;;
  (* 5. Sign *)
  hashBytes <~ lift (hexToBytes userOpHash) ;;
  sigBytes <~ (signFn hashBytes, [CallSignFn hashBytes]) ;;
  let signature := bytesToHex sigBytes in
  ret {| sender := KERNEL_ACCOUNT;
         nonce := nonceHex;
         initCode := "0x";
         callData := callData;
         accountGasLimits := accountGasLimits;
         preVerificationGas := pvgHex;
         gasFees := gasFees;
         paymasterAndData := "0x";
         signature := signature |}.

End WithEnvironment.

End UserOp.

(* ================================================================== *)
(** * demo/wallet/src/lib/bundler.ts                                   *)
(* ================================================================== *)

Module Bundler.

Import UserOp.

(** A JSON property that may be absent. *)
Inductive JsVal : Type :=
| JUndefined
| JString (s : string).

(** [`${v}`] *)
Definition render (v : JsVal) : string :=
  match v with
  | JUndefined => "undefined"
  | JString s => s
  end.

(** The relay's unpacked operation; [None] is [null]. *)
Module Unpacked.
Record t : Type :=
  { sender : string;
    nonce : string;
    factory : option string;
    factoryData : option string;
    callData : string;
    callGasLimit : string;
    verificationGasLimit : string;
    preVerificationGas : string;
    maxFeePerGas : string;
    maxPriorityFeePerGas : string;
    paymaster : option string;
    paymasterVerificationGasLimit : option string;
    paymasterPostOpGasLimit : option string;
    paymasterData : option string;
    signature : string }.
End Unpacked.

Definition ensureHexPrefix (val : string) : string :=
  if (val =? "0x")%string || (val =? "0x0")%string || (val =? EmptyString)%string
  then "0x0"
  else if startsWith val "0x" then val else "0x" ++ val.

(** ['0x' + (half.replace(/^0+/, '') || '0')] *)
Definition quantityOf (half : string) : string :=
  "0x" ++ orElse (stripLeadingZeros half) "0".

(** [unpackUserOp]. No statement of it throws. *)
Definition unpackUserOp (packed : PackedUserOp) : Completion Unpacked.t :=
  (* accountGasLimits = verificationGasLimit(16) || callGasLimit(16) *)
  let agl := sliceFrom 2 packed.(accountGasLimits) in
  let verificationGasLimit := quantityOf (slice 0 32 agl) in
  let callGasLimit := quantityOf (sliceFrom 32 agl) in
  (* gasFees = maxPriorityFeePerGas(16) || maxFeePerGas(16) *)
  let gf := sliceFrom 2 packed.(gasFees) in
  let maxPriorityFeePerGas := quantityOf (slice 0 32 gf) in
  let maxFeePerGas := quantityOf (sliceFrom 32 gf) in
  Normal
    {| Unpacked.sender := packed.(sender);
       Unpacked.nonce := packed.(nonce);
       Unpacked.factory := None;
       Unpacked.factoryData := None;
       Unpacked.callData := packed.(callData);
       Unpacked.callGasLimit := ensureHexPrefix callGasLimit;
       Unpacked.verificationGasLimit := ensureHexPrefix verificationGasLimit;
       Unpacked.preVerificationGas := packed.(preVerificationGas);
       Unpacked.maxFeePerGas := ensureHexPrefix maxFeePerGas;
       Unpacked.maxPriorityFeePerGas := ensureHexPrefix maxPriorityFeePerGas;
       Unpacked.paymaster := None;
       Unpacked.paymasterVerificationGasLimit := None;
       Unpacked.paymasterPostOpGasLimit := None;
       Unpacked.paymasterData := None;
       Unpacked.signature := packed.(signature) |}.

(** The body of a JSON-RPC reply, as far as the client reads it. *)
Record RpcError : Type := { message : JsVal }.

Record SubmitReply : Type :=
  { submit_error : option RpcError; submit_result : JsVal }.

Record ReceiptJson : Type :=
  { receipt_transactionHash : option string;
    transactionHash : option string;
    actualGasUsed : option string }.

Record ReceiptReply : Type :=
  { receipt_result : option ReceiptJson }.

Record Receipt : Type := { txHash : string; gasUsed : string }.

(** Requests posted to the relay, with the values handed to
    [JSON.stringify] as [params]; an [undefined] among them is written as
    [null]. *)
Inductive Fetch : Type :=
| SendUserOperation (op : Unpacked.t) (entryPoint : string)
| GetUserOperationReceipt (opHash : JsVal).

(** [a ?? b] *)
Definition nullish (a : option string) (b : string) : string :=
  match a with Some s => s | None => b end.

Section WithRelay.

Variable ENTRYPOINT : string.

(** [fetch(...)] followed by [response.json()] for the submit method. *)
Variable relay_submit : Unpacked.t -> string -> Completion SubmitReply.

(** The [i]-th poll of the receipt method for an operation hash. *)
Variable relay_receipt : nat -> JsVal -> Completion ReceiptReply.

(** The clock. Every unsuccessful round sleeps one second, so the [i]-th
    test of the loop reads an elapsed time of [1000 * i] plus whatever
    the fetches and the timers added, [drift i]. *)
Variable drift : nat -> N.

Definition elapsedAt (i : nat) : Z := (1000 * Z.of_nat i + Z.of_N (drift i))%Z.

(** [submitUserOp]. What it returns is [result.result] as it came: the
    operation hash, or [undefined] when the reply has no such member. *)
Definition submitUserOp (userOp : PackedUserOp) : Run Fetch JsVal :=
  unpackedOp <~ lift (unpackUserOp userOp) ;;
  result <~ (relay_submit unpackedOp ENTRYPOINT,
             [SendUserOperation unpackedOp ENTRYPOINT]) ;;
  match result.(submit_error) with
  | Some err => raise (Error ("Bundler error: " ++ render err.(message)))
  | None => ret result.(submit_result)
  end.

(** The [while] loop of [waitForReceipt], from its [i]-th round on.
    [rounds] bounds the rounds left: by then the clock has passed any
    timeout below [1000 * (i + rounds)]. *)
Fixpoint pollReceipt (rounds i : nat) (opHash : JsVal) (timeoutMs : Z)
  : Run Fetch Receipt :=
  let timedOut :=
    raise (Error ("UserOp receipt not found after "
                    ++ decimalZ timeoutMs ++ "ms")) in
  match rounds with
  | O => timedOut
  | S rounds' =>
      if (elapsedAt i <? timeoutMs)%Z then
        result <~ (relay_receipt i opHash, [GetUserOperationReceipt opHash]) ;;
        match result.(receipt_result) with
        | Some r =>
            ret {| txHash := match r.(receipt_transactionHash) with
                             | Some h => h
                             | None => nullish r.(transactionHash) "unknown"
                             end;
                   gasUsed := nullish r.(actualGasUsed) "unknown" |}
        | None => pollReceipt rounds' (S i) opHash timeoutMs
        end
      else timedOut
  end.

(** [waitForReceipt] *)
Definition waitForReceipt (opHash : JsVal) (timeoutMs : Z) : Run Fetch Receipt :=
  pollReceipt (S (Z.to_nat (timeoutMs / 1000 + 1))) 0 opHash timeoutMs.

End WithRelay.

End Bundler.

(* ================================================================== *)
(** * demo/wallet/src/App.tsx: the approval lifecycle                  *)
(* ================================================================== *)

Module App.

Inductive TxStatus : Type :=
| idle | building | signing | submitting | waiting | confirmed | error.

Inductive SignerMode : Type := seed | snap.

Inductive LogType : Type := info | success | log_error | warning.

Record PendingTx : Type :=
  { id : Z; topic : string; to : string; value : string; data : string }.

(** The [response] member of [respondSessionRequest]. *)
Inductive SessionResponse : Type :=
| RespondResult (result : string)
| RespondError (code : Z) (message : string).

(** Everything [handleApprove] does that can be observed: state setters,
    log lines, the calls of imported functions ([Call...], recorded when
    the call is made) and what those functions did in turn. *)
Inductive Event : Type :=
| SetTxStatus (s : TxStatus)
| SetTxError (msg : string)
| SetSnapInfo
| AddLog (type : LogType) (message : string)
| CallBuildUserOp (txParams : UserOp.TxParams)
| InBuildUserOp (c : UserOp.Call)
| CallGetSnapInfo
| CallSubmitUserOp (userOp : UserOp.PackedUserOp)
| CallWaitForReceipt (opHash : Bundler.JsVal)
| Relay (f : Bundler.Fetch)
| RespondSessionRequest (topic : string) (id : Z) (response : SessionResponse).

(** [String(err)] when the message is empty: the class name. *)
Definition className (e : JsError) : string :=
  match e with
  | Error _ => "Error"
  | RangeError _ => "RangeError"
  | SyntaxError _ => "SyntaxError"
  | TypeError _ => "TypeError"
  | LibraryError n => n
  end.

(** [err?.message || String(err)] *)
Definition errorText (e : JsError) : string :=
  orElse (message_of e) (className e).

Section WithCollaborators.

(** Component state read by the callback. [wk] is
    [walletKitRef.current]; its [respondSessionRequest] may reject. *)
Variable wk : option (string -> Z -> SessionResponse -> Completion unit).
Variable pendingTx : option PendingTx.
Variable signerReady : bool.
Variable signerMode : SignerMode.

(** Imported functions, already applied to their settings. *)
Variable signViaSnap : list byte -> Completion (list byte).
Variable signUserOpHash : list byte -> Completion (list byte).
Variable buildUserOp :
  UserOp.TxParams -> (list byte -> Completion (list byte))
  -> Run UserOp.Call UserOp.PackedUserOp.
Variable getSnapInfo : Completion unit.
Variable submitUserOp : UserOp.PackedUserOp -> Run Bundler.Fetch Bundler.JsVal.
Variable waitForReceipt : Bundler.JsVal -> Z -> Run Bundler.Fetch Bundler.Receipt.

Definition setTxStatus (s : TxStatus) : Run Event unit := emit (SetTxStatus s).
Definition addLog (t : LogType) (m : string) : Run Event unit := emit (AddLog t m).

Definition respond (w : string -> Z -> SessionResponse -> Completion unit)
  (tx : PendingTx) (r : SessionResponse) : Run Event unit :=
  (w tx.(topic) tx.(id) r, [RespondSessionRequest tx.(topic) tx.(id) r]).

(** The [try] block. *)
Definition pipeline (w : string -> Z -> SessionResponse -> Completion unit)
  (tx : PendingTx) : Run Event unit :=
  (* Step 1: Build UserOp *)
  setTxStatus building ;;;
  addLog info "Building UserOp..." ;;;
  let signFn := match signerMode with snap => signViaSnap | seed => signUserOpHash end in
  let signerLabel := match signerMode with snap => "MetaMask Snap" | seed => "in-memory seed" end in
  value <~ lift (BigIntOfString tx.(value)) ;;
  let txParams := {| UserOp.to := tx.(to);
                     UserOp.value := value;
                     UserOp.data := Some (orElse tx.(data) "0x") |} in
  emit (CallBuildUserOp txParams) ;;;
  userOp <~ mapEvents InBuildUserOp (buildUserOp txParams signFn) ;;
  match signerMode with
  | snap =>
      (* getSnapInfo().catch(() => null) *)
      emit CallGetSnapInfo ;;;
      match getSnapInfo with
      | Normal _ => emit SetSnapInfo
      | Throw _ => ret tt
      end
  | seed => ret tt
  end ;;;
  setTxStatus signing ;;;
  addLog success ("UserOp built & signed via " ++ signerLabel ++ " (sig: "
                    ++ slice 0 20 userOp.(UserOp.signature) ++ "...)") ;;;
  (* Step 2: Submit to bundler *)
  setTxStatus submitting ;;;
  addLog info "Submitting to Alto bundler..." ;;;
  emit (CallSubmitUserOp userOp) ;;;
  opHash <~ mapEvents Relay (submitUserOp userOp) ;;
  addLog success ("Bundler accepted: " ++ Bundler.render opHash) ;;;
  (* Step 3: Wait for on-chain receipt *)
  setTxStatus waiting ;;;
  addLog info "Waiting for on-chain confirmation..." ;;;
  emit (CallWaitForReceipt opHash) ;;;
  receipt <~ mapEvents Relay (waitForReceipt opHash 30000) ;;
  setTxStatus confirmed ;;;
  addLog success ("Confirmed! TX: " ++ receipt.(Bundler.txHash)
                    ++ " (gas: " ++ receipt.(Bundler.gasUsed) ++ ")") ;;;
  (* Respond to dapp with the TX hash *)
  respond w tx (RespondResult receipt.(Bundler.txHash)) ;;;
  addLog success "TX hash sent back to dapp".

(** The [catch] block. *)
Definition onFailure (w : string -> Z -> SessionResponse -> Completion unit)
  (tx : PendingTx) (err : JsError) : Run Event unit :=
  setTxStatus error ;;;
  let msg := errorText err in
  emit (SetTxError msg) ;;;
  addLog log_error ("Failed: " ++ msg) ;;;
  (* Respond with error to dapp; .catch(() => {}) *)
  tryCatch (respond w tx (RespondError (-32000) msg)) (fun _ => ret tt).

(** [handleApprove] *)
Definition handleApprove : Run Event unit :=
  match wk, pendingTx with
  | Some w, Some tx =>
      if negb signerReady then
        addLog log_error
          (match signerMode with
           | seed => "Signer not ready: load ML-DSA seed first"
           | snap => "Signer not ready: connect MetaMask Snap first"
           end)
      else tryCatch (pipeline w tx) (onFailure w tx)
  | _, _ => ret tt
  end.

End WithCollaborators.

(** The [txStatus] and [txError] a run of events leaves behind. *)
Fixpoint statusAfter (s : TxStatus) (evs : list Event) : TxStatus :=
  match evs with
  | [] => s
  | SetTxStatus s' :: r => statusAfter s' r
  | _ :: r => statusAfter s r
  end.

Fixpoint errorAfter (e : option string) (evs : list Event) : option string :=
  match evs with
  | [] => e
  | SetTxError m :: r => errorAfter (Some m) r
  | _ :: r => errorAfter e r
  end.

(** The events of receipt polling: the call of [waitForReceipt] and the
    requests it posts. *)
Definition isReceiptPolling (ev : Event) : bool :=
  match ev with
  | CallWaitForReceipt _ => true
  | Relay (Bundler.GetUserOperationReceipt _) => true
  | _ => false
  end.

End App.

(* ================================================================== *)
(** * evm/src/PQValidatorModule.sol                                    *)
(* ================================================================== *)

Module PQValidatorModule.

(** Fixed-width values are numbers: an [address] below 2^160, a
    [bytes32] or [uint256] below 2^256, a [bytes4] below 2^32. Dynamic
    [bytes] are byte lists. *)
Definition address : Type := N.
Definition bytes32 : Type := N.
Definition bytes4 : Type := N.
Definition bytes : Type := list byte.

Definition ERC1271_VALID : bytes4 := 0x1626ba7e%N.
Definition ERC1271_INVALID : bytes4 := 0xffffffff%N.

(** From erc7579/interfaces/IERC7579Module.sol. *)
Definition VALIDATION_SUCCESS : N := 0%N.
Definition VALIDATION_FAILED : N := 1%N.

(** The [len] low-order bytes of [n], most significant first. *)
Fixpoint bigEndian (len : nat) (n : N) : list byte :=
  match len with
  | O => []
  | S k => (bigEndian k (n / 256) ++ [byteOfN n])%list
  end.

(** [abi.encodePacked(address, uint256, address, address, bytes32)]:
    each value at its own width (20, 32, 20, 20, 32 bytes), no padding. *)
Definition encodePacked (a1 : address) (n : N) (a2 a3 : address) (h : bytes32)
  : bytes :=
  (bigEndian 20 a1 ++ bigEndian 32 n ++ bigEndian 20 a2
     ++ bigEndian 20 a3 ++ bigEndian 32 h)%list.

(** The transaction context of a call. *)
Record Context : Type :=
  { this : address;        (* address(this) *)
    chainid : N;           (* block.chainid *)
    msg_sender : address   (* msg.sender *) }.

(** The values of a call lie in the ranges of their Solidity types:
    [address] is 160 bits wide, [uint256] and [bytes32] are 256. *)
Definition wellTyped (ctx : Context) (sender : address) (hash : bytes32) : Prop :=
  (ctx.(this) < 2 ^ 160 /\ ctx.(chainid) < 2 ^ 256 /\ ctx.(msg_sender) < 2 ^ 160
   /\ sender < 2 ^ 160 /\ hash < 2 ^ 256)%N.

Section WithVerifier.

(** The EVM's [keccak256] and the Stylus verifier; a call to the
    verifier may revert ([None]), which reverts the caller. *)
Variable keccak256 : bytes -> bytes32.
Variable verifier_verify : bytes -> bytes32 -> bytes -> option bool.

(** Storage: [mapping(address => bytes) internal publicKeys]. *)
Variable publicKeys : address -> bytes.

Definition isInitialized (smartAccount : address) : bool :=
  (0 <? List.length (publicKeys smartAccount))%nat.

(** [validateUserOp]; [None] is a revert. *)
Definition validateUserOp (ctx : Context) (userSig : bytes) (userOpHash : bytes32)
  : option N :=
  if negb (isInitialized ctx.(msg_sender)) then Some VALIDATION_FAILED
  else
    let mlDSAPubKey := publicKeys ctx.(msg_sender) in
    match verifier_verify mlDSAPubKey userOpHash userSig with
    | None => None
    | Some isVerified =>
        Some (if isVerified then VALIDATION_SUCCESS else VALIDATION_FAILED)
    end.

(** The hash [isValidSignatureWithSender] hands to the verifier. *)
Definition senderBoundHash (ctx : Context) (sender : address) (hash : bytes32)
  : bytes32 :=
  keccak256 (encodePacked ctx.(this) ctx.(chainid) ctx.(msg_sender) sender hash).

(** [isValidSignatureWithSender]; [None] is a revert. *)
Definition isValidSignatureWithSender (ctx : Context) (sender : address)
  (hash : bytes32) (signature : bytes) : option bytes4 :=
  if negb (isInitialized ctx.(msg_sender)) then Some ERC1271_INVALID
  else
    let mlDSAPubKey := publicKeys ctx.(msg_sender) in
    match verifier_verify mlDSAPubKey (senderBoundHash ctx sender hash) signature with
    | None => None
    | Some isVerified =>
        Some (if isVerified then ERC1271_VALID else ERC1271_INVALID)
    end.

End WithVerifier.

End PQValidatorModule.

(* ================================================================== *)
(** * Sample inputs and stand-ins for the outside world                *)
(* ================================================================== *)

Module Samples.

(** An operation whose [accountGasLimits] is one byte wide and whose
    [gasFees] is empty. *)
Definition narrowOp : UserOp.PackedUserOp :=
  {| UserOp.sender := "0x1111111111111111111111111111111111111111";
     UserOp.nonce := "0x0";
     UserOp.initCode := "0x";
     UserOp.callData := "0x";
     UserOp.accountGasLimits := "0x01";
     UserOp.preVerificationGas := "0x186a0";
     UserOp.gasFees := "0x";
     UserOp.paymasterAndData := "0x";
     UserOp.signature := "0x" |}.

(** A stub capability: it accepts the all-zero ML-DSA-44 signature and
    throws on everything else. *)
Definition stub_verify (_ : SnapCrypto.SecurityLevel) (s _ _ : list byte) : Completion bool :=
  if list_eq_dec Byte.byte_eq_dec s (repeat x00 2420)
  then Normal true
  else Throw (Error "invalid signature encoding").

(** A stand-in for [keccak256] that meets its contract, and the record
    [buildUserOp] assembles for nonce 0 with the fixed gas policy. *)
Definition stub_keccak256 (_ : Viem.Hex) : Completion Viem.Hex :=
  Normal ("0x" ++ repeatChar "7" 64).

Definition sampleOp : UserOp.Unsigned.t :=
  {| UserOp.Unsigned.sender := "0x2222222222222222222222222222222222222222";
     UserOp.Unsigned.nonce := "0x0";
     UserOp.Unsigned.initCode := "0x";
     UserOp.Unsigned.callData := "0xe9ae5c53";
     UserOp.Unsigned.accountGasLimits :=
       "0x000000000000000000000000001e8480000000000000000000000000000186a0";
     UserOp.Unsigned.preVerificationGas := "0x186a0";
     UserOp.Unsigned.gasFees :=
       "0x0000000000000000000000003b9aca00000000000000000000000002540be400";
     UserOp.Unsigned.paymasterAndData := "0x" |}.

(** A run of the real [buildUserOp] with stand-ins for the outside: the
    nonce authority answers 0, the seed signer returns two bytes, the
    relay refuses with an ERC-4337 error. *)
Definition sampleBuild :
  UserOp.TxParams -> (list byte -> Completion (list byte))
  -> Run UserOp.Call UserOp.PackedUserOp :=
  UserOp.buildUserOp
    "0x0000000071727de22e5e9d8baf0edac6f37da032"
    "0x2222222222222222222222222222222222222222"
    "0x3333333333333333333333333333333333333333"
    (Some 412346%Z)
    stub_keccak256
    (fun a => a)
    (fun to value data =>
       Normal (to ++ padStart 64 "0" (toString16 (Z.to_N value)) ++ sliceFrom 2 data))
    (fun _ calldata => Normal ("0xe9ae5c53" ++ sliceFrom 2 calldata))
    (fun _ _ _ => Normal 0%Z).

Definition sampleTx : App.PendingTx :=
  {| App.id := 1;
     App.topic := "topic-1";
     App.to := "0x1111111111111111111111111111111111111111";
     App.value := "0x38d7ea4c68000";
     App.data := EmptyString |}.

Definition sampleSign (_ : list byte) : Completion (list byte) :=
  Normal [xaa; xbb].

Definition sampleBuilt : UserOp.PackedUserOp :=
  Eval vm_compute in
    match fst (sampleBuild {| UserOp.to := sampleTx.(App.to);
                              UserOp.value := 1000000000000000;
                              UserOp.data := Some "0x" |} sampleSign) with
    | Normal op => op
    | Throw _ => narrowOp
    end.

Definition sampleCalls : list UserOp.Call :=
  Eval vm_compute in
    snd (sampleBuild {| UserOp.to := sampleTx.(App.to);
                        UserOp.value := 1000000000000000;
                        UserOp.data := Some "0x" |} sampleSign).

Definition refusingRelay (_ : Bundler.Unpacked.t) (_ : string)
  : Completion Bundler.SubmitReply :=
  Normal {| Bundler.submit_error :=
              Some {| Bundler.message := Bundler.JString "AA21 didn't pay prefund" |};
            Bundler.submit_result := Bundler.JUndefined |}.

(** A relay that accepts every operation. *)
Definition acceptingRelay (_ : Bundler.Unpacked.t) (_ : string)
  : Completion Bundler.SubmitReply :=
  Normal {| Bundler.submit_error := None;
            Bundler.submit_result := Bundler.JString "0xabc" |}.

(** A relay that finds the receipt at the third poll. *)
Definition slowRelay (i : nat) (_ : Bundler.JsVal) : Completion Bundler.ReceiptReply :=
  if (i <? 2)%nat then Normal {| Bundler.receipt_result := None |}
  else Normal {| Bundler.receipt_result :=
                   Some {| Bundler.receipt_transactionHash := None;
                           Bundler.transactionHash := Some "0x7777";
                           Bundler.actualGasUsed := None |} |}.

Definition sampleSubmitTrace : list Bundler.Fetch :=
  Eval vm_compute in
    snd (Bundler.submitUserOp "0x0000000071727de22e5e9d8baf0edac6f37da032"
           acceptingRelay sampleBuilt).

Definition sampleReceiptTrace : list Bundler.Fetch :=
  Eval vm_compute in
    snd (Bundler.waitForReceipt slowRelay (fun _ => 5%N) (Bundler.JString "0xabc") 30000).

End Samples.

(* ================================================================== *)
(** * evm/src/PQValidatorModule.sol: installing and removing keys      *)
(* ================================================================== *)

Module PQValidatorStorage.

Import PQValidatorModule.

(** The custom errors a call reverts with. *)
Inductive Revert : Type :=
| AlreadyInitialized (smartAccount : address)
| NotInitialized (smartAccount : address)
| InvalidMLDSAPublicKeyLength (actual expected : nat).

(** [mapping(address => bytes) internal publicKeys]: every key is present,
    an untouched one holds the empty byte string. *)
Definition Storage : Type := address -> bytes.

Definition emptyStorage : Storage := fun _ => [].

(** [publicKeys[a] = d] *)
Definition assign (publicKeys : Storage) (a : address) (d : bytes) : Storage :=
  fun x => if (x =? a)%N then d else publicKeys x.

(** [onInstall]: the storage it leaves, or the error it reverts with. *)
Definition onInstall (publicKeys : Storage) (msg_sender : address) (data : bytes)
  : Storage + Revert :=
  if isInitialized publicKeys msg_sender then inr (AlreadyInitialized msg_sender)
  else if negb (List.length data =? 1952)%nat
  then inr (InvalidMLDSAPublicKeyLength (List.length data) 1952)
  else inl (assign publicKeys msg_sender data).

(** [onUninstall]; [delete publicKeys[msg.sender]] resets the entry. *)
Definition onUninstall (publicKeys : Storage) (msg_sender : address) (data : bytes)
  : Storage + Revert :=
  if negb (isInitialized publicKeys msg_sender) then inr (NotInitialized msg_sender)
  else inl (assign publicKeys msg_sender []).

End PQValidatorStorage.

(* ================================================================== *)
(** * Scenarios of the relay, for stating what the client does         *)
(* ================================================================== *)

Module RelayScenarios.

Import Bundler.

(** Round [j] of the polling loop is pending: the clock is still within
    the timeout and the reply carries no receipt. *)
Definition pendingRound (relay_receipt : nat -> JsVal -> Completion ReceiptReply)
  (drift : nat -> N) (opHash : JsVal) (timeoutMs : Z) (j : nat) : Prop :=
  (elapsedAt drift j < timeoutMs)%Z
  /\ exists reply, relay_receipt j opHash = Normal reply
                   /\ reply.(receipt_result) = None.

(** No poll ever brings a receipt. *)
Definition neverReceipt (relay_receipt : nat -> JsVal -> Completion ReceiptReply)
  (opHash : JsVal) : Prop :=
  forall j, exists reply, relay_receipt j opHash = Normal reply
                          /\ reply.(receipt_result) = None.

(** The error [waitForReceipt] throws when the time is up. *)
Definition timeoutError (timeoutMs : Z) : JsError :=
  Error ("UserOp receipt not found after " ++ decimalZ timeoutMs ++ "ms").

(** A quantity in the relay's hexadecimal spelling: the prefix, then at
    least one character, the first of which is a zero only if it is the
    last. *)
Definition isQuantity (q : string) : bool :=
  startsWith q "0x"
  && match sliceFrom 2 q with
     | EmptyString => false
     | String c r => negb (c =? "0")%char || (r =? EmptyString)%string
     end.

End RelayScenarios.

(* ================================================================== *)
(** * demo/wallet/src/App.tsx: declining a request, loading a seed     *)
(* ================================================================== *)

Module Session.

Import App.

(** The events of [App], and the two state setters the callbacks below
    use besides. *)
Inductive SessionEvent : Type :=
| AppEvent (e : Event)
| SetPendingTx (tx : option PendingTx)
| SetSeedSignerReady (ready : bool)
| SetSeedInput (text : string)
| InSigner (c : Signer.Call).

(** [handleReject] *)
Definition handleReject
  (wk : option (string -> Z -> SessionResponse -> Completion unit))
  (pendingTx : option PendingTx) : Run SessionEvent unit :=
  match wk, pendingTx with
  | Some w, Some tx =>
      mapEvents AppEvent (respond w tx (RespondError 4001 "User rejected")) ;;;
      emit (SetPendingTx None) ;;;
      emit (AppEvent (SetTxStatus idle)) ;;;
      emit (AppEvent (AddLog info "Transaction rejected by user"))
  | _, _ => ret tt
  end.

(** [String(err)] of an error object: the class name, a colon and the
    message, or the class name alone when the message is empty. *)
Definition errorString (e : JsError) : string :=
  match message_of e with
  | EmptyString => className e
  | m => className e ++ ": " ++ m
  end.

(** [handleLoadSeed]: the signer state it leaves and what it did.
    [configure] is [configureSignerFromSeed] applied to the signer's
    primitives. *)
Definition handleLoadSeed
  (configure : Signer.State -> string
               -> Completion unit * Signer.State * list Signer.Call)
  (st : Signer.State) (seedInput : string)
  : Run SessionEvent unit * Signer.State :=
  let seedHex := trim seedInput in
  match seedHex with
  | EmptyString => (ret tt, st)
  | _ =>
      let '(c, st', calls) := configure st seedHex in
      match c with
      | Normal _ =>
          ((Normal tt,
            (map InSigner calls
               ++ [ SetSeedSignerReady true;
                    SetSeedInput EmptyString;
                    AppEvent (AddLog success "ML-DSA seed loaded (in-memory only)") ])%list),
           st')
      | Throw err =>
          ((Normal tt,
            (map InSigner calls
               ++ [ AppEvent (AddLog log_error ("Invalid ML-DSA seed: " ++ errorString err)) ])%list),
           st')
      end
  end.

End Session.

(* ================================================================== *)
(** * What a run of the lifecycle shows                                *)
(* ================================================================== *)

Module Observations.

Import App.

(** The statuses a run sets, in order. *)
Fixpoint statusesOf (evs : list Event) : list TxStatus :=
  match evs with
  | [] => []
  | SetTxStatus s :: r => s :: statusesOf r
  | _ :: r => statusesOf r
  end.

(** The answers a run sends to the session, in order. *)
Fixpoint responsesOf (evs : list Event) : list SessionResponse :=
  match evs with
  | [] => []
  | RespondSessionRequest _ _ r :: rest => r :: responsesOf rest
  | _ :: rest => responsesOf rest
  end.

(** Building, signing, asking the snap or contacting the relay. *)
Definition isPipelineCall (ev : Event) : bool :=
  match ev with
  | CallBuildUserOp _ | InBuildUserOp _ | CallGetSnapInfo
  | CallSubmitUserOp _ | CallWaitForReceipt _ | Relay _ => true
  | _ => false
  end.

(** Contacting the relay. *)
Definition isRelayCall (ev : Event) : bool :=
  match ev with
  | CallSubmitUserOp _ | CallWaitForReceipt _ | Relay _ => true
  | _ => false
  end.

(** A receipt request posted to the relay. *)
Definition isReceiptRequest (ev : Event) : bool :=
  match ev with
  | Relay (Bundler.GetUserOperationReceipt _) => true
  | _ => false
  end.

(** What the snap step of the pipeline leaves in the trace. *)
Definition snapInfoEvents (signerMode : SignerMode) (getSnapInfo : Completion unit)
  : list Event :=
  match signerMode with
  | seed => []
  | snap => CallGetSnapInfo :: match getSnapInfo with
                               | Normal _ => [SetSnapInfo]
                               | Throw _ => []
                               end
  end.

(** The trace of a run up to the call of [submitUserOp], when building
    and signing went well. *)
Definition builtEvents (signerMode : SignerMode) (getSnapInfo : Completion unit)
  (tx : PendingTx) (value : Z) (calls : list UserOp.Call)
  (userOp : UserOp.PackedUserOp) : list Event :=
  ([ SetTxStatus building;
     AddLog info "Building UserOp...";
     CallBuildUserOp {| UserOp.to := tx.(to);
                        UserOp.value := value;
                        UserOp.data := Some (orElse tx.(data) "0x") |} ]
     ++ map InBuildUserOp calls
     ++ snapInfoEvents signerMode getSnapInfo
     ++ [ SetTxStatus signing;
          AddLog success
            ("UserOp built & signed via "
               ++ match signerMode with
                  | snap => "MetaMask Snap"
                  | seed => "in-memory seed"
                  end
               ++ " (sig: " ++ slice 0 20 userOp.(UserOp.signature) ++ "...)");
          SetTxStatus submitting;
          AddLog info "Submitting to Alto bundler...";
          CallSubmitUserOp userOp ])%list.

(** From the relay's acceptance to the call of [waitForReceipt]. *)
Definition acceptedEvents (opHash : Bundler.JsVal) : list Event :=
  [ AddLog success ("Bundler accepted: " ++ Bundler.render opHash);
    SetTxStatus waiting;
    AddLog info "Waiting for on-chain confirmation...";
    CallWaitForReceipt opHash ].

(** From the receipt to the answer sent to the session. *)
Definition confirmedEvents (tx : PendingTx) (receipt : Bundler.Receipt) : list Event :=
  [ SetTxStatus confirmed;
    AddLog success ("Confirmed! TX: " ++ receipt.(Bundler.txHash)
                      ++ " (gas: " ++ receipt.(Bundler.gasUsed) ++ ")");
    RespondSessionRequest tx.(topic) tx.(id)
      (RespondResult receipt.(Bundler.txHash)) ].

(** What the [catch] block adds for an error. *)
Definition failureEvents (tx : PendingTx) (err : JsError) : list Event :=
  [ SetTxStatus error;
    SetTxError (errorText err);
    AddLog log_error ("Failed: " ++ errorText err);
    RespondSessionRequest tx.(topic) tx.(id)
      (RespondError (-32000) (errorText err)) ].

(** The status sequences of the lifecycle: the stages in order, cut short
    by [error] at the stage that failed. *)
Definition lifecycleSequences : list (list TxStatus) :=
  [ [building; error];
    [building; signing; submitting; error];
    [building; signing; submitting; waiting; error];
    [building; signing; submitting; waiting; confirmed];
    [building; signing; submitting; waiting; confirmed; error] ].

End Observations.

(* ================================================================== *)
(** * pq-snap/src/state.ts: the snap's persistent state                *)
(* ================================================================== *)

Module SnapState.

Record KeypairState : Type :=
  { publicKey : string;
    secretKey : string;
    level : SnapCrypto.SecurityLevel;
    createdAt : Z;
    nonce : Z }.

Record SnapState : Type :=
  { keypair : option KeypairState; version : Z }.

Definition STATE_VERSION : Z := 1.

(** What the module can reach: the state MetaMask keeps for the snap
    ([None] while nothing is stored; [snap_manageState] hands out and
    takes in copies) and the module-level object [DEFAULT_STATE], which
    [getState] returns itself, not a copy of it. *)
Record World : Type :=
  { stored : option SnapState; DEFAULT_STATE : SnapState }.

(** The world of a freshly started snap with the given stored state. *)
Definition started (s : option SnapState) : World :=
  {| stored := s;
     DEFAULT_STATE := {| keypair := None; version := STATE_VERSION |} |}.

(** The object a variable [state] refers to: [DEFAULT_STATE] itself, or
    an object of its own. *)
Inductive StateRef : Type :=
| DefaultRef
| Fresh (s : SnapState).

(** What the snap does that can be observed from outside its state. *)
Inductive Component : Type :=
| heading (s : string)
| text (s : string)
| divider
| copyable (s : string).

Inductive DialogType : Type := confirmation | alert.

Record Dialog : Type := { type : DialogType; content : list Component }.

Inductive Effect : Type :=
| ShowDialog (d : Dialog)
| CallSign (secretKey message : list byte) (level : SnapCrypto.SecurityLevel)
| CallSignUserOp (secretKey userOpHash : list byte) (level : SnapCrypto.SecurityLevel).

(** A computation of the snap: from a world to a completion, the world it
    leaves (also when it throws) and what it did, oldest first. *)
Definition Snap (A : Type) : Type := World -> Completion A * World * list Effect.

Definition retS {A} (a : A) : Snap A := fun w => (Normal a, w, []).
Definition failS {A} (e : JsError) : Snap A := fun w => (Throw e, w, []).
Definition liftS {A} (c : Completion A) : Snap A := fun w => (c, w, []).
Definition tell (ev : Effect) : Snap unit := fun w => (Normal tt, w, [ev]).

Definition bindS {A B} (m : Snap A) (k : A -> Snap B) : Snap B :=
  fun w =>
    match m w with
    | (Normal a, w1, t1) =>
        let '(c, w2, t2) := k a w1 in (c, w2, (t1 ++ t2)%list)
    | (Throw e, w1, t1) => (Throw e, w1, t1)
    end.

Declare Scope snap_scope.
Notation "x <- c ;; k" := (bindS c (fun x => k))
  (at level 61, c at next level, right associativity) : snap_scope.
Notation "c ;;; k" := (bindS c (fun _ => k))
  (at level 61, right associativity) : snap_scope.
Local Open Scope snap_scope.

(** [migrateState]: a new object, [{ ...oldState, version }]. *)
Definition migrateState (oldState : SnapState) : SnapState :=
  {| keypair := oldState.(keypair); version := STATE_VERSION |}.

(** [getState] *)
Definition getState : Snap StateRef :=
  fun w =>
    (Normal match w.(stored) with
            | None => DefaultRef
            | Some typedState =>
                if (typedState.(version) <? STATE_VERSION)%Z
                then Fresh (migrateState typedState)
                else Fresh typedState
            end, w, []).

(** Reading the object behind a reference, and assigning to its
    members. *)
Definition deref (r : StateRef) : Snap SnapState :=
  fun w =>
    (Normal match r with
            | DefaultRef => w.(DEFAULT_STATE)
            | Fresh s => s
            end, w, []).

Definition mutate (r : StateRef) (f : SnapState -> SnapState) : Snap StateRef :=
  fun w =>
    match r with
    | DefaultRef =>
        (Normal DefaultRef,
         {| stored := w.(stored); DEFAULT_STATE := f w.(DEFAULT_STATE) |}, [])
    | Fresh s => (Normal (Fresh (f s)), w, [])
    end.

(** [setState] *)
Definition setState (r : StateRef) : Snap unit :=
  fun w =>
    (Normal tt,
     {| stored := Some match r with
                       | DefaultRef => w.(DEFAULT_STATE)
                       | Fresh s => s
                       end;
        DEFAULT_STATE := w.(DEFAULT_STATE) |}, []).

(** [clearState] *)
Definition clearState : Snap unit :=
  fun w => (Normal tt, {| stored := None; DEFAULT_STATE := w.(DEFAULT_STATE) |}, []).

(** [getKeypair] *)
Definition getKeypair : Snap (option KeypairState) :=
  r <- getState ;;
  state <- deref r ;;
  retS state.(keypair).

(** [saveKeypair]; [now] is what [Date.now()] returns. *)
Definition saveKeypair (now : Z) (publicKey secretKey : string)
  (level : SnapCrypto.SecurityLevel) : Snap unit :=
  r <- getState ;;
  r <- mutate r (fun state =>
                   {| keypair := Some {| publicKey := publicKey;
                                         secretKey := secretKey;
                                         level := level;
                                         createdAt := now;
                                         nonce := 0 |};
                      version := state.(version) |}) ;;
  setState r.

(** [state.keypair.nonce += 1]; the counter is exact below 2^53. *)
Definition bumpNonce (state : SnapState) : SnapState :=
  {| keypair := match state.(keypair) with
                | Some kp => Some {| publicKey := kp.(publicKey);
                                     secretKey := kp.(secretKey);
                                     level := kp.(level);
                                     createdAt := kp.(createdAt);
                                     nonce := kp.(nonce) + 1 |}
                | None => None
                end;
     version := state.(version) |}.

(** [incrementNonce] *)
Definition incrementNonce : Snap Z :=
  r <- getState ;;
  state <- deref r ;;
  match state.(keypair) with
  | None => failS (Error "No keypair stored")
  | Some kp =>
      r <- mutate r bumpNonce ;;
      setState r ;;;
      retS kp.(nonce)
  end.

(** [getNonce] *)
Definition getNonce : Snap Z :=
  r <- getState ;;
  state <- deref r ;;
  retS match state.(keypair) with
       | None => 0%Z
       | Some kp => kp.(nonce)
       end.

(** [deleteKeypair] *)
Definition deleteKeypair : Snap unit :=
  r <- getState ;;
  r <- mutate r (fun state => {| keypair := None; version := state.(version) |}) ;;
  setState r.

End SnapState.

(* ================================================================== *)
(** * pq-snap/src/handlers/sign.ts: signing on confirmation            *)
(* ================================================================== *)

Module SnapSign.

Import SnapState.
Local Open Scope snap_scope.

(** Request parameters as they arrive; [None] is an absent member. *)
Record SignMessageParams : Type := { message : option string }.

Record SignUserOpParams : Type :=
  { userOpHash : option string; chainId : option Z }.

Record SignatureResponse : Type := { signature : string; nonce : Z }.

Record Info : Type :=
  { hasKeypair : bool;
    info_level : option SnapCrypto.SecurityLevel;
    info_nonce : Z;
    publicKeyPrefix : option string }.

(** The dialog of [handleSignMessage]. *)
Definition signMessageDialog (message : string) (messageBytes : list byte) : Dialog :=
  {| type := confirmation;
     content :=
       [ heading "Sign Message";
         text "An application wants to sign a message with your post-quantum key.";
         divider;
         text "**Message (hex):**";
         copyable (slice 0 66 message
                     ++ (if (66 <? String.length message)%nat then "..." else EmptyString));
         divider;
         text ("**Message size:** " ++ decimal (List.length messageBytes) ++ " bytes");
         text "**Signature type:** ML-DSA-65" ] |}.

(** The dialog of [handleSignUserOp]; a chain id of 0 is falsy and not
    shown. *)
Definition signUserOpDialog (userOpHash : string) (chainId : option Z) : Dialog :=
  {| type := confirmation;
     content :=
       ([ heading "Sign Transaction";
          text "An application wants to sign a transaction with your post-quantum key.";
          divider;
          text "**UserOperation Hash:**";
          copyable userOpHash;
          divider ]
        ++ match chainId with
           | Some c => if (c =? 0)%Z then []
                       else [ text ("**Chain ID:** " ++ decimalZ c) ]
           | None => []
           end
        ++ [ text "**Signature type:** ML-DSA-65";
             text "**Signature size:** 3,309 bytes" ])%list |}.

Section WithHost.

(** [ALGORITHMS[level].sign] and the user's answer to a confirmation
    dialog. *)
Variable algo_sign :
  SnapCrypto.SecurityLevel -> list byte -> list byte -> Completion (list byte).
Variable snap_dialog : Dialog -> bool.

Definition confirm (d : Dialog) : Snap bool :=
  fun w => (Normal (snap_dialog d), w, [ShowDialog d]).

(** [handleSignMessage] *)
Definition handleSignMessage (params : SignMessageParams) : Snap SignatureResponse :=
  match params.(message) with
  | None | Some EmptyString => failS (Error "Message required")
  | Some message =>
      keypair <- getKeypair ;;
      match keypair with
      | None => failS (Error "No keypair. Call pq_getPublicKey first.")
      | Some keypair =>
          messageBytes <- liftS (SnapCrypto.hexToBytes message) ;;
          (* Show confirmation dialog *)
          confirmed <- confirm (signMessageDialog message messageBytes) ;;
          if negb confirmed then failS (Error "User rejected signing request")
          else
            (* Sign the message *)
            secretKey <- liftS (SnapCrypto.hexToBytes keypair.(secretKey)) ;;
            tell (CallSign secretKey messageBytes keypair.(level)) ;;;
            signature <- liftS (SnapCrypto.sign algo_sign secretKey messageBytes
                                  keypair.(level)) ;;
            (* Increment nonce for tracking *)
            nonce <- incrementNonce ;;
            retS {| signature := SnapCrypto.bytesToHex signature; nonce := nonce |}
      end
  end.

(** [handleSignUserOp] *)
Definition handleSignUserOp (params : SignUserOpParams) : Snap SignatureResponse :=
  match params.(userOpHash) with
  | None | Some EmptyString => failS (Error "userOpHash required")
  | Some userOpHash =>
      keypair <- getKeypair ;;
      match keypair with
      | None => failS (Error "No keypair. Call pq_getPublicKey first.")
      | Some keypair =>
          userOpHashBytes <- liftS (SnapCrypto.hexToBytes userOpHash) ;;
          if negb (List.length userOpHashBytes =? 32)%nat
          then failS (Error ("userOpHash must be 32 bytes, got "
                               ++ decimal (List.length userOpHashBytes)))
          else
            (* Show confirmation dialog with transaction details *)
            confirmed <- confirm (signUserOpDialog userOpHash params.(chainId)) ;;
            if negb confirmed then failS (Error "User rejected transaction signing")
            else
              (* Increment nonce for tracking *)
              nonce <- incrementNonce ;;
              (* Sign raw userOpHash *)
              secretKey <- liftS (SnapCrypto.hexToBytes keypair.(secretKey)) ;;
              tell (CallSignUserOp secretKey userOpHashBytes keypair.(level)) ;;;
              signature <- liftS (SnapCrypto.signUserOp algo_sign secretKey
                                    userOpHashBytes keypair.(level)) ;;
              retS {| signature := SnapCrypto.bytesToHex signature; nonce := nonce |}
      end
  end.

(** [handleGetInfo] *)
Definition handleGetInfo : Snap Info :=
  keypair <- getKeypair ;;
  retS {| hasKeypair := match keypair with Some _ => true | None => false end;
          info_level := option_map level keypair;
          info_nonce := match keypair with Some kp => kp.(SnapState.nonce) | None => 0%Z end;
          publicKeyPrefix := option_map (fun kp => slice 0 18 kp.(publicKey)) keypair |}.

End WithHost.

End SnapSign.

(* ================================================================== *)
(** * What a client of the snap can observe of its state               *)
(* ================================================================== *)

Module SnapObservations.

Import SnapState.

(** The key pair the next [getKeypair] finds. *)
Definition currentKeypair (w : World) : option KeypairState :=
  match w.(stored) with
  | None => w.(DEFAULT_STATE).(keypair)
  | Some s => s.(keypair)
  end.

(** A key pair after one more signature was counted. *)
Definition counted (kp : KeypairState) : KeypairState :=
  {| publicKey := kp.(publicKey);
     secretKey := kp.(secretKey);
     level := kp.(level);
     createdAt := kp.(createdAt);
     nonce := kp.(nonce) + 1 |}.

Definition isSigningCall (ev : Effect) : bool :=
  match ev with
  | ShowDialog _ => false
  | CallSign _ _ _ | CallSignUserOp _ _ _ => true
  end.

(** MetaMask's [wallet_invokeSnap] for [pq_signUserOp], as the wallet
    sees it: the snap's handler runs on the request's parameters in the
    snap's current world, and what it returns or throws is what the
    provider's promise settles with. *)
Definition forwardsToSnap (provider : SnapSigner.EthereumProvider)
  (handler : SnapSign.SignUserOpParams -> Snap SnapSign.SignatureResponse)
  (w : World) : Prop :=
  forall request : SnapSigner.SignRequest,
    provider request
    = match fst (fst (handler {| SnapSign.userOpHash :=
                                   Some request.(SnapSigner.userOpHash);
                                 SnapSign.chainId := request.(SnapSigner.chainId) |}
                        w)) with
      | Normal response =>
          Normal (SnapSigner.RespValue
                    (SnapSigner.FString response.(SnapSign.signature)))
      | Throw e => Throw e
      end.

End SnapObservations.

(* ================================================================== *)
(** * Sample states of the snap                                        *)
(* ================================================================== *)

Module SnapSamples.

Import SnapState.

(** A stored ML-DSA-44 key pair whose secret key has the nominal 2560
    bytes, and one whose secret key is a single byte. *)
Definition sampleKeypair : KeypairState :=
  {| publicKey := "0x01";
     secretKey := SnapCrypto.bytesToHex (repeat x00 2560);
     level := SnapCrypto.ml_dsa44;
     createdAt := 1700000000000;
     nonce := 7 |}.

Definition brokenKeypair : KeypairState :=
  {| publicKey := "0x01";
     secretKey := "0x00";
     level := SnapCrypto.ml_dsa44;
     createdAt := 1700000000000;
     nonce := 7 |}.

Definition worldWith (kp : KeypairState) : World :=
  started (Some {| keypair := Some kp; version := 1 |}).

Definition sampleHash : list byte := repeat x11 32.

Definition sampleRequest : SnapSign.SignUserOpParams :=
  {| SnapSign.userOpHash := Some (SnapCrypto.bytesToHex sampleHash);
     SnapSign.chainId := Some 412346%Z |}.

(** A signing primitive that returns two bytes, a user who confirms
    everything, and MetaMask in front of the snap. *)
Definition sampleAlgoSign (_ : SnapCrypto.SecurityLevel) (_ _ : list byte)
  : Completion (list byte) := Normal [xaa; xbb].

Definition alwaysConfirm (_ : Dialog) : bool := true.

Definition sampleProvider : SnapSigner.EthereumProvider :=
  fun request =>
    match fst (fst (SnapSign.handleSignUserOp sampleAlgoSign alwaysConfirm
                      {| SnapSign.userOpHash := Some request.(SnapSigner.userOpHash);
                         SnapSign.chainId := request.(SnapSigner.chainId) |}
                      (worldWith sampleKeypair))) with
    | Normal response =>
        Normal (SnapSigner.RespValue
                  (SnapSigner.FString response.(SnapSign.signature)))
    | Throw e => Throw e
    end.

End SnapSamples.

(* ================================================================== *)
(** * Facts about the JavaScript fragment                              *)
(* ================================================================== *)

Module JsFacts.

Lemma append_nil_r (s : string) : s ++ EmptyString = s.
Proof. induction s as [|c r IH]; simpl; [reflexivity | now rewrite IH]. Qed.

Lemma append_assoc (a b c : string) : (a ++ b) ++ c = a ++ (b ++ c).
Proof. induction a as [|x r IH]; simpl; [reflexivity | now rewrite IH]. Qed.

Lemma length_append (a b : string) :
  String.length (a ++ b) = String.length a + String.length b.
Proof. induction a as [|x r IH]; simpl; [reflexivity | now rewrite IH]. Qed.

Lemma length_repeatChar c n : String.length (repeatChar c n) = n.
Proof. induction n as [|n IH]; simpl; [reflexivity | now rewrite IH]. Qed.

Lemma sliceFrom_append (a b : string) : sliceFrom (String.length a) (a ++ b) = b.
Proof. induction a as [|x r IH]; simpl; [now destruct b | exact IH]. Qed.

Lemma takeChars_append (a b : string) : takeChars (String.length a) (a ++ b) = a.
Proof. induction a as [|x r IH]; simpl; [now destruct b | now rewrite IH]. Qed.

Lemma length_padStart n c s :
  String.length s <= n -> String.length (padStart n c s) = n.
Proof.
  intros H. unfold padStart. rewrite length_append, length_repeatChar. lia.
Qed.

Lemma stripLeadingZeros_repeat n s :
  stripLeadingZeros (repeatChar "0" n ++ s) = stripLeadingZeros s.
Proof. induction n as [|n IH]; simpl; [reflexivity | exact IH]. Qed.

Lemma stripLeadingZeros_head c r :
  c <> "0"%char -> stripLeadingZeros (String c r) = String c r.
Proof.
  intros H. simpl. apply Ascii.eqb_neq in H. now rewrite H.
Qed.

Lemma allChars_append f a b :
  allChars f (a ++ b) = allChars f a && allChars f b.
Proof.
  induction a as [|x r IH]; simpl; [reflexivity |].
  now rewrite IH, andb_assoc.
Qed.

(** ** Hexadecimal digits *)

Lemma small_cases (d : N) :
  (d < 16)%N ->
  d = 0%N \/ d = 1%N \/ d = 2%N \/ d = 3%N \/ d = 4%N \/ d = 5%N \/ d = 6%N
  \/ d = 7%N \/ d = 8%N \/ d = 9%N \/ d = 10%N \/ d = 11%N \/ d = 12%N
  \/ d = 13%N \/ d = 14%N \/ d = 15%N.
Proof. lia. Qed.

Ltac each_digit d H :=
  destruct (small_cases d H) as
    [->|[->|[->|[->|[->|[->|[->|[->|[->|[->|[->|[->|[->|[->|[->| ->]]]]]]]]]]]]]]].

Lemma hexDigitValue_hexDigit d :
  (d < 16)%N -> hexDigitValue (hexDigit d) = Some d.
Proof. intros H. each_digit d H; reflexivity. Qed.

Lemma isHexDigit_hexDigit d : (d < 16)%N -> isHexDigit (hexDigit d) = true.
Proof. intros H. each_digit d H; reflexivity. Qed.

Lemma isWhiteSpace_hexDigit d : (d < 16)%N -> isWhiteSpace (hexDigit d) = false.
Proof. intros H. each_digit d H; reflexivity. Qed.

Lemma hexDigit_nonzero d :
  (d < 16)%N -> d <> 0%N -> hexDigit d <> "0"%char.
Proof. intros H. each_digit d H; intros Hz; try discriminate; now elim Hz. Qed.

Lemma hexDigitsOf_zero fuel acc : hexDigitsOf fuel 0 acc = acc.
Proof. now destruct fuel. Qed.

Lemma hexDigitsOf_acc fuel :
  forall n acc, hexDigitsOf fuel n acc = hexDigitsOf fuel n EmptyString ++ acc.
Proof.
  induction fuel as [|f IH]; intros n acc; simpl; [reflexivity |].
  destruct (n =? 0)%N; [reflexivity |].
  rewrite (IH _ (String _ acc)), (IH _ (String _ EmptyString)).
  now rewrite append_assoc.
Qed.

Lemma hexDigitsOf_step f n :
  n <> 0%N ->
  hexDigitsOf (S f) n EmptyString =
  hexDigitsOf f (n / 16) EmptyString ++ String (hexDigit (n mod 16)) EmptyString.
Proof.
  intros H. simpl. apply N.eqb_neq in H. rewrite H.
  apply hexDigitsOf_acc.
Qed.

Lemma pow16_succ (f : nat) :
  (16 ^ N.of_nat (S f) = 16 * 16 ^ N.of_nat f)%N.
Proof. rewrite Nat2N.inj_succ, N.pow_succ_r'. reflexivity. Qed.

Lemma div16_lt n f :
  (n < 16 ^ N.of_nat (S f))%N -> (n / 16 < 16 ^ N.of_nat f)%N.
Proof.
  rewrite pow16_succ. intros H.
  apply N.Div0.div_lt_upper_bound. exact H.
Qed.

Lemma digitsValue_append radix a :
  forall b acc,
    digitsValue radix (a ++ b) acc =
    match digitsValue radix a acc with
    | Some v => digitsValue radix b v
    | None => None
    end.
Proof.
  induction a as [|x r IH]; intros b acc; simpl; [reflexivity |].
  destruct (digitValue radix x); [apply IH | reflexivity].
Qed.

Lemma digitValue16_hexDigit d : (d < 16)%N -> digitValue 16 (hexDigit d) = Some d.
Proof.
  intros H. unfold digitValue. rewrite hexDigitValue_hexDigit by exact H.
  apply N.ltb_lt in H. now rewrite H.
Qed.

(** Reading back the digits of [n] gives [n]. *)
Lemma hexDigitsOf_value fuel :
  forall n, (n < 16 ^ N.of_nat fuel)%N ->
            digitsValue 16 (hexDigitsOf fuel n EmptyString) 0 = Some n.
Proof.
  induction fuel as [|f IH]; intros n H.
  - simpl in *. f_equal. lia.
  - destruct (N.eq_dec n 0) as [->|Hn]; [reflexivity |].
    rewrite hexDigitsOf_step, digitsValue_append by exact Hn.
    rewrite IH by (now apply div16_lt). simpl.
    rewrite digitValue16_hexDigit by (apply N.mod_lt; discriminate).
    f_equal. rewrite (N.div_mod n 16) at 3 by discriminate. reflexivity.
Qed.

Lemma hexDigitsOf_length fuel :
  forall n k, (n < 16 ^ N.of_nat k)%N ->
              String.length (hexDigitsOf fuel n EmptyString) <= k.
Proof.
  induction fuel as [|f IH]; intros n k H; [simpl; lia |].
  destruct (N.eq_dec n 0) as [->|Hn]; [simpl; lia |].
  destruct k as [|k]; [simpl in H; lia |].
  rewrite hexDigitsOf_step, length_append by exact Hn. simpl.
  specialize (IH (n / 16)%N k (div16_lt _ _ H)). lia.
Qed.

Lemma hexDigitsOf_head fuel :
  forall n, n <> 0%N -> (n < 16 ^ N.of_nat fuel)%N ->
            exists c r, hexDigitsOf fuel n EmptyString = String c r /\ c <> "0"%char.
Proof.
  induction fuel as [|f IH]; intros n Hn H; [simpl in H; lia |].
  rewrite hexDigitsOf_step by exact Hn.
  destruct (N.eq_dec (n / 16) 0) as [Hq|Hq].
  - rewrite Hq, hexDigitsOf_zero. simpl. eexists _, _. split; [reflexivity |].
    apply hexDigit_nonzero; [apply N.mod_lt; discriminate |].
    intros Hm. apply Hn. rewrite (N.div_mod n 16), Hq, Hm by discriminate. reflexivity.
  - destruct (IH _ Hq (div16_lt _ _ H)) as (c & r & -> & Hc).
    simpl. eexists _, _. split; [reflexivity | exact Hc].
Qed.

Lemma hexDigitsOf_chars (P : ascii -> bool) fuel :
  (forall d, (d < 16)%N -> P (hexDigit d) = true) ->
  forall n, allChars P (hexDigitsOf fuel n EmptyString) = true.
Proof.
  intros HP. induction fuel as [|f IH]; intros n; [reflexivity |].
  destruct (N.eq_dec n 0) as [->|Hn]; [reflexivity |].
  rewrite hexDigitsOf_step, allChars_append, IH by exact Hn. simpl.
  rewrite HP by (apply N.mod_lt; discriminate). reflexivity.
Qed.

Lemma size_fuel n : (n < 16 ^ N.of_nat (N.to_nat (N.size n)))%N.
Proof.
  rewrite N2Nat.id.
  apply N.lt_le_trans with (2 ^ N.size n)%N; [apply N.size_gt |].
  apply N.pow_le_mono_l. lia.
Qed.

(** ** [toString16] *)

Lemma toString16_zero : toString16 0 = "0".
Proof. reflexivity. Qed.

Lemma toString16_pos n :
  n <> 0%N -> toString16 n = hexDigitsOf (N.to_nat (N.size n)) n EmptyString.
Proof. intros H. unfold toString16. apply N.eqb_neq in H. now rewrite H. Qed.

Lemma toString16_value n : digitsValue 16 (toString16 n) 0 = Some n.
Proof.
  destruct (N.eq_dec n 0) as [->|Hn]; [reflexivity |].
  rewrite toString16_pos by exact Hn. apply hexDigitsOf_value, size_fuel.
Qed.

Lemma toString16_nonempty n : toString16 n <> EmptyString.
Proof.
  destruct (N.eq_dec n 0) as [->|Hn]; [discriminate |].
  rewrite toString16_pos by exact Hn.
  destruct (hexDigitsOf_head _ n Hn (size_fuel n)) as (c & r & -> & _).
  discriminate.
Qed.

Lemma toString16_head n :
  n <> 0%N -> exists c r, toString16 n = String c r /\ c <> "0"%char.
Proof.
  intros Hn. rewrite toString16_pos by exact Hn.
  apply hexDigitsOf_head; [exact Hn | apply size_fuel].
Qed.

Lemma toString16_length n k :
  (n < 16 ^ N.of_nat k)%N -> 0 < k -> String.length (toString16 n) <= k.
Proof.
  intros H Hk. destruct (N.eq_dec n 0) as [->|Hn]; [simpl; lia |].
  rewrite toString16_pos by exact Hn. now apply hexDigitsOf_length.
Qed.

Lemma toString16_chars (P : ascii -> bool) n :
  (forall d, (d < 16)%N -> P (hexDigit d) = true) ->
  allChars P (toString16 n) = true.
Proof.
  intros HP. destruct (N.eq_dec n 0) as [->|Hn].
  - change (P (hexDigit 0) && true = true). now rewrite HP.
  - rewrite toString16_pos by exact Hn. now apply hexDigitsOf_chars.
Qed.

(** ** Reading hexadecimal quantities back *)

Lemma isHexDigit_not_space c : isHexDigit c = true -> isWhiteSpace c = false.
Proof.
  destruct c as [[] [] [] [] [] [] [] []]; vm_compute; congruence.
Qed.

Lemma isHexDigit_value c : isHexDigit c = true -> exists d, digitValue 16 c = Some d.
Proof.
  destruct c as [[] [] [] [] [] [] [] []]; vm_compute; try congruence;
    intros _; eexists; reflexivity.
Qed.

Lemma trimEnd_id s :
  allChars (fun c => negb (isWhiteSpace c)) s = true -> trimEnd s = s.
Proof.
  induction s as [|c r IH]; [reflexivity |]. simpl.
  intros H. apply andb_true_iff in H. destruct H as [Hc Hr].
  rewrite (IH Hr). apply negb_true_iff in Hc. rewrite Hc. now destruct r.
Qed.

Lemma allChars_impl (P Q : ascii -> bool) s :
  (forall c, P c = true -> Q c = true) ->
  allChars P s = true -> allChars Q s = true.
Proof.
  intros HPQ. induction s as [|c r IH]; [reflexivity |]. simpl.
  intros H. apply andb_true_iff in H. destruct H as [Hc Hr].
  now rewrite (HPQ _ Hc), IH.
Qed.

Lemma hex_no_space s :
  isHexDigits s = true -> allChars (fun c => negb (isWhiteSpace c)) s = true.
Proof.
  apply allChars_impl. intros c H. now rewrite isHexDigit_not_space.
Qed.

Lemma digitsValue_total s :
  isHexDigits s = true -> forall acc, exists v, digitsValue 16 s acc = Some v.
Proof.
  induction s as [|c r IH]; simpl; intros H acc; [now exists acc |].
  apply andb_true_iff in H. destruct H as [Hc Hr].
  destruct (isHexDigit_value c Hc) as (d & ->). apply (IH Hr).
Qed.

Lemma digitsValue_hexValue s :
  isHexDigits s = true -> digitsValue 16 s 0 = Some (hexValue s).
Proof.
  intros H. unfold hexValue.
  now destruct (digitsValue_total s H 0%N) as (v & ->).
Qed.

Lemma hexValue_toString16 n : hexValue (toString16 n) = n.
Proof. unfold hexValue. now rewrite toString16_value. Qed.

Lemma isHexDigits_toString16 n : isHexDigits (toString16 n) = true.
Proof. apply toString16_chars, isHexDigit_hexDigit. Qed.

(** [BigInt] reads a prefixed, non-empty run of digits as its value. *)
Lemma BigIntOfString_hex s :
  isHexDigits s = true -> s <> EmptyString ->
  BigIntOfString ("0x" ++ s) = Normal (Z.of_N (hexValue s)).
Proof.
  intros H Hne. unfold BigIntOfString, trim.
  cbn [append trimStart]. change (isWhiteSpace "0") with false. cbv iota.
  rewrite trimEnd_id.
  - cbn [Ascii.eqb Bool.eqb]. cbv iota. cbn [orb].
    unfold numeral. destruct s as [|c r]; [now elim Hne |].
    now rewrite digitsValue_hexValue.
  - simpl. now apply hex_no_space.
Qed.

Lemma stripLeadingZeros_digits s :
  isHexDigits s = true -> isHexDigits (stripLeadingZeros s) = true.
Proof.
  induction s as [|c r IH]; [reflexivity |]. simpl. intros H.
  destruct (c =? "0")%char.
  - apply IH. now apply andb_true_iff in H.
  - exact H.
Qed.

Lemma stripLeadingZeros_value s :
  hexValue (stripLeadingZeros s) = hexValue s.
Proof.
  induction s as [|c r IH]; [reflexivity |]. simpl.
  destruct (Ascii.eqb_spec c "0") as [->|Hc]; [exact IH | reflexivity].
Qed.

End JsFacts.

(* ================================================================== *)
(** * HexCodec: encoding and decoding bytes                            *)
(* ================================================================== *)

Module HexCodec.

Import SnapCrypto JsFacts.

(** A byte prints as two lowercase digits that read back as the byte. *)
Lemma byteHex_shape (b : byte) :
  exists c1 c2,
    byteHex b = String c1 (String c2 EmptyString)
    /\ isLowerHexDigit c1 && isLowerHexDigit c2 = true
    /\ toUint8 (parseInt16 (String c1 (String c2 EmptyString))) = b.
Proof.
  destruct b; eexists _, _; (split; [reflexivity | split; reflexivity]).
Qed.

Lemma decodeAt_shift c1 c2 s i :
  decodeAt (String c1 (String c2 s)) (S i) = decodeAt s i.
Proof.
  unfold decodeAt, slice. simpl.
  replace (i * 2 + 2 - i * 2) with 2 by lia. reflexivity.
Qed.

Lemma decodeAt_head c1 c2 s :
  decodeAt (String c1 (String c2 s)) 0 = toUint8 (parseInt16 (String c1 (String c2 EmptyString))).
Proof. reflexivity. Qed.

Lemma length_joined (bs : list byte) :
  String.length (joinStrings (map byteHex bs)) = 2 * List.length bs.
Proof.
  induction bs as [|b r IH]; [reflexivity |].
  destruct (byteHex_shape b) as (c1 & c2 & E & _).
  cbn [map joinStrings List.length]. rewrite E. simpl. rewrite IH. lia.
Qed.

Lemma decode_joined (bs : list byte) :
  map (decodeAt (joinStrings (map byteHex bs))) (seq 0 (List.length bs)) = bs.
Proof.
  induction bs as [|b r IH]; [reflexivity |].
  destruct (byteHex_shape b) as (c1 & c2 & E & _ & V).
  cbn [map joinStrings List.length seq]. rewrite E.
  cbn [append]. rewrite decodeAt_head, V. f_equal.
  rewrite <- seq_shift, map_map.
  rewrite <- IH at 2. apply map_ext. intros i. apply decodeAt_shift.
Qed.

Lemma lower_digits_joined (bs : list byte) :
  allChars isLowerHexDigit (joinStrings (map byteHex bs)) = true.
Proof.
  induction bs as [|b r IH]; [reflexivity |].
  destruct (byteHex_shape b) as (c1 & c2 & E & L & _).
  cbn [map joinStrings]. rewrite E. cbn [append allChars].
  apply andb_true_iff in L. destruct L as [-> ->]. exact IH.
Qed.

Lemma even_length_joined (bs : list byte) :
  (String.length (joinStrings (map byteHex bs)) mod 2 =? 0)%nat = true.
Proof.
  rewrite length_joined. apply Nat.eqb_eq.
  rewrite Nat.mul_comm. apply Nat.Div0.mod_mul.
Qed.

Lemma half_length_joined (bs : list byte) :
  String.length (joinStrings (map byteHex bs)) / 2 = List.length bs.
Proof.
  rewrite length_joined, Nat.mul_comm. apply Nat.div_mul. discriminate.
Qed.

(** C7. For every byte sequence [b], [hexToBytes (bytesToHex b)] returns
    [b]; the encoding is ["0x"] followed by lowercase hexadecimal digits,
    two per byte. *)
Theorem hexToBytes_bytesToHex (b : list byte) :
  hexToBytes (bytesToHex b) = Normal b
  /\ startsWith (bytesToHex b) "0x" = true
  /\ allChars isLowerHexDigit (sliceFrom 2 (bytesToHex b)) = true
  /\ String.length (bytesToHex b) = 2 + 2 * List.length b.
Proof.
  unfold hexToBytes, bytesToHex.
  change (startsWith ("0x" ++ joinStrings (map byteHex b)) "0x") with true.
  change (sliceFrom 2 ("0x" ++ joinStrings (map byteHex b)))
    with (joinStrings (map byteHex b)).
  cbv iota. rewrite even_length_joined, half_length_joined, decode_joined.
  repeat split.
  - apply lower_digits_joined.
  - cbn [append String.length]. now rewrite length_joined.
Qed.

Lemma allChars_false_iff f s :
  allChars f s = false <->
  exists c, In c (list_ascii_of_string s) /\ f c = false.
Proof.
  induction s as [|x r IH]; simpl.
  - split; [discriminate | intros (c & [] & _)].
  - rewrite andb_false_iff, IH. split.
    + intros [H | (c & Hin & Hc)]; [exists x | exists c]; auto.
    + intros (c & [<- | Hin] & Hc); [now left | right; now exists c].
Qed.

(** The snap's [hexToBytes] throws exactly on an odd number of digits. *)
Lemma hexToBytes_throws_iff hex :
  throws (hexToBytes hex) = true <-> String.length (stripPrefix hex) mod 2 <> 0.
Proof.
  unfold hexToBytes. change (if startsWith hex "0x" then sliceFrom 2 hex else hex)
    with (stripPrefix hex). cbv zeta.
  destruct (Nat.eqb_spec (String.length (stripPrefix hex) mod 2) 0) as [E|E];
    cbn [throws negb]; split; intros H; congruence.
Qed.

(** The wallet's [hexToBytesStrict] throws exactly on an odd number of
    digits or on a character that is not a hexadecimal digit, and
    otherwise returns one byte per pair of digits. *)
Lemma hexToBytesStrict_throws_iff hex :
  throws (SnapSigner.hexToBytesStrict hex) = true <->
  (String.length (stripPrefix hex) mod 2 <> 0
   \/ exists c, In c (list_ascii_of_string (stripPrefix hex)) /\ isHexDigit c = false).
Proof.
  unfold SnapSigner.hexToBytesStrict.
  change (if startsWith hex "0x" then sliceFrom 2 hex else hex)
    with (stripPrefix hex). cbv zeta.
  rewrite <- allChars_false_iff. fold (isHexDigits (stripPrefix hex)).
  destruct (Nat.eqb_spec (String.length (stripPrefix hex) mod 2) 0) as [E|E];
    cbn [throws negb].
  - destruct (isHexDigits (stripPrefix hex)); cbn [throws negb]; split; intros H;
      try congruence; try (now right); destruct H; congruence.
  - split; [now left | reflexivity].
Qed.

Lemma hexToBytesStrict_length hex bs :
  SnapSigner.hexToBytesStrict hex = Normal bs ->
  List.length bs = String.length (stripPrefix hex) / 2.
Proof.
  unfold SnapSigner.hexToBytesStrict.
  change (if startsWith hex "0x" then sliceFrom 2 hex else hex)
    with (stripPrefix hex). cbv zeta.
  destruct (negb _); [discriminate |]. destruct (negb _); [discriminate |].
  intros [= <-]. now rewrite length_map, length_seq.
Qed.

Lemma decode_empty :
  hexToBytes EmptyString = Normal [] /\ hexToBytes "0x" = Normal []
  /\ SnapSigner.hexToBytesStrict EmptyString = Normal []
  /\ SnapSigner.hexToBytesStrict "0x" = Normal [].
Proof. repeat split. Qed.

(** C6. The snap's [hexToBytes] does not reject characters that are not
    hexadecimal digits: ["0xzz"] has an even number of them, none a digit,
    and decodes to the single byte 0, where the wallet's
    [hexToBytesStrict] throws. *)
Theorem hexToBytes_accepts_non_hex :
  isHexDigits (stripPrefix "0xzz") = false
  /\ hexToBytes "0xzz" = Normal [x00]
  /\ SnapSigner.hexToBytesStrict "0xzz"
     = Throw (Error "Hex value contains non-hex characters").
Proof. repeat split. Qed.

End HexCodec.

(* ================================================================== *)
(** * SignerBackend: the hash-length precondition                      *)
(* ================================================================== *)

Module SignerBackend.

(** The remote-plugin signer rejects a hash that is not 32 bytes long
    before it sends anything to the provider. *)
Lemma signViaSnap_rejects_bad_length ethereum SNAP_ID CHAIN_ID hash :
  List.length hash <> 32 ->
  SnapSigner.signViaSnap ethereum SNAP_ID CHAIN_ID hash =
  (Throw (Error ("Expected 32-byte UserOp hash, got " ++ decimal (List.length hash))), []).
Proof.
  intros H. unfold SnapSigner.signViaSnap.
  apply Nat.eqb_neq in H. now rewrite H.
Qed.

(** On a 32-byte hash it goes on to the provider: one request, carrying
    the hash in hexadecimal. *)
Lemma signViaSnap_forwards_32 provider SNAP_ID CHAIN_ID hash :
  List.length hash = 32 ->
  exists chainId,
    snd (SnapSigner.signViaSnap (Some provider) SNAP_ID CHAIN_ID hash) =
    [ {| SnapSigner.snapId := SNAP_ID;
         SnapSigner.userOpHash := SnapSigner.bytesToHex hash;
         SnapSigner.chainId := chainId |} ].
Proof.
  intros H. unfold SnapSigner.signViaSnap.
  apply Nat.eqb_eq in H. rewrite H. simpl. eexists.
  destruct (provider _) as [[| |[|[|? ?]| |]]|]; reflexivity.
Qed.

(** The snap's own [signUserOp] has the same guard. *)
Lemma signUserOp_rejects_bad_length algo_sign sk hash level :
  List.length hash <> 32 ->
  SnapCrypto.signUserOp algo_sign sk hash level =
  Throw (Error ("UserOp hash must be 32 bytes, got " ++ decimal (List.length hash))).
Proof.
  intros H. unfold SnapCrypto.signUserOp.
  apply Nat.eqb_neq in H. now rewrite H.
Qed.

(** The in-memory-seed signer has no such guard: once a key pair is
    loaded, a hash of any length goes to [ml_dsa65.sign]. *)
Lemma signUserOpHash_signs_any_length mldsa_sign kp hash :
  Signer.signUserOpHash mldsa_sign (Some kp) hash =
  (mldsa_sign hash kp.(Signer.secretKey),
   [Signer.CallSign hash kp.(Signer.secretKey)]).
Proof. reflexivity. Qed.

(** C4. With a key pair loaded, [signUserOpHash] on a 16-byte hash raises
    no length error: it calls the signing primitive on the 16 bytes and
    returns what the primitive returns, whereas [signViaSnap] rejects the
    same hash without any request. *)
Theorem signUserOpHash_accepts_short_hash :
  let hash := repeat x00 16 in
  let kp := {| Signer.publicKey := [x01]; Signer.secretKey := [x02] |} in
  let mldsa_sign := fun (_ _ : list byte) => Normal [xaa] in
  Signer.signUserOpHash mldsa_sign (Some kp) hash
  = (Normal [xaa], [Signer.CallSign hash [x02]])
  /\ SnapSigner.signViaSnap None "local:http://localhost:8080" (Some 412346%Z) hash
     = (Throw (Error "Expected 32-byte UserOp hash, got 16"), []).
Proof. split; reflexivity. Qed.

End SignerBackend.

(* ================================================================== *)
(** * Verification of a corrupted signature                            *)
(* ================================================================== *)

Module Verification.

Import SnapCrypto Samples.

Lemma corruptByte_length i b sig :
  i < List.length sig -> List.length (corruptByte i b sig) = List.length sig.
Proof.
  intros H. unfold corruptByte.
  rewrite length_app, length_firstn. cbn [List.length].
  rewrite length_skipn. lia.
Qed.

Lemma corruptByte_differs i b sig :
  i < List.length sig -> nth i sig x00 <> b -> corruptByte i b sig <> sig.
Proof.
  intros H Hb E. apply Hb.
  assert (N : nth i (corruptByte i b sig) x00 = b).
  { unfold corruptByte. rewrite app_nth2; rewrite length_firstn.
    - replace (i - Nat.min i (List.length sig)) with 0 by lia. reflexivity.
    - lia. }
  now rewrite E in N.
Qed.

(** With keys and signature of the nominal sizes, [verify] returns a
    Boolean whatever the algorithm does. *)
Lemma verify_never_throws algo_verify level pk message sig :
  List.length pk = (KEY_SIZES level).(publicKey) ->
  List.length sig = (KEY_SIZES level).(signature) ->
  verify algo_verify pk message sig level
  = Normal match algo_verify level sig message pk with
           | Normal b => b
           | Throw _ => false
           end.
Proof.
  intros Hpk Hsig. unfold verify.
  rewrite Hpk, Hsig, !Nat.eqb_refl. simpl.
  now destruct (algo_verify level sig message pk).
Qed.

(** The size of the public key is tested first: a key of another size
    makes [verify] throw, whatever the signature. *)
Lemma verify_wrong_key_size algo_verify level pk message sig :
  List.length pk <> (KEY_SIZES level).(publicKey) ->
  verify algo_verify pk message sig level
  = Throw (Error ("Invalid public key size: " ++ decimal (List.length pk)
                    ++ ", expected " ++ decimal (KEY_SIZES level).(publicKey))).
Proof.
  intros H. unfold verify. apply Nat.eqb_neq in H. now rewrite H.
Qed.




End Verification.

(* ================================================================== *)
(** * OperationCodec: the relay's unpacked shape                       *)
(* ================================================================== *)

Module RelayFormat.

Import Viem UserOp Bundler JsFacts Samples.

Lemma ensureHexPrefix_quantityOf half :
  ensureHexPrefix (quantityOf half) = quantityOf half.
Proof.
  unfold ensureHexPrefix, quantityOf.
  destruct (stripLeadingZeros half) as [|c r]; [reflexivity |].
  cbn [orElse append].
  destruct (String.eqb_spec (String "0" (String "x" (String c r))) "0x0") as [->|_];
    reflexivity.
Qed.

Lemma orElse_nonempty a b : b <> EmptyString -> orElse a b <> EmptyString.
Proof. destruct a; simpl; [auto | discriminate]. Qed.

(** The quantity written for a run of digits reads back as its value. *)
Lemma quantityOf_value half :
  isHexDigits half = true ->
  BigIntOfString (ensureHexPrefix (quantityOf half)) = Normal (Z.of_N (hexValue half)).
Proof.
  intros H. rewrite ensureHexPrefix_quantityOf. unfold quantityOf.
  rewrite BigIntOfString_hex.
  - f_equal. f_equal. rewrite <- (stripLeadingZeros_value half).
    now destruct (stripLeadingZeros half).
  - pose proof (stripLeadingZeros_digits half H).
    now destruct (stripLeadingZeros half).
  - apply orElse_nonempty. discriminate.
Qed.

(** A padded quantity is written back in its shortest form. *)
Lemma quantityOf_padded n :
  quantityOf (padStart 32 "0" (toString16 n)) = "0x" ++ toString16 n.
Proof.
  unfold quantityOf, padStart. rewrite stripLeadingZeros_repeat. f_equal.
  destruct (N.eq_dec n 0) as [->|Hn]; [reflexivity |].
  destruct (toString16_head n Hn) as (c & r & -> & Hc).
  now rewrite stripLeadingZeros_head.
Qed.

Lemma isHexDigits_takeChars n s :
  isHexDigits s = true -> isHexDigits (takeChars n s) = true.
Proof.
  unfold isHexDigits. revert s.
  induction n as [|n IH]; intros [|c r]; cbn [takeChars allChars]; try reflexivity.
  intros H. apply andb_true_iff in H. destruct H as [-> Hr]. now apply IH.
Qed.

Lemma isHexDigits_sliceFrom n s :
  isHexDigits s = true -> isHexDigits (sliceFrom n s) = true.
Proof.
  unfold isHexDigits. revert s.
  induction n as [|n IH]; intros [|c r]; cbn [sliceFrom allChars]; try reflexivity.
  - auto.
  - intros H. apply andb_true_iff in H. now apply IH.
Qed.

(** C10. Unpacking copies [sender], [nonce], [callData],
    [preVerificationGas] and [signature] unchanged and sets the factory
    and paymaster fields to [null]; only the gas fields are rewritten. *)
Theorem unpackUserOp_frame (packed : PackedUserOp) :
  exists u,
    unpackUserOp packed = Normal u
    /\ u.(Unpacked.sender) = packed.(sender)
    /\ u.(Unpacked.nonce) = packed.(nonce)
    /\ u.(Unpacked.callData) = packed.(callData)
    /\ u.(Unpacked.preVerificationGas) = packed.(preVerificationGas)
    /\ u.(Unpacked.signature) = packed.(signature)
    /\ u.(Unpacked.factory) = None
    /\ u.(Unpacked.factoryData) = None
    /\ u.(Unpacked.paymaster) = None
    /\ u.(Unpacked.paymasterVerificationGasLimit) = None
    /\ u.(Unpacked.paymasterPostOpGasLimit) = None
    /\ u.(Unpacked.paymasterData) = None.
Proof.
  eexists. split; [reflexivity |]. cbn. repeat split.
Qed.


(** C5, as stated, fails: a one-byte [accountGasLimits] and an empty
    [gasFees] are unpacked without any error. *)
Lemma unpackUserOp_accepts_narrow_input :
  size narrowOp.(accountGasLimits) = 1
  /\ size narrowOp.(gasFees) = 0
  /\ exists u,
       unpackUserOp narrowOp = Normal u
       /\ u.(Unpacked.verificationGasLimit) = "0x1"
       /\ u.(Unpacked.callGasLimit) = "0x0"
       /\ u.(Unpacked.maxPriorityFeePerGas) = "0x0"
       /\ u.(Unpacked.maxFeePerGas) = "0x0".
Proof.
  split; [reflexivity | split; [reflexivity |]].
  eexists. split; [reflexivity |]. cbn. repeat split.
Qed.

(** C5, amended. Unpacking checks no width and throws on no input. For
    digits of any number behind the prefix, the first quantity is the
    value of the first 32 digits (of all of them, if fewer) and the second
    the value of the digits after the 32nd (zero, if none); likewise for
    [gasFees]. *)
Theorem unpackUserOp_any_width (packed : PackedUserOp) (agl gf : string) :
  packed.(accountGasLimits) = "0x" ++ agl ->
  packed.(gasFees) = "0x" ++ gf ->
  isHexDigits agl = true ->
  isHexDigits gf = true ->
  exists u,
    unpackUserOp packed = Normal u
    /\ BigIntOfString u.(Unpacked.verificationGasLimit)
       = Normal (Z.of_N (hexValue (takeChars 32 agl)))
    /\ BigIntOfString u.(Unpacked.callGasLimit)
       = Normal (Z.of_N (hexValue (sliceFrom 32 agl)))
    /\ BigIntOfString u.(Unpacked.maxPriorityFeePerGas)
       = Normal (Z.of_N (hexValue (takeChars 32 gf)))
    /\ BigIntOfString u.(Unpacked.maxFeePerGas)
       = Normal (Z.of_N (hexValue (sliceFrom 32 gf))).
Proof.
  intros Ea Eg Ha Hg. eexists. split; [reflexivity |].
  cbn [Unpacked.verificationGasLimit Unpacked.callGasLimit
       Unpacked.maxPriorityFeePerGas Unpacked.maxFeePerGas].
  rewrite Ea, Eg.
  change (sliceFrom 2 ("0x" ++ agl)) with agl.
  change (sliceFrom 2 ("0x" ++ gf)) with gf.
  change (slice 0 32 agl) with (takeChars 32 agl).
  change (slice 0 32 gf) with (takeChars 32 gf).
  repeat split; apply quantityOf_value;
    auto using isHexDigits_takeChars, isHexDigits_sliceFrom.
Qed.

Lemma unpackUserOp_any_width_witness :
  exists u,
    unpackUserOp narrowOp = Normal u
    /\ BigIntOfString u.(Unpacked.verificationGasLimit) = Normal 1%Z
    /\ BigIntOfString u.(Unpacked.callGasLimit) = Normal 0%Z
    /\ BigIntOfString u.(Unpacked.maxPriorityFeePerGas) = Normal 0%Z
    /\ BigIntOfString u.(Unpacked.maxFeePerGas) = Normal 0%Z.
Proof.
  exact (unpackUserOp_any_width narrowOp "01" EmptyString eq_refl eq_refl eq_refl eq_refl).
Defined.

(** ** Packing two 128-bit quantities and unpacking them again *)

Lemma pow16_32 : (16 ^ N.of_nat 32 = 2 ^ 128)%N.
Proof. reflexivity. Qed.

Lemma toString16_fits (z : Z) :
  (0 <= z < 2 ^ 128)%Z -> String.length (toString16 (Z.to_N z)) <= 32.
Proof.
  intros H. apply toString16_length; [| lia].
  rewrite pow16_32. change (2 ^ 128)%N with (Z.to_N (2 ^ 128)).
  apply Z2N.inj_lt; lia.
Qed.

Lemma numberToHex_nonneg (z : Z) :
  (0 <= z)%Z -> numberToHex z None = Normal ("0x" ++ toString16 (Z.to_N z)).
Proof.
  intros H. unfold numberToHex. cbn [orb].
  destruct (Z.ltb_spec z 0); [lia | reflexivity].
Qed.

Lemma pad16_quantity (d : string) :
  String.length d <= 32 -> pad ("0x" ++ d) 16 = Normal ("0x" ++ padStart 32 "0" d).
Proof.
  intros H. unfold pad, padHex.
  change (removeFirst "0x" ("0x" ++ d)) with d.
  change (16 * 2) with 32.
  destruct (Nat.ltb_spec 32 (String.length d)); [lia | reflexivity].
Qed.

Lemma packPair_eq (hi lo : Z) :
  (0 <= hi < 2 ^ 128)%Z -> (0 <= lo < 2 ^ 128)%Z ->
  packPair hi lo =
  Normal ("0x" ++ padStart 32 "0" (toString16 (Z.to_N hi))
               ++ padStart 32 "0" (toString16 (Z.to_N lo))).
Proof.
  intros Hhi Hlo. unfold packPair.
  rewrite !numberToHex_nonneg by lia. cbn [Js.bind].
  rewrite !pad16_quantity by now apply toString16_fits. cbn [Js.bind].
  unfold concat. cbn [map joinStrings].
  change (removeFirst "0x" ("0x" ++ ?d)) with d.
  now rewrite append_nil_r.
Qed.

Lemma size_packed (a b : string) :
  String.length a = 32 -> String.length b = 32 -> size ("0x" ++ a ++ b) = 32.
Proof.
  intros Ha Hb. unfold size. cbn [append isHexLoose startsWith Ascii.eqb Bool.eqb andb].
  cbn [String.length]. rewrite length_append, Ha, Hb. reflexivity.
Qed.

Lemma halves (a b : string) :
  String.length a = 32 ->
  slice 0 32 (sliceFrom 2 ("0x" ++ a ++ b)) = a
  /\ sliceFrom 32 (sliceFrom 2 ("0x" ++ a ++ b)) = b.
Proof.
  intros Ha. change (sliceFrom 2 ("0x" ++ a ++ b)) with (a ++ b).
  unfold slice. change (32 - 0) with 32. change (sliceFrom 0 (a ++ b)) with (a ++ b).
  rewrite <- Ha. now rewrite takeChars_append, sliceFrom_append.
Qed.

Lemma unpacked_quantity (z : Z) :
  (0 <= z)%Z ->
  let q := ensureHexPrefix (quantityOf (padStart 32 "0" (toString16 (Z.to_N z)))) in
  q = "0x" ++ toString16 (Z.to_N z)
  /\ BigIntOfString q = Normal z
  /\ (z = 0%Z -> q = "0x0").
Proof.
  intros Hz q. subst q.
  rewrite ensureHexPrefix_quantityOf, quantityOf_padded. repeat split.
  - rewrite BigIntOfString_hex, hexValue_toString16, Z2N.id;
      auto using isHexDigits_toString16, toString16_nonempty.
  - now intros ->.
Qed.

(** C2. Packing two 128-bit quantities gives a 32-byte field, each
    quantity in 16 bytes, most significant digit first, padded with zeros;
    unpacking an operation that carries it gives each quantity back in its
    shortest hexadecimal form, which reads as the original number; zero
    comes back as ["0x0"]. This holds for [accountGasLimits] and for
    [gasFees]. *)
Theorem pack_unpack_gas_fields (vgl cgl prio fee : Z) :
  (0 <= vgl < 2 ^ 128)%Z -> (0 <= cgl < 2 ^ 128)%Z ->
  (0 <= prio < 2 ^ 128)%Z -> (0 <= fee < 2 ^ 128)%Z ->
  let half := fun z : Z => padStart 32 "0" (toString16 (Z.to_N z)) in
  let agl := "0x" ++ half vgl ++ half cgl in
  let gf := "0x" ++ half prio ++ half fee in
  packPair vgl cgl = Normal agl /\ size agl = 32
  /\ packPair prio fee = Normal gf /\ size gf = 32
  /\ forall packed,
       packed.(accountGasLimits) = agl -> packed.(gasFees) = gf ->
       exists u,
         unpackUserOp packed = Normal u
         /\ u.(Unpacked.verificationGasLimit) = "0x" ++ toString16 (Z.to_N vgl)
         /\ u.(Unpacked.callGasLimit) = "0x" ++ toString16 (Z.to_N cgl)
         /\ u.(Unpacked.maxPriorityFeePerGas) = "0x" ++ toString16 (Z.to_N prio)
         /\ u.(Unpacked.maxFeePerGas) = "0x" ++ toString16 (Z.to_N fee)
         /\ BigIntOfString u.(Unpacked.verificationGasLimit) = Normal vgl
         /\ BigIntOfString u.(Unpacked.callGasLimit) = Normal cgl
         /\ BigIntOfString u.(Unpacked.maxPriorityFeePerGas) = Normal prio
         /\ BigIntOfString u.(Unpacked.maxFeePerGas) = Normal fee
         /\ (vgl = 0%Z -> u.(Unpacked.verificationGasLimit) = "0x0")
         /\ (cgl = 0%Z -> u.(Unpacked.callGasLimit) = "0x0")
         /\ (prio = 0%Z -> u.(Unpacked.maxPriorityFeePerGas) = "0x0")
         /\ (fee = 0%Z -> u.(Unpacked.maxFeePerGas) = "0x0").
Proof.
  intros Hv Hc Hp Hf.
  pose proof (length_padStart 32 "0" _ (toString16_fits vgl Hv)) as Lv.
  pose proof (length_padStart 32 "0" _ (toString16_fits cgl Hc)) as Lc.
  pose proof (length_padStart 32 "0" _ (toString16_fits prio Hp)) as Lp.
  pose proof (length_padStart 32 "0" _ (toString16_fits fee Hf)) as Lf.
  intros half agl gf. subst half agl gf. cbv beta.
  split; [now apply packPair_eq |]. split; [now apply size_packed |].
  split; [now apply packPair_eq |]. split; [now apply size_packed |].
  intros packed Ea Eg. eexists. split; [reflexivity |].
  cbn [Unpacked.verificationGasLimit Unpacked.callGasLimit
       Unpacked.maxPriorityFeePerGas Unpacked.maxFeePerGas].
  rewrite Ea, Eg.
  destruct (halves _ (padStart 32 "0" (toString16 (Z.to_N cgl))) Lv) as [-> ->].
  destruct (halves _ (padStart 32 "0" (toString16 (Z.to_N fee))) Lp) as [-> ->].
  destruct (unpacked_quantity vgl (proj1 Hv)) as (? & ? & ?).
  destruct (unpacked_quantity cgl (proj1 Hc)) as (? & ? & ?).
  destruct (unpacked_quantity prio (proj1 Hp)) as (? & ? & ?).
  destruct (unpacked_quantity fee (proj1 Hf)) as (? & ? & ?).
  repeat split; assumption.
Qed.

(** The gas policy of [buildUserOp], with a zero thrown in. *)
Lemma pack_unpack_gas_fields_witness :
  packPair 2000000 0
  = Normal "0x000000000000000000000000001e848000000000000000000000000000000000"
  /\ packPair 1000000000 10000000000
     = Normal "0x0000000000000000000000003b9aca00000000000000000000000002540be400"
  /\ forall packed,
       packed.(accountGasLimits)
       = "0x000000000000000000000000001e848000000000000000000000000000000000" ->
       packed.(gasFees)
       = "0x0000000000000000000000003b9aca00000000000000000000000002540be400" ->
       exists u,
         unpackUserOp packed = Normal u
         /\ u.(Unpacked.verificationGasLimit) = "0x1e8480"
         /\ u.(Unpacked.callGasLimit) = "0x0"
         /\ u.(Unpacked.maxPriorityFeePerGas) = "0x3b9aca00"
         /\ u.(Unpacked.maxFeePerGas) = "0x2540be400".
Proof.
  destruct (pack_unpack_gas_fields 2000000 0 1000000000 10000000000
              ltac:(lia) ltac:(lia) ltac:(lia) ltac:(lia))
    as (P1 & _ & P2 & _ & U).
  split; [exact P1 | split; [exact P2 |]].
  intros packed Ea Eg.
  destruct (U packed Ea Eg) as (u & Hu & V & C & P & F & _).
  exists u. repeat split; assumption.
Defined.

End RelayFormat.

(* ================================================================== *)
(** * OperationCodec: the operation hash                               *)
(* ================================================================== *)

Module OperationHash.

Import Viem UserOp JsFacts Samples.

Lemma startsWith_0x (a : string) :
  startsWith a "0x" = true -> a = "0x" ++ sliceFrom 2 a.
Proof.
  destruct a as [|c1 [|c2 r]]; cbn [startsWith]; try discriminate.
  - now rewrite andb_false_r.
  - intros H. apply andb_true_iff in H. destruct H as [H1 H2].
    apply andb_true_iff in H2. destruct H2 as [H2 _].
    apply Ascii.eqb_eq in H1, H2. now subst.
Qed.

Lemma isHexString_inv (h : string) :
  isHexString h = true ->
  exists body, h = "0x" ++ body /\ isHexDigits body = true.
Proof.
  unfold isHexString. intros H. apply andb_true_iff in H. destruct H as [H1 H2].
  exists (sliceFrom 2 h). split; [now apply startsWith_0x | exact H2].
Qed.

Lemma isWord_inv (w : string) :
  isWord w = true ->
  exists body, w = "0x" ++ body /\ isHexDigits body = true /\ String.length body = 64.
Proof.
  unfold isWord. intros H. apply andb_true_iff in H. destruct H as [H1 H2].
  destruct (isHexString_inv w H1) as (body & -> & Hb).
  exists body. repeat split; [exact Hb |].
  apply Nat.eqb_eq in H2. cbn [append String.length] in H2. lia.
Qed.

Lemma isWord_intro (body : string) :
  isHexDigits body = true -> String.length body = 64 -> isWord ("0x" ++ body) = true.
Proof.
  intros Hb Hl. unfold isWord, isHexString.
  change (startsWith ("0x" ++ body) "0x") with true.
  change (sliceFrom 2 ("0x" ++ body)) with body.
  rewrite Hb. cbn [append String.length andb]. now rewrite Hl.
Qed.

Lemma isHexDigits_append a b :
  isHexDigits (a ++ b) = isHexDigits a && isHexDigits b.
Proof. apply allChars_append. Qed.

Lemma isHexDigits_zeros n : isHexDigits (repeatChar "0" n) = true.
Proof. induction n as [|n IH]; [reflexivity | exact IH]. Qed.

Lemma isHexDigits_padStart n s :
  isHexDigits s = true -> isHexDigits (padStart n "0" s) = true.
Proof.
  intros H. unfold padStart. now rewrite isHexDigits_append, isHexDigits_zeros.
Qed.

Lemma isHexDigits_padEnd n s :
  isHexDigits s = true -> isHexDigits (padEnd n "0" s) = true.
Proof.
  intros H. unfold padEnd. now rewrite isHexDigits_append, isHexDigits_zeros, H.
Qed.

Lemma length_padEnd n c s :
  String.length s <= n -> String.length (padEnd n c s) = n.
Proof.
  intros H. unfold padEnd. rewrite length_append, length_repeatChar. lia.
Qed.

Lemma lowerChar_hex c : isHexDigit c = true -> isHexDigit (lowerChar c) = true.
Proof.
  destruct c as [[] [] [] [] [] [] [] []]; vm_compute; congruence.
Qed.

Lemma isHexDigits_toLowerCase s :
  isHexDigits s = true -> isHexDigits (toLowerCase s) = true.
Proof.
  unfold isHexDigits. induction s as [|c r IH]; [reflexivity |].
  cbn [toLowerCase allChars]. intros H.
  apply andb_true_iff in H. destruct H as [Hc Hr].
  now rewrite lowerChar_hex, IH.
Qed.

Lemma length_toLowerCase s : String.length (toLowerCase s) = String.length s.
Proof. induction s as [|c r IH]; [reflexivity |]. cbn. now rewrite IH. Qed.

(** ** The three encoders produce the ABI words *)

Section Encoders.

Variable checksumAddress : string -> string.

Lemma encodeAddress_word (a : string) :
  isAddress checksumAddress a = true ->
  encodeAddress checksumAddress a = Normal (addressWord a)
  /\ isWord (addressWord a) = true.
Proof.
  intros H. unfold encodeAddress. rewrite H. cbn [negb].
  assert (R : matchesAddressRegex a = true).
  { unfold isAddress in H. now destruct (matchesAddressRegex a). }
  unfold matchesAddressRegex in R.
  apply andb_true_iff in R. destruct R as [R Hd].
  apply andb_true_iff in R. destruct R as [Hp Hl].
  apply Nat.eqb_eq in Hl. pose proof (startsWith_0x a Hp) as E.
  assert (Lb : String.length (toLowerCase (sliceFrom 2 a)) = 40).
  { rewrite length_toLowerCase. rewrite E in Hl.
    cbn [append String.length] in Hl. lia. }
  split.
  - assert (B : removeFirst "0x" (toLowerCase a) = toLowerCase (sliceFrom 2 a))
      by (rewrite E at 1; reflexivity).
    unfold padHex, addressWord. rewrite B, Lb. reflexivity.
  - apply isWord_intro.
    + now apply isHexDigits_padStart, isHexDigits_toLowerCase.
    + apply length_padStart. lia.
Qed.

Lemma toString16_fits_word (n : Z) :
  (0 <= n < 2 ^ 256)%Z -> String.length (toString16 (Z.to_N n)) <= 64.
Proof.
  intros H. apply toString16_length; [| lia].
  change (16 ^ N.of_nat 64)%N with (Z.to_N (2 ^ 256)).
  apply Z2N.inj_lt; lia.
Qed.

Lemma encodeNumber_word (n : Z) :
  (0 <= n < 2 ^ 256)%Z ->
  encodeNumber n = Normal (uintWord n) /\ isWord (uintWord n) = true.
Proof.
  intros H. pose proof (toString16_fits_word n H) as L. split.
  - unfold encodeNumber, numberToHex.
    change (2 ^ (8 * Z.of_nat 32))%Z with (2 ^ 256)%Z.
    destruct (Z.ltb_spec (2 ^ 256 - 1) n); [lia |].
    destruct (Z.ltb_spec n 0); [lia |]. cbn [orb].
    unfold pad, padHex.
    change (removeFirst "0x" ("0x" ++ ?d)) with d.
    change (32 * 2) with 64.
    destruct (Nat.ltb_spec 64 (String.length (toString16 (Z.to_N n)))); [lia |].
    reflexivity.
  - apply isWord_intro.
    + apply isHexDigits_padStart, isHexDigits_toString16.
    + now apply length_padStart.
Qed.

Lemma encodeBytes32_word (b : Hex) :
  isHexString b = true -> size b = 32 ->
  encodeBytes32 b = Normal (bytes32Word b) /\ isWord (bytes32Word b) = true.
Proof.
  intros Hh Hs. destruct (isHexString_inv b Hh) as (body & -> & Hb).
  unfold size in Hs. change (isHexLoose ("0x" ++ body)) with true in Hs.
  cbv iota in Hs. cbn [append String.length] in Hs.
  assert (L : String.length body <= 64).
  { destruct (Nat.le_gt_cases (String.length body) 64) as [|G]; [assumption |].
    exfalso.
    assert (33 <= (S (S (String.length body)) - 2 + 1) / 2).
    { apply Nat.div_le_lower_bound; lia. }
    lia. }
  split.
  - unfold encodeBytes32, size. change (isHexLoose ("0x" ++ body)) with true.
    cbv iota. cbn [append String.length]. rewrite Hs. cbn [Nat.eqb negb].
    unfold padHex, bytes32Word.
    change (removeFirst "0x" (String "0" (String "x" body))) with body.
    change (sliceFrom 2 (String "0" (String "x" body))) with body.
    change (32 * 2) with 64.
    destruct (Nat.ltb_spec 64 (String.length body)); [lia | reflexivity].
  - unfold bytes32Word. change (sliceFrom 2 ("0x" ++ body)) with body.
    apply isWord_intro; [now apply isHexDigits_padEnd | now apply length_padEnd].
Qed.

Lemma size_of_word (w : Hex) : isWord w = true -> size w = 32 /\ isHexString w = true.
Proof.
  intros H. destruct (isWord_inv w H) as (body & -> & Hb & Hl). split.
  - unfold size. change (isHexLoose ("0x" ++ body)) with true. cbv iota.
    cbn [append String.length]. rewrite Hl. reflexivity.
  - unfold isWord in H. now apply andb_true_iff in H.
Qed.

Lemma joined_words (ws : list Hex) :
  Forall (fun w => isWord w = true) ws ->
  isHexDigits (joinStrings (map (removeFirst "0x") ws)) = true
  /\ String.length (joinStrings (map (removeFirst "0x") ws)) = 64 * List.length ws.
Proof.
  induction 1 as [|w r Hw _ [IH1 IH2]]; [split; reflexivity |].
  destruct (isWord_inv w Hw) as (body & -> & Hb & Hl).
  cbn [map joinStrings List.length].
  change (removeFirst "0x" ("0x" ++ body)) with body.
  rewrite isHexDigits_append, length_append, Hb, IH1, IH2, Hl. split; [reflexivity | lia].
Qed.

(** Words side by side: a hex string of 32 bytes per word. *)
Lemma concat_words (ws : list Hex) :
  Forall (fun w => isWord w = true) ws ->
  isHexString (concat ws) = true /\ size (concat ws) = 32 * List.length ws.
Proof.
  intros H. destruct (joined_words ws H) as [H1 H2]. unfold concat. split.
  - unfold isHexString.
    change (startsWith ("0x" ++ ?j) "0x") with true.
    change (sliceFrom 2 ("0x" ++ ?j)) with j. exact H1.
  - unfold size. change (isHexLoose ("0x" ++ ?j)) with true. cbv iota.
    cbn [append String.length]. rewrite H2.
    replace (S (S (64 * List.length ws)) - 2 + 1) with (1 + (32 * List.length ws) * 2) by lia.
    rewrite Nat.div_add by discriminate. reflexivity.
Qed.

Lemma bytes32Word_word (d : Hex) : isWord d = true -> bytes32Word d = d.
Proof.
  intros H. destruct (isWord_inv d H) as (body & -> & _ & Hl).
  unfold bytes32Word, padEnd. change (sliceFrom 2 ("0x" ++ body)) with body.
  rewrite Hl. change (repeatChar "0" (64 - 64)) with EmptyString. now rewrite append_nil_r.
Qed.

Lemma encodeBytes32_digest (d : Hex) :
  isWord d = true -> encodeBytes32 d = Normal d.
Proof.
  intros H. destruct (size_of_word d H) as [Hs Hh].
  destruct (encodeBytes32_word d Hh Hs) as [E _].
  now rewrite E, bytes32Word_word.
Qed.

End Encoders.

(** ** The two stages *)

Section TwoStages.

Variable ENTRYPOINT : string.
Variable CHAIN_ID : option Z.
Variable keccak256 : Hex -> Completion Hex.
Variable checksumAddress : string -> string.

(** The contract of [keccak256]: a 32-byte digest for every hex string. *)
Hypothesis keccak_digest :
  forall h, isHexString h = true ->
            exists d, keccak256 h = Normal d /\ isWord d = true.


End TwoStages.



End OperationHash.

(* ================================================================== *)
(** * OnChainValidator: the sender-bound hash                          *)
(* ================================================================== *)

Module OnChainValidator.

Import PQValidatorModule.

Lemma bigEndian_length len n : List.length (bigEndian len n) = len.
Proof.
  revert n. induction len as [|k IH]; intros n; [reflexivity |].
  cbn [bigEndian]. rewrite length_app, IH. cbn [List.length]. lia.
Qed.

Lemma to_N_byteOfN n : Byte.to_N (byteOfN n) = (n mod 256)%N.
Proof.
  unfold byteOfN.
  assert (H : (n mod 256 < 256)%N) by (apply N.mod_lt; discriminate).
  destruct (Byte.of_N (n mod 256)) as [b|] eqn:E.
  - now apply Byte.to_of_N.
  - apply Byte.of_N_None_iff in E. lia.
Qed.

(** Byte [i] of [bigEndian len n] is digit [len - 1 - i] of [n] in base
    256: the most significant of the [len] low-order digits comes first. *)
Lemma bigEndian_nth len :
  forall n i, i < len ->
    Byte.to_N (nth i (bigEndian len n) x00)
    = ((n / 256 ^ N.of_nat (len - 1 - i)) mod 256)%N.
Proof.
  induction len as [|k IH]; intros n i Hi; [lia |].
  cbn [bigEndian]. destruct (Nat.eq_dec i k) as [->|Hne].
  - rewrite app_nth2 by (rewrite bigEndian_length; lia).
    rewrite bigEndian_length, Nat.sub_diag. cbn [nth].
    replace (S k - 1 - k) with 0 by lia.
    rewrite to_N_byteOfN. cbn [N.of_nat]. now rewrite N.pow_0_r, N.div_1_r.
  - rewrite app_nth1 by (rewrite bigEndian_length; lia).
    rewrite IH by lia.
    replace (S k - 1 - i) with (S (k - 1 - i)) by lia.
    rewrite Nat2N.inj_succ, N.pow_succ_r', N.Div0.div_div. reflexivity.
Qed.

(** A number below [256 ^ len] is determined by its [len] bytes. *)
Lemma bigEndian_inj len :
  forall n m, (n < 256 ^ N.of_nat len)%N -> (m < 256 ^ N.of_nat len)%N ->
    bigEndian len n = bigEndian len m -> n = m.
Proof.
  induction len as [|k IH]; intros n m Hn Hm E.
  - cbn in Hn, Hm. lia.
  - cbn [bigEndian] in E. apply app_inj_tail in E. destruct E as [E1 E2].
    rewrite Nat2N.inj_succ, N.pow_succ_r' in Hn, Hm.
    assert (Q : (n / 256 = m / 256)%N).
    { apply IH; [| | exact E1]; apply N.Div0.div_lt_upper_bound; assumption. }
    assert (R : (n mod 256 = m mod 256)%N)
      by (rewrite <- !to_N_byteOfN; now rewrite E2).
    rewrite (N.div_mod n 256), (N.div_mod m 256) by discriminate.
    now rewrite Q, R.
Qed.

Lemma app_inj_length {A} (a a' b b' : list A) :
  List.length a = List.length a' -> (a ++ b = a' ++ b')%list -> a = a' /\ b = b'.
Proof.
  revert a'. induction a as [|x r IH]; intros [|y r'] Hl E; try discriminate.
  - now split.
  - cbn in E. injection E as -> E. injection Hl as Hl.
    destruct (IH r' Hl E) as [-> ->]. now split.
Qed.

(** The packed encoding binds all five fields: two well-typed tuples with
    the same 124 bytes are the same tuple. *)
Lemma encodePacked_inj a1 n a2 a3 h a1' n' a2' a3' h' :
  (a1 < 2 ^ 160)%N -> (n < 2 ^ 256)%N -> (a2 < 2 ^ 160)%N
  -> (a3 < 2 ^ 160)%N -> (h < 2 ^ 256)%N ->
  (a1' < 2 ^ 160)%N -> (n' < 2 ^ 256)%N -> (a2' < 2 ^ 160)%N
  -> (a3' < 2 ^ 160)%N -> (h' < 2 ^ 256)%N ->
  encodePacked a1 n a2 a3 h = encodePacked a1' n' a2' a3' h' ->
  a1 = a1' /\ n = n' /\ a2 = a2' /\ a3 = a3' /\ h = h'.
Proof.
  intros H1 H2 H3 H4 H5 H1' H2' H3' H4' H5' E. unfold encodePacked in E.
  assert (P160 : (2 ^ 160 = 256 ^ N.of_nat 20)%N) by reflexivity.
  assert (P256 : (2 ^ 256 = 256 ^ N.of_nat 32)%N) by reflexivity.
  rewrite P160 in H1, H3, H4, H1', H3', H4'.
  rewrite P256 in H2, H5, H2', H5'.
  apply app_inj_length in E; [| now rewrite !bigEndian_length].
  destruct E as [E1 E].
  apply app_inj_length in E; [| now rewrite !bigEndian_length].
  destruct E as [E2 E].
  apply app_inj_length in E; [| now rewrite !bigEndian_length].
  destruct E as [E3 E].
  apply app_inj_length in E; [| now rewrite !bigEndian_length].
  destruct E as [E4 E5].
  repeat split; eapply bigEndian_inj; eassumption.
Qed.

(** C3. For an account with an installed key, [isValidSignatureWithSender]
    hands the verifier not [hash] but the keccak256 of 124 packed bytes,
    and its answer is the verifier's verdict on that re-derived hash. The
    124 bytes are, in this order and each big-endian at its own width
    with no padding: the validator's address (bytes 0-19), the chain id
    (bytes 20-51), the calling account (bytes 52-71), the [sender]
    argument (bytes 72-91) and [hash] (bytes 92-123). They bind all five
    fields: another call, with well-typed fields that differ in any of the
    five, hashes other bytes. *)
Theorem isValidSignatureWithSender_rehashes
  (keccak256 : bytes -> bytes32)
  (verifier_verify : bytes -> bytes32 -> bytes -> option bool)
  (publicKeys : address -> bytes)
  (ctx : Context) (sender : address) (hash : bytes32) (signature : bytes) :
  isInitialized publicKeys ctx.(msg_sender) = true ->
  let digit (n : N) (k : nat) : N := ((n / 256 ^ N.of_nat k) mod 256)%N in
  exists preimage : bytes,
    List.length preimage = 124
    /\ (forall i, i < 20 ->
          Byte.to_N (nth i preimage x00) = digit ctx.(this) (19 - i))
    /\ (forall i, i < 32 ->
          Byte.to_N (nth (20 + i) preimage x00) = digit ctx.(chainid) (31 - i))
    /\ (forall i, i < 20 ->
          Byte.to_N (nth (52 + i) preimage x00) = digit ctx.(msg_sender) (19 - i))
    /\ (forall i, i < 20 ->
          Byte.to_N (nth (72 + i) preimage x00) = digit sender (19 - i))
    /\ (forall i, i < 32 ->
          Byte.to_N (nth (92 + i) preimage x00) = digit hash (31 - i))
    /\ senderBoundHash keccak256 ctx sender hash = keccak256 preimage
    /\ isValidSignatureWithSender keccak256 verifier_verify publicKeys
         ctx sender hash signature
       = option_map (fun ok : bool => if ok then ERC1271_VALID else ERC1271_INVALID)
           (verifier_verify (publicKeys ctx.(msg_sender)) (keccak256 preimage) signature)
    /\ (forall (ctx' : Context) (sender' : address) (hash' : bytes32),
          wellTyped ctx sender hash -> wellTyped ctx' sender' hash' ->
          encodePacked ctx'.(this) ctx'.(chainid) ctx'.(msg_sender) sender' hash'
          = preimage ->
          ctx' = ctx /\ sender' = sender /\ hash' = hash).
Proof.
  intros Hinit digit.
  exists (encodePacked ctx.(this) ctx.(chainid) ctx.(msg_sender) sender hash).
  assert (L : forall a b c d e, List.length (encodePacked a b c d e) = 124)
    by (intros; unfold encodePacked; now rewrite !length_app, !bigEndian_length).
  split; [apply L |].
  unfold encodePacked at 1 2 3 4 5.
  split.
  { intros i Hi. rewrite app_nth1 by (rewrite bigEndian_length; lia).
    rewrite bigEndian_nth by lia. unfold digit. first [reflexivity | do 3 f_equal; lia]. }
  split.
  { intros i Hi. rewrite app_nth2 by (rewrite bigEndian_length; lia).
    rewrite bigEndian_length. replace (20 + i - 20) with i by lia.
    rewrite app_nth1 by (rewrite bigEndian_length; lia).
    rewrite bigEndian_nth by lia. unfold digit. first [reflexivity | do 3 f_equal; lia]. }
  split.
  { intros i Hi.
    rewrite app_nth2 by (rewrite bigEndian_length; lia). rewrite bigEndian_length.
    rewrite app_nth2 by (rewrite bigEndian_length; lia). rewrite bigEndian_length.
    replace (52 + i - 20 - 32) with i by lia.
    rewrite app_nth1 by (rewrite bigEndian_length; lia).
    rewrite bigEndian_nth by lia. unfold digit. first [reflexivity | do 3 f_equal; lia]. }
  split.
  { intros i Hi.
    rewrite app_nth2 by (rewrite bigEndian_length; lia). rewrite bigEndian_length.
    rewrite app_nth2 by (rewrite bigEndian_length; lia). rewrite bigEndian_length.
    rewrite app_nth2 by (rewrite bigEndian_length; lia). rewrite bigEndian_length.
    replace (72 + i - 20 - 32 - 20) with i by lia.
    rewrite app_nth1 by (rewrite bigEndian_length; lia).
    rewrite bigEndian_nth by lia. unfold digit. first [reflexivity | do 3 f_equal; lia]. }
  split.
  { intros i Hi.
    rewrite app_nth2 by (rewrite bigEndian_length; lia). rewrite bigEndian_length.
    rewrite app_nth2 by (rewrite bigEndian_length; lia). rewrite bigEndian_length.
    rewrite app_nth2 by (rewrite bigEndian_length; lia). rewrite bigEndian_length.
    rewrite app_nth2 by (rewrite bigEndian_length; lia). rewrite bigEndian_length.
    replace (92 + i - 20 - 32 - 20 - 20) with i by lia.
    rewrite bigEndian_nth by lia. unfold digit. first [reflexivity | do 3 f_equal; lia]. }
  split; [reflexivity |].
  split.
  { unfold isValidSignatureWithSender. rewrite Hinit. cbn [negb].
    unfold senderBoundHash.
    now destruct (verifier_verify _ _ _) as [[|]|]. }
  intros ctx' sender' hash' (W1 & W2 & W3 & W4 & W5) (W1' & W2' & W3' & W4' & W5') E.
  destruct (encodePacked_inj _ _ _ _ _ _ _ _ _ _ W1' W2' W3' W4' W5' W1 W2 W3 W4 W5 E)
    as (E1 & E2 & E3 & E4 & E5).
  destruct ctx, ctx'. cbn in *. subst. repeat split.
Qed.

(** A verifier that accepts exactly the original hash 7, under a hash
    function that never returns 7: the signature is refused, because the
    verifier is asked about the re-derived hash. *)
Lemma isValidSignatureWithSender_rehashes_witness :
  isValidSignatureWithSender
    (fun preimage => N.of_nat (List.length preimage))
    (fun _ message _ => Some (message =? 7)%N)
    (fun _ => [x01])
    {| this := 10%N; chainid := 412346%N; msg_sender := 20%N |} 30%N 7%N [x02]
  = Some ERC1271_INVALID.
Proof.
  destruct (isValidSignatureWithSender_rehashes
              (fun preimage => N.of_nat (List.length preimage))
              (fun _ message _ => Some (message =? 7)%N)
              (fun _ => [x01])
              {| this := 10%N; chainid := 412346%N; msg_sender := 20%N |} 30%N 7%N [x02]
              eq_refl)
    as (preimage & Hlen & _ & _ & _ & _ & _ & _ & Hv & _).
  rewrite Hv, Hlen. reflexivity.
Defined.

End OnChainValidator.

(* ================================================================== *)
(** * RelayClient: the polling loop is bounded by its timeout          *)
(* ================================================================== *)

Module RelayClient.

Import Bundler.

(** Once the rounds cover the timeout, further rounds change nothing: the
    bound of [waitForReceipt] cuts no run short. *)
Lemma pollReceipt_bound relay_receipt drift opHash timeoutMs rounds :
  forall i extra,
    (timeoutMs <= 1000 * Z.of_nat (i + rounds))%Z ->
    pollReceipt relay_receipt drift (rounds + extra) i opHash timeoutMs
    = pollReceipt relay_receipt drift rounds i opHash timeoutMs.
Proof.
  induction rounds as [|r IH]; intros i extra H.
  - cbn [Nat.add pollReceipt]. destruct extra as [|e]; [reflexivity |].
    cbn [pollReceipt]. unfold elapsedAt.
    destruct (Z.ltb_spec (1000 * Z.of_nat i + Z.of_N (drift i)) timeoutMs);
      [lia | reflexivity].
  - cbn [Nat.add pollReceipt].
    destruct (elapsedAt drift i <? timeoutMs)%Z; [| reflexivity].
    unfold bindR. cbn [fst snd].
    destruct (relay_receipt i opHash) as [reply|]; [| reflexivity].
    destruct (receipt_result reply); [reflexivity |].
    rewrite IH by lia. reflexivity.
Qed.

Lemma waitForReceipt_bound relay_receipt drift opHash timeoutMs extra :
  pollReceipt relay_receipt drift
    (S (Z.to_nat (timeoutMs / 1000 + 1)) + extra) 0 opHash timeoutMs
  = waitForReceipt relay_receipt drift opHash timeoutMs.
Proof.
  unfold waitForReceipt. apply pollReceipt_bound.
  destruct (Z.le_gt_cases timeoutMs 0) as [Hn|Hp]; [lia |].
  pose proof (Z.mod_pos_bound timeoutMs 1000 ltac:(lia)) as Hm.
  pose proof (Z.div_mod timeoutMs 1000 ltac:(lia)) as Hd.
  assert (0 <= timeoutMs / 1000)%Z by (apply Z.div_pos; lia).
  rewrite Nat2Z.inj_add, Nat2Z.inj_succ, Z2Nat.id by lia.
  cbn [Z.of_nat]. lia.
Qed.

End RelayClient.

(* ================================================================== *)
(** * OperationLifecycle: a rejection by the relay                     *)
(* ================================================================== *)

Module Lifecycle.

Import App Samples.

Lemma statusAfter_app s a b :
  statusAfter s (a ++ b)%list = statusAfter (statusAfter s a) b.
Proof.
  revert s. induction a as [|ev r IH]; intros s; [reflexivity |].
  destruct ev; cbn [app statusAfter]; apply IH.
Qed.

Lemma errorAfter_app e a b :
  errorAfter e (a ++ b)%list = errorAfter (errorAfter e a) b.
Proof.
  revert e. induction a as [|ev r IH]; intros e; [reflexivity |].
  destruct ev; cbn [app errorAfter]; apply IH.
Qed.

(** What happens inside [buildUserOp] sets no status, records no error
    and polls no receipt. *)
Lemma inBuild_silent s e (calls : list UserOp.Call) :
  statusAfter s (map InBuildUserOp calls) = s
  /\ errorAfter e (map InBuildUserOp calls) = e
  /\ existsb isReceiptPolling (map InBuildUserOp calls) = false.
Proof.
  induction calls as [|c r (IH1 & IH2 & IH3)]; [repeat split |].
  cbn [map statusAfter errorAfter existsb isReceiptPolling orb]. auto.
Qed.

(** Sequencing, one step at a time. *)
Lemma bindR_emit {E B} (ev : E) (k : unit -> Run E B) c t :
  k tt = (c, t) -> bindR (emit ev) k = (c, ev :: t).
Proof. intros H. unfold bindR, emit. cbn [fst snd]. now rewrite H. Qed.

Lemma bindR_ret {E A B} (a : A) (k : A -> Run E B) c t :
  k a = (c, t) -> bindR (ret a) k = (c, t).
Proof. intros H. unfold bindR, ret. cbn [fst snd]. now rewrite H. Qed.

Lemma bindR_normal {E A B} (m : Run E A) (k : A -> Run E B) a t1 c t2 :
  m = (Normal a, t1) -> k a = (c, t2) -> bindR m k = (c, (t1 ++ t2)%list).
Proof. intros -> H. unfold bindR. cbn [fst snd]. now rewrite H. Qed.

Lemma bindR_throw {E A B} (m : Run E A) (k : A -> Run E B) e t :
  m = (Throw e, t) -> bindR m k = (Throw e, t).
Proof. now intros ->. Qed.

(** [submitUserOp] turns the relay's error into an exception that quotes
    its message, after one request. *)
Lemma submitUserOp_rejected ENTRYPOINT relay_submit userOp u reply m :
  Bundler.unpackUserOp userOp = Normal u ->
  relay_submit u ENTRYPOINT = Normal reply ->
  reply.(Bundler.submit_error) = Some {| Bundler.message := Bundler.JString m |} ->
  Bundler.submitUserOp ENTRYPOINT relay_submit userOp
  = (Throw (Error ("Bundler error: " ++ m)),
     [Bundler.SendUserOperation u ENTRYPOINT]).
Proof.
  intros Hu Hr He. unfold Bundler.submitUserOp.
  rewrite Hu. unfold bindR, lift. cbn [fst snd]. rewrite Hr. cbn [fst snd].
  rewrite He. reflexivity.
Qed.

(** The [catch] block always completes: it records the failure and sends
    the rejection, whose own failure is swallowed. *)
Lemma onFailure_trace w tx err :
  onFailure w tx err
  = (Normal tt,
     [ SetTxStatus error;
       SetTxError (errorText err);
       AddLog log_error ("Failed: " ++ errorText err);
       RespondSessionRequest tx.(topic) tx.(id)
         (RespondError (-32000) (errorText err)) ]).
Proof.
  unfold onFailure, setTxStatus, addLog.
  repeat (apply bindR_emit).
  unfold tryCatch, respond. cbn [fst snd].
  destruct (w _ _ _) as [[]|]; reflexivity.
Qed.

(** C9. Suppose an approved request reaches submission (a wallet kit, a
    pending request, a ready signer, a built and signed operation) and
    the relay answers [eth_sendUserOperation] with a structured error
    whose message is [m]. Then [handleApprove] ends with status [error];
    the recorded error and the rejection sent back to the session both
    are ["Bundler error: "] followed by [m], unaltered; the relay was asked
    once, and [waitForReceipt] was never called nor any receipt request
    posted. *)
Theorem relay_rejection_ends_failed
  (w : string -> Z -> SessionResponse -> Completion unit) (tx : PendingTx)
  (signerMode : SignerMode)
  (signViaSnap signUserOpHash : list byte -> Completion (list byte))
  (buildUserOp : UserOp.TxParams -> (list byte -> Completion (list byte))
                 -> Run UserOp.Call UserOp.PackedUserOp)
  (getSnapInfo : Completion unit)
  (ENTRYPOINT : string)
  (relay_submit : Bundler.Unpacked.t -> string -> Completion Bundler.SubmitReply)
  (relay_receipt : nat -> Bundler.JsVal -> Completion Bundler.ReceiptReply)
  (drift : nat -> N)
  (value : Z) (userOp : UserOp.PackedUserOp) (calls : list UserOp.Call)
  (u : Bundler.Unpacked.t) (reply : Bundler.SubmitReply) (m : string) :
  BigIntOfString tx.(App.value) = Normal value ->
  buildUserOp {| UserOp.to := tx.(to);
                 UserOp.value := value;
                 UserOp.data := Some (orElse tx.(data) "0x") |}
              (match signerMode with snap => signViaSnap | seed => signUserOpHash end)
  = (Normal userOp, calls) ->
  Bundler.unpackUserOp userOp = Normal u ->
  relay_submit u ENTRYPOINT = Normal reply ->
  reply.(Bundler.submit_error) = Some {| Bundler.message := Bundler.JString m |} ->
  let run :=
    handleApprove (Some w) (Some tx) true signerMode signViaSnap signUserOpHash
      buildUserOp getSnapInfo
      (Bundler.submitUserOp ENTRYPOINT relay_submit)
      (Bundler.waitForReceipt relay_receipt drift) in
  fst run = Normal tt
  /\ statusAfter idle (snd run) = error
  /\ errorAfter None (snd run) = Some ("Bundler error: " ++ m)
  /\ In (RespondSessionRequest tx.(topic) tx.(id)
           (RespondError (-32000) ("Bundler error: " ++ m))) (snd run)
  /\ In (Relay (Bundler.SendUserOperation u ENTRYPOINT)) (snd run)
  /\ existsb isReceiptPolling (snd run) = false.
Proof.
  intros Hv Hb Hu Hr He run.
  pose proof (submitUserOp_rejected _ _ _ _ _ _ Hu Hr He) as Hs.
  assert (P : exists t,
             pipeline signerMode signViaSnap signUserOpHash buildUserOp getSnapInfo
               (Bundler.submitUserOp ENTRYPOINT relay_submit)
               (Bundler.waitForReceipt relay_receipt drift) w tx
             = (Throw (Error ("Bundler error: " ++ m)), t)
             /\ In (Relay (Bundler.SendUserOperation u ENTRYPOINT)) t
             /\ existsb isReceiptPolling t = false).
  { unfold pipeline, setTxStatus, addLog.
    assert (S : exists ts,
               match signerMode with
               | snap =>
                   emit CallGetSnapInfo ;;;
                   match getSnapInfo with
                   | Normal _ => emit SetSnapInfo
                   | Throw _ => ret tt
                   end
               | seed => ret tt
               end = (Normal tt, ts)
               /\ existsb isReceiptPolling ts = false).
    { destruct signerMode; [now exists [] |].
      destruct getSnapInfo as [[]|]; eexists; (split; [reflexivity |]); reflexivity. }
    destruct S as (ts & Hts & Hpoll).
    eexists. split.
    - do 2 apply bindR_emit.
      eapply bindR_normal; [unfold lift; now rewrite Hv |].
      apply bindR_emit.
      eapply bindR_normal; [unfold mapEvents; rewrite Hb; reflexivity |].
      eapply bindR_normal; [exact Hts |].
      do 5 apply bindR_emit.
      apply bindR_throw. unfold mapEvents. rewrite Hs. reflexivity.
    - split.
      + cbn [In app fst snd]. do 3 right. apply in_or_app. right.
        apply in_or_app. right. cbn [In map]. auto 10.
      + cbn [existsb app isReceiptPolling orb fst snd map].
        rewrite !existsb_app, Hpoll.
        destruct (inBuild_silent idle None calls) as (_ & _ & ->).
        reflexivity. }
  destruct P as (t & Hp & Hin & Hpoll).
  assert (R : run = (Normal tt,
                     (t ++ [ SetTxStatus error;
                             SetTxError ("Bundler error: " ++ m);
                             AddLog log_error ("Failed: " ++ "Bundler error: " ++ m);
                             RespondSessionRequest tx.(topic) tx.(id)
                               (RespondError (-32000) ("Bundler error: " ++ m)) ])%list)).
  { subst run. unfold handleApprove. cbn [negb]. unfold tryCatch.
    rewrite Hp. cbn [fst snd]. rewrite onFailure_trace. reflexivity. }
  rewrite R. cbn [fst snd].
  split; [reflexivity |].
  split; [now rewrite statusAfter_app |].
  split; [now rewrite errorAfter_app |].
  split; [apply in_or_app; right; cbn [In]; auto |].
  split; [apply in_or_app; now left |].
  rewrite existsb_app, Hpoll. reflexivity.
Qed.


Lemma relay_rejection_ends_failed_witness :
  let run :=
    handleApprove (Some (fun _ _ _ => Normal tt)) (Some sampleTx) true seed
      (fun _ => Throw (Error "no snap")) sampleSign sampleBuild (Normal tt)
      (Bundler.submitUserOp "0x0000000071727de22e5e9d8baf0edac6f37da032" refusingRelay)
      (Bundler.waitForReceipt (fun _ _ => Normal {| Bundler.receipt_result := None |})
         (fun _ => 0%N)) in
  statusAfter idle (snd run) = error
  /\ errorAfter None (snd run) = Some "Bundler error: AA21 didn't pay prefund"
  /\ existsb isReceiptPolling (snd run) = false.
Proof.
  destruct (relay_rejection_ends_failed
              (fun _ _ _ => Normal tt) sampleTx seed
              (fun _ => Throw (Error "no snap")) sampleSign sampleBuild (Normal tt)
              "0x0000000071727de22e5e9d8baf0edac6f37da032" refusingRelay
              (fun _ _ => Normal {| Bundler.receipt_result := None |})
              (fun _ => 0%N)
              1000000000000000 sampleBuilt sampleCalls _ _ "AA21 didn't pay prefund"
              ltac:(vm_compute; reflexivity)
              ltac:(vm_compute; reflexivity)
              eq_refl eq_refl eq_refl)
    as (_ & S & E & _ & _ & P).
  repeat split; assumption.
Defined.

End Lifecycle.

(* ================================================================== *)
(** * OnChainValidator: the life of an installed key                   *)
(* ================================================================== *)

Module ValidatorKeys.

Import PQValidatorModule PQValidatorStorage.

Lemma assign_same publicKeys a d : assign publicKeys a d a = d.
Proof. unfold assign. now rewrite N.eqb_refl. Qed.

Lemma assign_other publicKeys a d x : x <> a -> assign publicKeys a d x = publicKeys x.
Proof. intros H. unfold assign. apply N.eqb_neq in H. now rewrite H. Qed.

(** X1. [onInstall] succeeds exactly for an account without a key that
    brings 1952 bytes: with a key already installed, or with data of any
    other length, it reverts. *)
Theorem onInstall_succeeds_iff publicKeys msg_sender data :
  (exists s, onInstall publicKeys msg_sender data = inl s)
  <-> (isInitialized publicKeys msg_sender = false /\ List.length data = 1952).
Proof.
  unfold onInstall. split.
  - intros (s & H). destruct (isInitialized publicKeys msg_sender); [discriminate |].
    destruct (Nat.eqb_spec (List.length data) 1952); [auto | discriminate].
  - intros (Hi & Hl). rewrite Hi, Hl. eexists. reflexivity.
Qed.

(** X2. After a successful [onInstall] the caller is initialized with
    exactly the bytes it sent, nobody else's entry has changed, a second
    [onInstall] by the same caller reverts with [AlreadyInitialized], and
    [validateUserOp] called by that account answers with the verifier's
    verdict on the stored key and the hash as given. *)
Theorem onInstall_effect publicKeys msg_sender data s :
  onInstall publicKeys msg_sender data = inl s ->
  isInitialized s msg_sender = true
  /\ s msg_sender = data
  /\ (forall other, other <> msg_sender -> s other = publicKeys other)
  /\ (forall data', onInstall s msg_sender data' = inr (AlreadyInitialized msg_sender))
  /\ (forall verifier_verify ctx userSig userOpHash,
        ctx.(PQValidatorModule.msg_sender) = msg_sender ->
        validateUserOp verifier_verify s ctx userSig userOpHash
        = option_map (fun ok : bool => if ok then VALIDATION_SUCCESS else VALIDATION_FAILED)
            (verifier_verify data userOpHash userSig)).
Proof.
  intros H.
  assert (E : isInitialized publicKeys msg_sender = false /\ List.length data = 1952)
    by (apply onInstall_succeeds_iff; eauto).
  destruct E as [Hi Hl].
  unfold onInstall in H. rewrite Hi, Hl in H. cbn in H. injection H as <-.
  assert (I : isInitialized (assign publicKeys msg_sender data) msg_sender = true).
  { unfold isInitialized. rewrite assign_same, Hl. reflexivity. }
  split; [exact I |]. split; [apply assign_same |].
  split; [intros other Ho; now apply assign_other |].
  split.
  - intros data'. unfold onInstall. now rewrite I.
  - intros verify ctx userSig userOpHash <-. unfold validateUserOp.
    rewrite I, assign_same. cbn [negb].
    now destruct (verify data userOpHash userSig) as [[|]|].
Qed.

Lemma onInstall_effect_witness :
  exists s,
    onInstall emptyStorage 20%N (repeat x00 1952) = inl s
    /\ isInitialized s 20%N = true
    /\ s 21%N = [].
Proof.
  eexists. split; [reflexivity |].
  destruct (onInstall_effect emptyStorage 20%N (repeat x00 1952) _ eq_refl)
    as (I & _ & O & _).
  split; [exact I |]. apply (O 21%N). discriminate.
Defined.

(** X3. [onUninstall] reverts with [NotInitialized] for an account
    without a key; for an account with one it clears that entry only,
    after which the account is no longer initialized, a further
    [onUninstall] reverts, and a fresh 1952-byte key can be installed. *)
Theorem onUninstall_effect publicKeys msg_sender data :
  (isInitialized publicKeys msg_sender = false ->
   onUninstall publicKeys msg_sender data = inr (NotInitialized msg_sender))
  /\ (isInitialized publicKeys msg_sender = true ->
      exists s,
        onUninstall publicKeys msg_sender data = inl s
        /\ isInitialized s msg_sender = false
        /\ (forall other, other <> msg_sender -> s other = publicKeys other)
        /\ (forall data', onUninstall s msg_sender data' = inr (NotInitialized msg_sender))
        /\ (forall key, List.length key = 1952 ->
                        exists s', onInstall s msg_sender key = inl s'
                                   /\ s' msg_sender = key)).
Proof.
  unfold onUninstall. split; intros Hi; rewrite Hi; cbn [negb]; [reflexivity |].
  eexists. split; [reflexivity |].
  assert (I : isInitialized (assign publicKeys msg_sender []) msg_sender = false).
  { unfold isInitialized. now rewrite assign_same. }
  split; [exact I |].
  split; [intros other Ho; now apply assign_other |].
  split.
  - intros data'. now rewrite I.
  - intros key Hk. unfold onInstall. rewrite I, Hk. cbn.
    eexists. split; [reflexivity | apply assign_same].
Qed.

Lemma onUninstall_effect_witness :
  onUninstall emptyStorage 20%N [] = inr (NotInitialized 20%N)
  /\ exists s,
       onUninstall (assign emptyStorage 20%N [x01]) 20%N [] = inl s
       /\ isInitialized s 20%N = false.
Proof.
  split.
  - exact (proj1 (onUninstall_effect emptyStorage 20%N []) eq_refl).
  - destruct (proj2 (onUninstall_effect (assign emptyStorage 20%N [x01]) 20%N []) eq_refl)
      as (s & E & I & _).
    exists s. split; assumption.
Defined.

(** X4. For an account without an installed key both entry points
    answer with failure ([VALIDATION_FAILED], [0xffffffff]) without
    consulting the verifier: the answer is the same for every verifier,
    also one that reverts. *)
Theorem uninitialized_account_fails publicKeys ctx :
  isInitialized publicKeys ctx.(PQValidatorModule.msg_sender) = false ->
  forall keccak256 verifier_verify sender hash signature,
    validateUserOp verifier_verify publicKeys ctx signature hash
    = Some VALIDATION_FAILED
    /\ isValidSignatureWithSender keccak256 verifier_verify publicKeys
         ctx sender hash signature
       = Some ERC1271_INVALID.
Proof.
  intros Hi keccak256 verify sender hash signature.
  unfold validateUserOp, isValidSignatureWithSender. rewrite Hi. now split.
Qed.

Lemma uninitialized_account_fails_witness :
  validateUserOp (fun _ _ _ => None) emptyStorage
    {| this := 10%N; chainid := 412346%N; PQValidatorModule.msg_sender := 20%N |}
    [x02] 7%N
  = Some VALIDATION_FAILED.
Proof.
  exact (proj1 (uninitialized_account_fails emptyStorage
                  {| this := 10%N; chainid := 412346%N;
                     PQValidatorModule.msg_sender := 20%N |}
                  eq_refl (fun _ => 0%N) (fun _ _ _ => None) 30%N 7%N [x02])).
Defined.

End ValidatorKeys.

(* ================================================================== *)
(** * RelayClient: waiting for a receipt                               *)
(* ================================================================== *)

Module ReceiptPolling.

Import Bundler RelayScenarios.

Section Polling.

Variable relay_receipt : nat -> JsVal -> Completion ReceiptReply.
Variable drift : nat -> N.
Variable opHash : JsVal.
Variable timeoutMs : Z.

(** [k] pending rounds cost [k] requests and leave the loop at round
    [i + k]. *)
Lemma pollReceipt_skip k :
  forall rounds i,
    (forall j, i <= j < i + k -> pendingRound relay_receipt drift opHash timeoutMs j) ->
    pollReceipt relay_receipt drift (k + rounds) i opHash timeoutMs
    = (fst (pollReceipt relay_receipt drift rounds (i + k) opHash timeoutMs),
       (repeat (GetUserOperationReceipt opHash) k
          ++ snd (pollReceipt relay_receipt drift rounds (i + k) opHash timeoutMs))%list).
Proof.
  induction k as [|k IH]; intros rounds i H.
  - rewrite Nat.add_0_r. cbn [Nat.add repeat app]. now destruct (pollReceipt _ _ _ _ _ _).
  - destruct (H i ltac:(lia)) as (Ht & reply & Hr & Hn).
    cbn [Nat.add pollReceipt]. apply Z.ltb_lt in Ht. rewrite Ht.
    unfold bindR. cbn [fst snd]. rewrite Hr, Hn. cbn [fst snd].
    rewrite IH by (intros j Hj; apply H; lia).
    replace (S i + k) with (i + S k) by lia. reflexivity.
Qed.

Lemma round_within_bound k :
  (elapsedAt drift k < timeoutMs)%Z ->
  exists rounds, S (Z.to_nat (timeoutMs / 1000 + 1)) = k + S rounds.
Proof.
  unfold elapsedAt. intros H.
  assert (Hk : (1000 * Z.of_nat k < timeoutMs)%Z) by lia.
  assert (Hq : (Z.of_nat k <= timeoutMs / 1000)%Z)
    by (apply Z.div_le_lower_bound; lia).
  exists (Z.to_nat (timeoutMs / 1000 + 1) - k). lia.
Qed.

(** X5. If the first [k] polls come back without a receipt and poll [k],
    still within the timeout, brings one, [waitForReceipt] returns it after
    exactly [k + 1] requests for that operation hash. The transaction hash
    is [receipt.transactionHash] if present, else [transactionHash], else
    ["unknown"]; the gas used is [actualGasUsed], else ["unknown"]. *)
Theorem waitForReceipt_found (k : nat) (reply : ReceiptReply) (r : ReceiptJson) :
  (forall j, j < k -> pendingRound relay_receipt drift opHash timeoutMs j) ->
  (elapsedAt drift k < timeoutMs)%Z ->
  relay_receipt k opHash = Normal reply ->
  reply.(receipt_result) = Some r ->
  waitForReceipt relay_receipt drift opHash timeoutMs
  = (Normal {| txHash := match r.(receipt_transactionHash) with
                         | Some h => h
                         | None => match r.(transactionHash) with
                                   | Some h => h
                                   | None => "unknown"
                                   end
                         end;
               gasUsed := match r.(actualGasUsed) with
                          | Some g => g
                          | None => "unknown"
                          end |},
     repeat (GetUserOperationReceipt opHash) (S k)).
Proof.
  intros Hp Ht Hr Hs. unfold waitForReceipt.
  destruct (round_within_bound k Ht) as (rounds & ->).
  rewrite pollReceipt_skip by (intros j Hj; apply Hp; lia).
  cbn [Nat.add pollReceipt]. apply Z.ltb_lt in Ht. rewrite Ht.
  unfold bindR. cbn [fst snd]. rewrite Hr, Hs. cbn [fst snd ret].
  f_equal. rewrite app_nil_r.
  change (repeat (GetUserOperationReceipt opHash) (S k))
    with (GetUserOperationReceipt opHash :: repeat (GetUserOperationReceipt opHash) k).
  now rewrite repeat_cons.
Qed.

(** X6. A poll that fails (the request or the decoding of its reply
    throws) ends the wait at once with that error: it is not retried. *)
Theorem waitForReceipt_poll_failure (k : nat) (e : JsError) :
  (forall j, j < k -> pendingRound relay_receipt drift opHash timeoutMs j) ->
  (elapsedAt drift k < timeoutMs)%Z ->
  relay_receipt k opHash = Throw e ->
  waitForReceipt relay_receipt drift opHash timeoutMs
  = (Throw e, repeat (GetUserOperationReceipt opHash) (S k)).
Proof.
  intros Hp Ht Hr. unfold waitForReceipt.
  destruct (round_within_bound k Ht) as (rounds & ->).
  rewrite pollReceipt_skip by (intros j Hj; apply Hp; lia).
  cbn [Nat.add pollReceipt]. apply Z.ltb_lt in Ht. rewrite Ht.
  unfold bindR. cbn [fst snd]. rewrite Hr. cbn [fst snd].
  f_equal.
  change (repeat (GetUserOperationReceipt opHash) (S k))
    with (GetUserOperationReceipt opHash :: repeat (GetUserOperationReceipt opHash) k).
  now rewrite repeat_cons.
Qed.

(** While no receipt arrives the loop ends in the timeout error, having
    posted [n] requests, the last of them before the timeout. *)
Lemma pollReceipt_never rounds :
  neverReceipt relay_receipt opHash ->
  forall i,
  exists n,
    pollReceipt relay_receipt drift rounds i opHash timeoutMs
    = (Throw (timeoutError timeoutMs), repeat (GetUserOperationReceipt opHash) n)
    /\ (n = 0 \/ (1000 * Z.of_nat (i + n - 1) < timeoutMs)%Z).
Proof.
  intros Hnever. induction rounds as [|rounds IH]; intros i.
  - exists 0. split; [reflexivity | now left].
  - cbn [pollReceipt]. destruct (Z.ltb_spec (elapsedAt drift i) timeoutMs) as [Ht|Ht].
    + destruct (Hnever i) as (reply & Hr & Hn).
      destruct (IH (S i)) as (n & E & B).
      exists (S n). unfold bindR. cbn [fst snd]. rewrite Hr. cbn [fst snd].
      rewrite Hn, E. cbn [fst snd].
      split; [reflexivity |]. right.
      destruct B as [-> | B].
      * unfold elapsedAt in Ht. replace (i + 1 - 1) with i by lia. lia.
      * replace (i + S n - 1) with (S i + n - 1) by lia. exact B.
    + exists 0. split; [reflexivity | now left].
Qed.

Lemma waitForReceipt_never :
  neverReceipt relay_receipt opHash ->
  exists n,
    waitForReceipt relay_receipt drift opHash timeoutMs
    = (Throw (timeoutError timeoutMs), repeat (GetUserOperationReceipt opHash) n)
    /\ (n = 0 \/ (1000 * (Z.of_nat n - 1) < timeoutMs)%Z).
Proof.
  intros Hnever. unfold waitForReceipt.
  destruct (pollReceipt_never (S (Z.to_nat (timeoutMs / 1000 + 1))) Hnever 0)
    as (n & E & B).
  exists n. split; [exact E |].
  destruct B as [B | B]; [now left | right].
  destruct n; [lia |]. rewrite Nat2Z.inj_succ.
  replace (0 + S n - 1) with n in B by lia. lia.
Qed.


End Polling.

Lemma waitForReceipt_found_witness :
  waitForReceipt Samples.slowRelay (fun _ => 5%N) (Bundler.JString "0xabc") 30000
  = (Normal {| txHash := "0x7777"; gasUsed := "unknown" |},
     repeat (GetUserOperationReceipt (Bundler.JString "0xabc")) 3).
Proof.
  refine (waitForReceipt_found Samples.slowRelay (fun _ => 5%N) (Bundler.JString "0xabc") 30000 2
            _ {| receipt_transactionHash := None;
                 transactionHash := Some "0x7777";
                 actualGasUsed := None |} _ _ eq_refl eq_refl).
  - intros j Hj. split; [unfold elapsedAt; lia |].
    exists {| receipt_result := None |}.
    destruct j as [|[|j]]; [split; reflexivity | split; reflexivity | lia].
  - unfold elapsedAt. lia.
Defined.

Lemma waitForReceipt_poll_failure_witness :
  waitForReceipt (fun _ _ => Throw (TypeError "Failed to fetch")) (fun _ => 0%N)
    (Bundler.JString "0xabc") 30000
  = (Throw (TypeError "Failed to fetch"), [GetUserOperationReceipt (Bundler.JString "0xabc")]).
Proof.
  refine (waitForReceipt_poll_failure _ (fun _ => 0%N) (Bundler.JString "0xabc") 30000 0
            (TypeError "Failed to fetch") _ _ eq_refl).
  - intros j Hj. lia.
  - unfold elapsedAt. lia.
Defined.


End ReceiptPolling.

(* ================================================================== *)
(** * OperationLifecycle: every way a run can go                       *)
(* ================================================================== *)

Module LifecycleRuns.

Import App Observations Lifecycle.

Lemma statusesOf_app a b :
  statusesOf (a ++ b)%list = (statusesOf a ++ statusesOf b)%list.
Proof.
  induction a as [|ev r IH]; [reflexivity |].
  destruct ev; cbn [app statusesOf]; now rewrite IH.
Qed.

Lemma responsesOf_app a b :
  responsesOf (a ++ b)%list = (responsesOf a ++ responsesOf b)%list.
Proof.
  induction a as [|ev r IH]; [reflexivity |].
  destruct ev; cbn [app responsesOf]; now rewrite IH.
Qed.

Lemma inBuild_quiet (calls : list UserOp.Call) :
  statusesOf (map InBuildUserOp calls) = []
  /\ responsesOf (map InBuildUserOp calls) = []
  /\ existsb isRelayCall (map InBuildUserOp calls) = false
  /\ forall e, errorAfter e (map InBuildUserOp calls) = e.
Proof.
  induction calls as [|c r (IH1 & IH2 & IH3 & IH4)]; [repeat split |].
  cbn [map statusesOf responsesOf existsb isRelayCall orb errorAfter]. auto.
Qed.

Lemma relay_quiet (fs : list Bundler.Fetch) :
  statusesOf (map Relay fs) = []
  /\ responsesOf (map Relay fs) = []
  /\ forall e, errorAfter e (map Relay fs) = e.
Proof.
  induction fs as [|c r (IH1 & IH2 & IH3)]; [repeat split |].
  cbn [map statusesOf responsesOf errorAfter]. auto.
Qed.

Lemma snapInfo_quiet signerMode getSnapInfo :
  statusesOf (snapInfoEvents signerMode getSnapInfo) = []
  /\ responsesOf (snapInfoEvents signerMode getSnapInfo) = []
  /\ existsb isRelayCall (snapInfoEvents signerMode getSnapInfo) = false
  /\ forall e, errorAfter e (snapInfoEvents signerMode getSnapInfo) = e.
Proof.
  destruct signerMode; [repeat split |].
  destruct getSnapInfo; repeat split.
Qed.

Section Runs.

Variable w : string -> Z -> SessionResponse -> Completion unit.
Variable tx : PendingTx.
Variable signerMode : SignerMode.
Variable signViaSnap signUserOpHash : list byte -> Completion (list byte).
Variable buildUserOp :
  UserOp.TxParams -> (list byte -> Completion (list byte))
  -> Run UserOp.Call UserOp.PackedUserOp.
Variable getSnapInfo : Completion unit.
Variable submitUserOp : UserOp.PackedUserOp -> Run Bundler.Fetch Bundler.JsVal.
Variable waitForReceipt : Bundler.JsVal -> Z -> Run Bundler.Fetch Bundler.Receipt.

Lemma snap_step :
  match signerMode with
  | snap =>
      emit CallGetSnapInfo ;;;
      match getSnapInfo with
      | Normal _ => emit SetSnapInfo
      | Throw _ => ret tt
      end
  | seed => ret tt
  end = (Normal tt, snapInfoEvents signerMode getSnapInfo).
Proof.
  destruct signerMode; [reflexivity |].
  destruct getSnapInfo as [[]|]; reflexivity.
Qed.

(** The [try] block, outcome by outcome. *)
Lemma pipeline_bad_value e :
  BigIntOfString tx.(App.value) = Throw e ->
  pipeline signerMode signViaSnap signUserOpHash buildUserOp getSnapInfo
    submitUserOp waitForReceipt w tx
  = (Throw e, [SetTxStatus building; AddLog info "Building UserOp..."]).
Proof.
  intros Hv. unfold pipeline, setTxStatus, addLog.
  do 2 apply bindR_emit. apply bindR_throw. unfold lift. now rewrite Hv.
Qed.

Lemma pipeline_build_fails value e calls :
  BigIntOfString tx.(App.value) = Normal value ->
  buildUserOp {| UserOp.to := tx.(to);
                 UserOp.value := value;
                 UserOp.data := Some (orElse tx.(data) "0x") |}
              (match signerMode with snap => signViaSnap | seed => signUserOpHash end)
  = (Throw e, calls) ->
  pipeline signerMode signViaSnap signUserOpHash buildUserOp getSnapInfo
    submitUserOp waitForReceipt w tx
  = (Throw e,
     ([ SetTxStatus building;
        AddLog info "Building UserOp...";
        CallBuildUserOp {| UserOp.to := tx.(to);
                           UserOp.value := value;
                           UserOp.data := Some (orElse tx.(data) "0x") |} ]
        ++ map InBuildUserOp calls)%list).
Proof.
  intros Hv Hb. unfold pipeline, setTxStatus, addLog.
  do 2 apply bindR_emit.
  eapply (bindR_normal _ _ _ []); [unfold lift; now rewrite Hv |].
  apply bindR_emit. apply bindR_throw. unfold mapEvents. now rewrite Hb.
Qed.

Lemma pipeline_built value userOp calls c t :
  BigIntOfString tx.(App.value) = Normal value ->
  buildUserOp {| UserOp.to := tx.(to);
                 UserOp.value := value;
                 UserOp.data := Some (orElse tx.(data) "0x") |}
              (match signerMode with snap => signViaSnap | seed => signUserOpHash end)
  = (Normal userOp, calls) ->
  (opHash <~ mapEvents Relay (submitUserOp userOp) ;;
   addLog success ("Bundler accepted: " ++ Bundler.render opHash) ;;;
   setTxStatus waiting ;;;
   addLog info "Waiting for on-chain confirmation..." ;;;
   emit (CallWaitForReceipt opHash) ;;;
   receipt <~ mapEvents Relay (waitForReceipt opHash 30000) ;;
   setTxStatus confirmed ;;;
   addLog success ("Confirmed! TX: " ++ receipt.(Bundler.txHash)
                     ++ " (gas: " ++ receipt.(Bundler.gasUsed) ++ ")") ;;;
   respond w tx (RespondResult receipt.(Bundler.txHash)) ;;;
   addLog success "TX hash sent back to dapp") = (c, t) ->
  pipeline signerMode signViaSnap signUserOpHash buildUserOp getSnapInfo
    submitUserOp waitForReceipt w tx
  = (c, (builtEvents signerMode getSnapInfo tx value calls userOp ++ t)%list).
Proof.
  intros Hv Hb Hrest. unfold pipeline, builtEvents, setTxStatus, addLog in *.
  cbn [app]. do 2 apply bindR_emit.
  eapply (bindR_normal _ _ _ []); [unfold lift; now rewrite Hv |].
  cbn [app]. apply bindR_emit.
  rewrite <- !app_assoc.
  eapply bindR_normal; [unfold mapEvents; rewrite Hb; reflexivity |].
  eapply bindR_normal; [apply snap_step |].
  cbn [app]. do 5 apply bindR_emit. exact Hrest.
Qed.

Lemma pipeline_submit_fails value userOp calls e fs :
  BigIntOfString tx.(App.value) = Normal value ->
  buildUserOp {| UserOp.to := tx.(to);
                 UserOp.value := value;
                 UserOp.data := Some (orElse tx.(data) "0x") |}
              (match signerMode with snap => signViaSnap | seed => signUserOpHash end)
  = (Normal userOp, calls) ->
  submitUserOp userOp = (Throw e, fs) ->
  pipeline signerMode signViaSnap signUserOpHash buildUserOp getSnapInfo
    submitUserOp waitForReceipt w tx
  = (Throw e,
     (builtEvents signerMode getSnapInfo tx value calls userOp ++ map Relay fs)%list).
Proof.
  intros Hv Hb Hs. eapply pipeline_built; [eassumption | eassumption |].
  apply bindR_throw. unfold mapEvents. now rewrite Hs.
Qed.

Lemma pipeline_wait_fails value userOp calls opHash fs e ps :
  BigIntOfString tx.(App.value) = Normal value ->
  buildUserOp {| UserOp.to := tx.(to);
                 UserOp.value := value;
                 UserOp.data := Some (orElse tx.(data) "0x") |}
              (match signerMode with snap => signViaSnap | seed => signUserOpHash end)
  = (Normal userOp, calls) ->
  submitUserOp userOp = (Normal opHash, fs) ->
  waitForReceipt opHash 30000 = (Throw e, ps) ->
  pipeline signerMode signViaSnap signUserOpHash buildUserOp getSnapInfo
    submitUserOp waitForReceipt w tx
  = (Throw e,
     (builtEvents signerMode getSnapInfo tx value calls userOp
        ++ map Relay fs ++ acceptedEvents opHash ++ map Relay ps)%list).
Proof.
  intros Hv Hb Hs Hw. eapply pipeline_built; [eassumption | eassumption |].
  eapply bindR_normal; [unfold mapEvents; rewrite Hs; reflexivity |].
  unfold acceptedEvents, setTxStatus, addLog. cbn [app].
  do 4 apply bindR_emit.
  apply bindR_throw. unfold mapEvents. now rewrite Hw.
Qed.

Lemma pipeline_receipt value userOp calls opHash fs receipt ps :
  BigIntOfString tx.(App.value) = Normal value ->
  buildUserOp {| UserOp.to := tx.(to);
                 UserOp.value := value;
                 UserOp.data := Some (orElse tx.(data) "0x") |}
              (match signerMode with snap => signViaSnap | seed => signUserOpHash end)
  = (Normal userOp, calls) ->
  submitUserOp userOp = (Normal opHash, fs) ->
  waitForReceipt opHash 30000 = (Normal receipt, ps) ->
  pipeline signerMode signViaSnap signUserOpHash buildUserOp getSnapInfo
    submitUserOp waitForReceipt w tx
  = (match w tx.(topic) tx.(id) (RespondResult receipt.(Bundler.txHash)) with
     | Normal _ => Normal tt
     | Throw e => Throw e
     end,
     (builtEvents signerMode getSnapInfo tx value calls userOp
        ++ map Relay fs ++ acceptedEvents opHash ++ map Relay ps
        ++ confirmedEvents tx receipt
        ++ match w tx.(topic) tx.(id) (RespondResult receipt.(Bundler.txHash)) with
           | Normal _ => [AddLog success "TX hash sent back to dapp"]
           | Throw _ => []
           end)%list).
Proof.
  intros Hv Hb Hs Hw. eapply pipeline_built; [eassumption | eassumption |].
  eapply bindR_normal; [unfold mapEvents; rewrite Hs; reflexivity |].
  unfold acceptedEvents, confirmedEvents, setTxStatus, addLog. cbn [app].
  do 4 apply bindR_emit.
  eapply bindR_normal; [unfold mapEvents; rewrite Hw; reflexivity |].
  cbn [app]. do 2 apply bindR_emit.
  unfold respond.
  destruct (w _ _ _) as [[]|e].
  - eapply (bindR_normal _ _ _ [_]); reflexivity.
  - apply bindR_throw. reflexivity.
Qed.

(** [handleApprove] around the [try] block. *)
Lemma handleApprove_caught e t :
  pipeline signerMode signViaSnap signUserOpHash buildUserOp getSnapInfo
    submitUserOp waitForReceipt w tx = (Throw e, t) ->
  handleApprove (Some w) (Some tx) true signerMode signViaSnap signUserOpHash
    buildUserOp getSnapInfo submitUserOp waitForReceipt
  = (Normal tt, (t ++ failureEvents tx e)%list).
Proof.
  intros H. unfold handleApprove. cbn [negb]. unfold tryCatch.
  rewrite H. cbn [fst snd]. now rewrite onFailure_trace.
Qed.

Lemma handleApprove_passed t :
  pipeline signerMode signViaSnap signUserOpHash buildUserOp getSnapInfo
    submitUserOp waitForReceipt w tx = (Normal tt, t) ->
  handleApprove (Some w) (Some tx) true signerMode signViaSnap signUserOpHash
    buildUserOp getSnapInfo submitUserOp waitForReceipt
  = (Normal tt, t).
Proof.
  intros H. unfold handleApprove. cbn [negb]. unfold tryCatch.
  now rewrite H.
Qed.

Lemma built_statuses value calls userOp :
  statusesOf (builtEvents signerMode getSnapInfo tx value calls userOp)
  = [building; signing; submitting].
Proof.
  unfold builtEvents. cbn [app statusesOf].
  rewrite !statusesOf_app.
  destruct (inBuild_quiet calls) as (-> & _).
  destruct (snapInfo_quiet signerMode getSnapInfo) as (-> & _).
  reflexivity.
Qed.

Lemma built_responses value calls userOp :
  responsesOf (builtEvents signerMode getSnapInfo tx value calls userOp) = [].
Proof.
  unfold builtEvents. cbn [app responsesOf].
  rewrite !responsesOf_app.
  destruct (inBuild_quiet calls) as (_ & -> & _).
  destruct (snapInfo_quiet signerMode getSnapInfo) as (_ & -> & _).
  reflexivity.
Qed.

Lemma built_no_error value calls userOp e0 :
  errorAfter e0 (builtEvents signerMode getSnapInfo tx value calls userOp) = e0.
Proof.
  unfold builtEvents. cbn [app errorAfter].
  rewrite !errorAfter_app.
  destruct (inBuild_quiet calls) as (_ & _ & _ & ->).
  destruct (snapInfo_quiet signerMode getSnapInfo) as (_ & _ & _ & ->).
  reflexivity.
Qed.

(** X8. Once a ready signer, a wallet kit and a pending request are in
    place, [handleApprove] never lets an exception escape; the statuses it
    sets are the stages in order (building, signing, submitting, waiting,
    confirmed), cut short by [error] at the stage that failed; and the
    session is answered every time, once, or twice when the answer with the
    transaction hash could not be delivered. *)
Theorem handleApprove_lifecycle :
  let run :=
    handleApprove (Some w) (Some tx) true signerMode signViaSnap signUserOpHash
      buildUserOp getSnapInfo submitUserOp waitForReceipt in
  fst run = Normal tt
  /\ In (statusesOf (snd run)) lifecycleSequences
  /\ 1 <= List.length (responsesOf (snd run)) <= 2.
Proof.
  cbv zeta. unfold lifecycleSequences.
  destruct (BigIntOfString tx.(App.value)) as [value|e] eqn:Hv.
  2:{ rewrite (handleApprove_caught _ _ (pipeline_bad_value e Hv)).
      cbn. split; [reflexivity | split; [auto | lia]]. }
  destruct (buildUserOp {| UserOp.to := tx.(to);
                           UserOp.value := value;
                           UserOp.data := Some (orElse tx.(data) "0x") |}
                        (match signerMode with snap => signViaSnap | seed => signUserOpHash end))
    as [[userOp|e] calls] eqn:Hb.
  2:{ rewrite (handleApprove_caught _ _ (pipeline_build_fails value e calls Hv Hb)).
      cbn [fst snd]. rewrite !statusesOf_app, !responsesOf_app. cbn [app statusesOf responsesOf].
      destruct (inBuild_quiet calls) as (-> & -> & _).
      cbn. split; [reflexivity | split; [auto | lia]]. }
  destruct (submitUserOp userOp) as [[opHash|e] fs] eqn:Hs.
  2:{ rewrite (handleApprove_caught _ _ (pipeline_submit_fails value userOp calls e fs Hv Hb Hs)).
      cbn [fst snd]. rewrite !statusesOf_app, !responsesOf_app, built_statuses, built_responses.
      destruct (relay_quiet fs) as (-> & -> & _).
      cbn. split; [reflexivity | split; [auto | lia]]. }
  destruct (waitForReceipt opHash 30000) as [[receipt|e] ps] eqn:Hw.
  2:{ rewrite (handleApprove_caught _ _
                 (pipeline_wait_fails value userOp calls opHash fs e ps Hv Hb Hs Hw)).
      cbn [fst snd]. rewrite !statusesOf_app, !responsesOf_app, built_statuses, built_responses.
      destruct (relay_quiet fs) as (-> & -> & _).
      destruct (relay_quiet ps) as (-> & -> & _).
      cbn. split; [reflexivity | split; [auto 6 | lia]]. }
  pose proof (pipeline_receipt value userOp calls opHash fs receipt ps Hv Hb Hs Hw) as Hp.
  destruct (w tx.(topic) tx.(id) (RespondResult receipt.(Bundler.txHash))) as [[]|e].
  - rewrite (handleApprove_passed _ Hp).
    cbn [fst snd]. rewrite !statusesOf_app, !responsesOf_app, built_statuses, built_responses.
    destruct (relay_quiet fs) as (-> & -> & _).
    destruct (relay_quiet ps) as (-> & -> & _).
    cbn. split; [reflexivity | split; [auto 6 | lia]].
  - rewrite (handleApprove_caught _ _ Hp).
    cbn [fst snd]. rewrite !statusesOf_app, !responsesOf_app, built_statuses, built_responses.
    destruct (relay_quiet fs) as (-> & -> & _).
    destruct (relay_quiet ps) as (-> & -> & _).
    cbn. split; [reflexivity | split; [auto 7 | lia]].
Qed.

(** X9. When the amount does not parse or [buildUserOp] throws (the nonce
    query failed, the signer refused), the run goes from [building]
    straight to [error]: the error's own text is recorded and sent to the
    session as the one answer, with code -32000, and the relay is never
    contacted. *)
Theorem failure_before_submission (e : JsError) :
  (BigIntOfString tx.(App.value) = Throw e
   \/ exists value calls,
        BigIntOfString tx.(App.value) = Normal value
        /\ buildUserOp {| UserOp.to := tx.(to);
                          UserOp.value := value;
                          UserOp.data := Some (orElse tx.(data) "0x") |}
                       (match signerMode with snap => signViaSnap | seed => signUserOpHash end)
           = (Throw e, calls)) ->
  let run :=
    handleApprove (Some w) (Some tx) true signerMode signViaSnap signUserOpHash
      buildUserOp getSnapInfo submitUserOp waitForReceipt in
  statusesOf (snd run) = [building; error]
  /\ errorAfter None (snd run) = Some (errorText e)
  /\ responsesOf (snd run) = [RespondError (-32000) (errorText e)]
  /\ existsb isRelayCall (snd run) = false.
Proof.
  intros [Hv | (value & calls & Hv & Hb)]; cbv zeta.
  - rewrite (handleApprove_caught _ _ (pipeline_bad_value e Hv)). repeat split.
  - rewrite (handleApprove_caught _ _ (pipeline_build_fails value e calls Hv Hb)).
    cbn [fst snd app].
    cbn [statusesOf responsesOf errorAfter existsb isRelayCall orb].
    rewrite statusesOf_app, responsesOf_app, errorAfter_app, existsb_app.
    destruct (inBuild_quiet calls) as (-> & -> & -> & ->).
    repeat split.
Qed.

(** X10. When every stage succeeds and the answer is delivered, the run
    passes through all five statuses and ends [confirmed]; no error is
    recorded and the session receives exactly one answer, the transaction
    hash of the receipt. *)
Theorem happy_path value userOp calls opHash fs receipt ps :
  BigIntOfString tx.(App.value) = Normal value ->
  buildUserOp {| UserOp.to := tx.(to);
                 UserOp.value := value;
                 UserOp.data := Some (orElse tx.(data) "0x") |}
              (match signerMode with snap => signViaSnap | seed => signUserOpHash end)
  = (Normal userOp, calls) ->
  submitUserOp userOp = (Normal opHash, fs) ->
  waitForReceipt opHash 30000 = (Normal receipt, ps) ->
  w tx.(topic) tx.(id) (RespondResult receipt.(Bundler.txHash)) = Normal tt ->
  let run :=
    handleApprove (Some w) (Some tx) true signerMode signViaSnap signUserOpHash
      buildUserOp getSnapInfo submitUserOp waitForReceipt in
  statusesOf (snd run) = [building; signing; submitting; waiting; confirmed]
  /\ errorAfter None (snd run) = None
  /\ responsesOf (snd run) = [RespondResult receipt.(Bundler.txHash)].
Proof.
  intros Hv Hb Hs Hw Hr. cbv zeta.
  pose proof (pipeline_receipt value userOp calls opHash fs receipt ps Hv Hb Hs Hw) as Hp.
  rewrite Hr in Hp. rewrite (handleApprove_passed _ Hp). cbn [fst snd].
  rewrite !statusesOf_app, !responsesOf_app, !errorAfter_app.
  rewrite built_statuses, built_responses, built_no_error.
  destruct (relay_quiet fs) as (-> & -> & ->).
  destruct (relay_quiet ps) as (-> & -> & ->).
  repeat split.
Qed.

(** X11. When the receipt has arrived but the answer with the transaction
    hash cannot be delivered to the session, the run that had reached
    [confirmed] ends in [error]: the delivery error is recorded and a
    second answer, a rejection with that error's text, is attempted. *)
Theorem undelivered_result_ends_in_error value userOp calls opHash fs receipt ps e :
  BigIntOfString tx.(App.value) = Normal value ->
  buildUserOp {| UserOp.to := tx.(to);
                 UserOp.value := value;
                 UserOp.data := Some (orElse tx.(data) "0x") |}
              (match signerMode with snap => signViaSnap | seed => signUserOpHash end)
  = (Normal userOp, calls) ->
  submitUserOp userOp = (Normal opHash, fs) ->
  waitForReceipt opHash 30000 = (Normal receipt, ps) ->
  w tx.(topic) tx.(id) (RespondResult receipt.(Bundler.txHash)) = Throw e ->
  let run :=
    handleApprove (Some w) (Some tx) true signerMode signViaSnap signUserOpHash
      buildUserOp getSnapInfo submitUserOp waitForReceipt in
  statusAfter idle (snd run) = error
  /\ statusesOf (snd run)
     = [building; signing; submitting; waiting; confirmed; error]
  /\ errorAfter None (snd run) = Some (errorText e)
  /\ responsesOf (snd run)
     = [ RespondResult receipt.(Bundler.txHash);
         RespondError (-32000) (errorText e) ].
Proof.
  intros Hv Hb Hs Hw Hr. cbv zeta.
  pose proof (pipeline_receipt value userOp calls opHash fs receipt ps Hv Hb Hs Hw) as Hp.
  rewrite Hr in Hp. rewrite (handleApprove_caught _ _ Hp). cbn [fst snd].
  rewrite !statusAfter_app, !statusesOf_app, !responsesOf_app, !errorAfter_app.
  rewrite built_statuses, built_responses, built_no_error.
  destruct (relay_quiet fs) as (-> & -> & ->).
  destruct (relay_quiet ps) as (-> & -> & ->).
  repeat split.
Qed.

End Runs.

Lemma timeout_text :
  errorText (RelayScenarios.timeoutError 30000)
  = "UserOp receipt not found after 30000ms".
Proof. vm_compute. reflexivity. Qed.

(** [submitUserOp] returns what the relay calls the result, after one
    request. *)
Lemma submitUserOp_accepted ENTRYPOINT relay_submit userOp u reply :
  Bundler.unpackUserOp userOp = Normal u ->
  relay_submit u ENTRYPOINT = Normal reply ->
  reply.(Bundler.submit_error) = None ->
  Bundler.submitUserOp ENTRYPOINT relay_submit userOp
  = (Normal reply.(Bundler.submit_result),
     [Bundler.SendUserOperation u ENTRYPOINT]).
Proof.
  intros Hu Hr He. unfold Bundler.submitUserOp.
  rewrite Hu. unfold bindR, lift. cbn [fst snd]. rewrite Hr. cbn [fst snd].
  rewrite He. reflexivity.
Qed.


(** ** Sample runs *)

Lemma failure_before_submission_witness :
  let run :=
    handleApprove (Some (fun _ _ _ => Normal tt)) (Some Samples.sampleTx) true seed
      (fun _ => Throw (Error "no snap"))
      (fun _ => Throw (Error "Signer not initialized. Load a 32-byte ML-DSA seed first."))
      Samples.sampleBuild (Normal tt)
      (Bundler.submitUserOp "0x0000000071727de22e5e9d8baf0edac6f37da032" Samples.acceptingRelay)
      (Bundler.waitForReceipt Samples.slowRelay (fun _ => 5%N)) in
  statusesOf (snd run) = [building; error]
  /\ responsesOf (snd run)
     = [RespondError (-32000) "Signer not initialized. Load a 32-byte ML-DSA seed first."]
  /\ existsb isRelayCall (snd run) = false.
Proof.
  destruct (failure_before_submission
              (fun _ _ _ => Normal tt) Samples.sampleTx seed
              (fun _ => Throw (Error "no snap"))
              (fun _ => Throw (Error "Signer not initialized. Load a 32-byte ML-DSA seed first."))
              Samples.sampleBuild (Normal tt)
              (Bundler.submitUserOp "0x0000000071727de22e5e9d8baf0edac6f37da032"
                 Samples.acceptingRelay)
              (Bundler.waitForReceipt Samples.slowRelay (fun _ => 5%N))
              (Error "Signer not initialized. Load a 32-byte ML-DSA seed first."))
    as (S & _ & R & C).
  - right. eexists _, _. split; vm_compute; reflexivity.
  - repeat split; assumption.
Defined.

Lemma happy_path_witness :
  let run :=
    handleApprove (Some (fun _ _ _ => Normal tt)) (Some Samples.sampleTx) true seed
      (fun _ => Throw (Error "no snap")) Samples.sampleSign
      Samples.sampleBuild (Normal tt)
      (Bundler.submitUserOp "0x0000000071727de22e5e9d8baf0edac6f37da032" Samples.acceptingRelay)
      (Bundler.waitForReceipt Samples.slowRelay (fun _ => 5%N)) in
  statusesOf (snd run) = [building; signing; submitting; waiting; confirmed]
  /\ errorAfter None (snd run) = None
  /\ responsesOf (snd run) = [RespondResult "0x7777"].
Proof.
  eapply (happy_path
            (fun _ _ _ => Normal tt) Samples.sampleTx seed
            (fun _ => Throw (Error "no snap")) Samples.sampleSign
            Samples.sampleBuild (Normal tt)
            (Bundler.submitUserOp "0x0000000071727de22e5e9d8baf0edac6f37da032"
               Samples.acceptingRelay)
            (Bundler.waitForReceipt Samples.slowRelay (fun _ => 5%N))
            1000000000000000 Samples.sampleBuilt Samples.sampleCalls (Bundler.JString "0xabc")
            Samples.sampleSubmitTrace
            {| Bundler.txHash := "0x7777"; Bundler.gasUsed := "unknown" |}
            Samples.sampleReceiptTrace);
    vm_compute; reflexivity.
Defined.

Lemma undelivered_result_ends_in_error_witness :
  let run :=
    handleApprove
      (Some (fun _ _ r => match r with
                          | RespondResult _ => Throw (Error "No matching key")
                          | RespondError _ _ => Normal tt
                          end))
      (Some Samples.sampleTx) true seed
      (fun _ => Throw (Error "no snap")) Samples.sampleSign
      Samples.sampleBuild (Normal tt)
      (Bundler.submitUserOp "0x0000000071727de22e5e9d8baf0edac6f37da032" Samples.acceptingRelay)
      (Bundler.waitForReceipt Samples.slowRelay (fun _ => 5%N)) in
  statusAfter idle (snd run) = error
  /\ responsesOf (snd run)
     = [RespondResult "0x7777"; RespondError (-32000) "No matching key"].
Proof.
  destruct (undelivered_result_ends_in_error
              (fun _ _ r => match r with
                            | RespondResult _ => Throw (Error "No matching key")
                            | RespondError _ _ => Normal tt
                            end)
              Samples.sampleTx seed
              (fun _ => Throw (Error "no snap")) Samples.sampleSign
              Samples.sampleBuild (Normal tt)
              (Bundler.submitUserOp "0x0000000071727de22e5e9d8baf0edac6f37da032"
                 Samples.acceptingRelay)
              (Bundler.waitForReceipt Samples.slowRelay (fun _ => 5%N))
              1000000000000000 Samples.sampleBuilt Samples.sampleCalls (Bundler.JString "0xabc")
              Samples.sampleSubmitTrace
              {| Bundler.txHash := "0x7777"; Bundler.gasUsed := "unknown" |}
              Samples.sampleReceiptTrace
              (Error "No matching key"))
    as (S & _ & _ & R); try (vm_compute; reflexivity).
  split; assumption.
Defined.


End LifecycleRuns.

(* ================================================================== *)
(** * HexCodec: every decoder against the encoder                      *)
(* ================================================================== *)

Module HexDecoders.

Import SnapCrypto JsFacts HexCodec.

Lemma hex_digits_joined (bs : list byte) :
  isHexDigits (joinStrings (map byteHex bs)) = true.
Proof.
  apply (allChars_impl isLowerHexDigit); [| apply lower_digits_joined].
  intros c H. unfold isHexDigit. unfold isLowerHexDigit in H.
  apply orb_true_iff in H. destruct H as [-> | ->]; [reflexivity |].
  now rewrite orb_true_r.
Qed.

Lemma digits_no_prefix (s : string) :
  isHexDigits s = true -> startsWith s "0x" = false.
Proof.
  destruct s as [|c1 [|c2 r]]; cbn [startsWith]; intros H.
  - reflexivity.
  - now rewrite andb_false_r.
  - unfold isHexDigits in H. cbn [allChars] in H.
    apply andb_true_iff in H. destruct H as [_ H].
    apply andb_true_iff in H. destruct H as [H _].
    destruct (Ascii.eqb_spec "x" c2) as [<-|_]; [discriminate H |].
    now rewrite andb_false_r.
Qed.

(** X13. Every decoder of the repository inverts the encoder: the wallet's
    two [hexToBytesStrict] and the unchecked [hexToBytes] of userop.ts
    return the bytes that [bytesToHex] encoded, and the strict decoders do
    so also when the ["0x"] prefix has been dropped. *)
Theorem decoders_invert_bytesToHex (b : list byte) :
  SnapSigner.hexToBytesStrict (SnapSigner.bytesToHex b) = Normal b
  /\ Signer.hexToBytesStrict (SnapSigner.bytesToHex b) = Normal b
  /\ UserOp.hexToBytes (UserOp.bytesToHex b) = Normal b
  /\ SnapSigner.hexToBytesStrict (sliceFrom 2 (SnapSigner.bytesToHex b)) = Normal b
  /\ Signer.hexToBytesStrict (sliceFrom 2 (SnapSigner.bytesToHex b)) = Normal b.
Proof.
  unfold SnapSigner.hexToBytesStrict, Signer.hexToBytesStrict, UserOp.hexToBytes,
    SnapSigner.bytesToHex, UserOp.bytesToHex.
  change (sliceFrom 2 ("0x" ++ joinStrings (map byteHex b)))
    with (joinStrings (map byteHex b)).
  change (startsWith ("0x" ++ joinStrings (map byteHex b)) "0x") with true.
  rewrite (digits_no_prefix _ (hex_digits_joined b)).
  cbv iota zeta.
  rewrite even_length_joined, half_length_joined, decode_joined, hex_digits_joined.
  repeat split.
Qed.

(** Two hexadecimal digits, of either case, read as sixteen times the
    first plus the second. *)
Lemma pair_value (c1 c2 : ascii) :
  isHexDigit c1 = true -> isHexDigit c2 = true ->
  exists d1 d2,
    hexDigitValue c1 = Some d1 /\ hexDigitValue c2 = Some d2
    /\ toUint8 (parseInt16 (String c1 (String c2 EmptyString)))
       = byteOfN (16 * d1 + d2).
Proof.
  destruct c1 as [[] [] [] [] [] [] [] []]; intros H1; try discriminate H1; clear H1;
    destruct c2 as [[] [] [] [] [] [] [] []]; intros H2; try discriminate H2; clear H2;
    eexists _, _; (split; [reflexivity | split; reflexivity]).
Qed.

Lemma chars_at (n : nat) :
  forall s, n + 2 <= String.length s ->
            exists c1 c2,
              takeChars 2 (sliceFrom n s) = String c1 (String c2 EmptyString)
              /\ String.get n s = Some c1 /\ String.get (S n) s = Some c2.
Proof.
  induction n as [|n IH]; intros s H.
  - destruct s as [|c1 [|c2 r]]; cbn [String.length] in H; try lia.
    exists c1, c2. repeat split.
  - destruct s as [|c r]; cbn [String.length] in H; [lia |].
    destruct (IH r ltac:(lia)) as (c1 & c2 & E & G1 & G2).
    exists c1, c2. repeat split; assumption.
Qed.

Lemma allChars_get f s :
  allChars f s = true -> forall n c, String.get n s = Some c -> f c = true.
Proof.
  induction s as [|x r IH]; intros H n c G; [destruct n; discriminate |].
  cbn [allChars] in H. apply andb_true_iff in H. destruct H as [Hx Hr].
  destruct n as [|n]; cbn in G.
  - now injection G as <-.
  - now apply (IH Hr n).
Qed.

(** X14. What [hexToBytesStrict] returns is positional base 16, in either
    case of the letters: byte [i] of the result is sixteen times the value
    of digit [2i] plus the value of digit [2i+1] of the digits behind the
    optional prefix. *)
Theorem hexToBytesStrict_positional (hex : string) (bs : list byte) :
  SnapSigner.hexToBytesStrict hex = Normal bs ->
  forall i, i < List.length bs ->
    exists c1 c2 d1 d2,
      String.get (i * 2) (stripPrefix hex) = Some c1
      /\ String.get (i * 2 + 1) (stripPrefix hex) = Some c2
      /\ hexDigitValue c1 = Some d1
      /\ hexDigitValue c2 = Some d2
      /\ nth i bs x00 = byteOfN (16 * d1 + d2).
Proof.
  unfold SnapSigner.hexToBytesStrict.
  change (if startsWith hex "0x" then sliceFrom 2 hex else hex) with (stripPrefix hex).
  cbv zeta.
  destruct (Nat.eqb_spec (String.length (stripPrefix hex) mod 2) 0) as [He|]; [| discriminate].
  destruct (isHexDigits (stripPrefix hex)) eqn:Hd; [| discriminate].
  cbn [negb]. intros [= <-] i Hi.
  rewrite length_map, length_seq in Hi.
  change (fst (Nat.divmod (String.length (stripPrefix hex)) 1 0 1))
    with (String.length (stripPrefix hex) / 2) in *.
  assert (Hlen : i * 2 + 2 <= String.length (stripPrefix hex)).
  { pose proof (Nat.div_mod_eq (String.length (stripPrefix hex)) 2). lia. }
  destruct (chars_at (i * 2) _ Hlen) as (c1 & c2 & E & G1 & G2).
  pose proof (allChars_get _ _ Hd _ _ G1) as H1.
  pose proof (allChars_get _ _ Hd _ _ G2) as H2.
  destruct (pair_value c1 c2 H1 H2) as (d1 & d2 & V1 & V2 & V).
  exists c1, c2, d1, d2.
  replace (i * 2 + 1) with (S (i * 2)) by lia.
  repeat split; try assumption.
  rewrite (nth_indep _ x00 (decodeAt (stripPrefix hex) 0))
    by (now rewrite length_map, length_seq).
  rewrite map_nth, seq_nth by assumption. cbn [Nat.add].
  unfold decodeAt, slice. replace (i * 2 + 2 - i * 2) with 2 by lia.
  now rewrite E.
Qed.

Lemma hexToBytesStrict_positional_witness :
  exists c1 c2 d1 d2,
    String.get 2 "AbF0" = Some c1
    /\ String.get 3 "AbF0" = Some c2
    /\ hexDigitValue c1 = Some d1
    /\ hexDigitValue c2 = Some d2
    /\ nth 1 [xab; xf0] x00 = byteOfN (16 * d1 + d2).
Proof.
  exact (hexToBytesStrict_positional "0xAbF0" [xab; xf0] eq_refl 1 ltac:(simpl; lia)).
Defined.

End HexDecoders.

(* ================================================================== *)
(** * OperationCodec: quantities in the relay's spelling               *)
(* ================================================================== *)

Module Quantities.

Import Bundler RelayScenarios JsFacts.

Lemma quantityOf_isQuantity half : isQuantity (quantityOf half) = true.
Proof.
  unfold isQuantity, quantityOf.
  change (startsWith ("0x" ++ ?b) "0x") with true.
  change (sliceFrom 2 ("0x" ++ ?b)) with b. cbn [andb].
  induction half as [|c r IH]; [reflexivity |].
  cbn [stripLeadingZeros].
  destruct (Ascii.eqb_spec c "0") as [->|Hc]; [exact IH |].
  cbn [orElse]. apply Ascii.eqb_neq in Hc. now rewrite Hc.
Qed.

(** X15. Whatever the packed fields hold, also text that is no hex at
    all, the four gas fields [unpackUserOp] writes are quantities in the
    relay's spelling: ["0x"], then at least one character, and no leading
    zero except for ["0x0"] itself. *)
Theorem unpackUserOp_writes_quantities (packed : UserOp.PackedUserOp) :
  exists u,
    unpackUserOp packed = Normal u
    /\ isQuantity u.(Unpacked.verificationGasLimit) = true
    /\ isQuantity u.(Unpacked.callGasLimit) = true
    /\ isQuantity u.(Unpacked.maxPriorityFeePerGas) = true
    /\ isQuantity u.(Unpacked.maxFeePerGas) = true.
Proof.
  eexists. split; [reflexivity |].
  cbn [Unpacked.verificationGasLimit Unpacked.callGasLimit
       Unpacked.maxPriorityFeePerGas Unpacked.maxFeePerGas].
  rewrite !RelayFormat.ensureHexPrefix_quantityOf.
  repeat split; apply quantityOf_isQuantity.
Qed.

Lemma startsWith_self_0x r : startsWith ("0x" ++ r) "0x" = true.
Proof. reflexivity. Qed.

(** X16. [ensureHexPrefix] is a normal form: for every string the result
    starts with ["0x"], has at least one character behind it (the empty
    string, ["0x"] and ["0x0"] all become ["0x0"]), and applying the
    function again changes nothing. *)
Theorem ensureHexPrefix_normal_form (val : string) :
  startsWith (ensureHexPrefix val) "0x" = true
  /\ 3 <= String.length (ensureHexPrefix val)
  /\ ensureHexPrefix (ensureHexPrefix val) = ensureHexPrefix val.
Proof.
  destruct (String.eqb_spec val "0x") as [->|N1]; [repeat split; cbn; lia |].
  destruct (String.eqb_spec val "0x0") as [->|N2]; [repeat split; cbn; lia |].
  destruct (String.eqb_spec val EmptyString) as [->|N3]; [repeat split; cbn; lia |].
  assert (V : ensureHexPrefix val = if startsWith val "0x" then val else "0x" ++ val).
  { unfold ensureHexPrefix.
    apply String.eqb_neq in N1, N2, N3. now rewrite N1, N2, N3. }
  destruct (startsWith val "0x") eqn:Hp.
  - rewrite !V. split; [exact Hp |]. split; [| reflexivity].
    pose proof (OperationHash.startsWith_0x val Hp) as E.
    rewrite E in N1 |- *. destruct (sliceFrom 2 val); [now elim N1 | cbn; lia].
  - rewrite V. split; [reflexivity |]. split.
    + destruct val; [now elim N3 | cbn; lia].
    + unfold ensureHexPrefix.
      destruct (String.eqb_spec ("0x" ++ val) "0x") as [E|_].
      { injection E as E. now elim N3. }
      destruct (String.eqb_spec ("0x" ++ val) "0x0") as [E|_]; [now rewrite E |].
      reflexivity.
Qed.

End Quantities.

(* ================================================================== *)
(** * SignerBackend: the in-memory-seed signer                         *)
(* ================================================================== *)

Module SeedSigner.

Import Signer JsFacts HexCodec HexDecoders.

Lemma strict_decodes_encoding (seed : list byte) :
  hexToBytesStrict (SnapSigner.bytesToHex seed) = Normal seed.
Proof.
  unfold hexToBytesStrict, SnapSigner.bytesToHex.
  change (sliceFrom 2 ("0x" ++ joinStrings (map SnapCrypto.byteHex seed)))
    with (joinStrings (map SnapCrypto.byteHex seed)).
  change (startsWith ("0x" ++ joinStrings (map SnapCrypto.byteHex seed)) "0x") with true.
  cbv iota zeta.
  now rewrite even_length_joined, half_length_joined, decode_joined, hex_digits_joined.
Qed.

(** X17. Given the hex encoding of a seed, [configureSignerFromSeed]
    hands exactly those bytes to [ml_dsa65.keygen] when there are 32 of
    them, and the key pair it returns becomes the signer's; a seed of any
    other length is refused with "Expected 32-byte seed, got <n>", without
    a call to [keygen] and with the previous key pair left in place, as it
    is when [keygen] itself throws. *)
Theorem configureSignerFromSeed_on_encoded_seed
  (keygen : list byte -> Completion MLDSAKeypair) (st : State) (seed : list byte) :
  configureSignerFromSeed keygen st (SnapSigner.bytesToHex seed)
  = if (List.length seed =? 32)%nat
    then match keygen seed with
         | Normal kp => (Normal tt, Some kp, [CallKeygen seed])
         | Throw e => (Throw e, st, [CallKeygen seed])
         end
    else (Throw (Error ("Expected 32-byte seed, got " ++ decimal (List.length seed))),
          st, []).
Proof.
  unfold configureSignerFromSeed. rewrite strict_decodes_encoding.
  destruct (List.length seed =? 32)%nat; reflexivity.
Qed.

(** X18. A seed text with an odd number of digits, or with a character
    that is no hexadecimal digit, makes [configureSignerFromSeed] throw
    before [keygen] is called and leaves the signer as it was; a signer
    that had no key pair then still refuses to sign, without calling the
    signing primitive. *)
Theorem configureSignerFromSeed_malformed
  (keygen : list byte -> Completion MLDSAKeypair)
  (mldsa_sign : list byte -> list byte -> Completion (list byte))
  (st : State) (seedHex : string) (hash : list byte) :
  (String.length (SnapCrypto.stripPrefix seedHex) mod 2 <> 0
   \/ isHexDigits (SnapCrypto.stripPrefix seedHex) = false) ->
  (exists e, configureSignerFromSeed keygen st seedHex = (Throw e, st, []))
  /\ (st = None ->
      signUserOpHash mldsa_sign
        (snd (fst (configureSignerFromSeed keygen st seedHex))) hash
      = (Throw (Error "Signer not initialized. Load a 32-byte ML-DSA seed first."), [])).
Proof.
  intros H.
  assert (E : exists e, hexToBytesStrict seedHex = Throw e).
  { unfold hexToBytesStrict.
    change (if startsWith seedHex "0x" then sliceFrom 2 seedHex else seedHex)
      with (SnapCrypto.stripPrefix seedHex). cbv zeta.
    destruct (Nat.eqb_spec (String.length (SnapCrypto.stripPrefix seedHex) mod 2) 0)
      as [Hev|Hodd]; cbn [negb].
    - destruct H as [H | H]; [contradiction |]. rewrite H. cbn [negb]. eauto.
    - eauto. }
  destruct E as (e & E).
  assert (C : configureSignerFromSeed keygen st seedHex = (Throw e, st, []))
    by (unfold configureSignerFromSeed; now rewrite E).
  split; [eauto |]. intros ->. rewrite C. reflexivity.
Qed.

Lemma configureSignerFromSeed_malformed_witness :
  exists e,
    configureSignerFromSeed (fun _ => Throw (Error "unreachable")) None "0x12zz"
    = (Throw e, None, []).
Proof.
  exact (proj1 (configureSignerFromSeed_malformed
                  (fun _ => Throw (Error "unreachable"))
                  (fun _ _ => Normal []) None "0x12zz" []
                  (or_intror eq_refl))).
Defined.

End SeedSigner.

(* ================================================================== *)
(** * OperationLifecycle: declining a request, loading a seed          *)
(* ================================================================== *)

Module SessionRuns.

Import App Session Observations.

(** X19. [handleReject] contacts nobody but the session: it sends one
    rejection with code 4001 and the text "User rejected". Only when that
    was delivered does it clear the pending request and set the status to
    [idle]; when delivery fails the exception escapes and the pending
    request stays. Without a wallet kit or a pending request it does
    nothing. *)
Theorem handleReject_runs
  (w : string -> Z -> SessionResponse -> Completion unit) (tx : PendingTx) :
  handleReject (Some w) (Some tx)
  = match w tx.(topic) tx.(id) (RespondError 4001 "User rejected") with
    | Normal _ =>
        (Normal tt,
         [ AppEvent (RespondSessionRequest tx.(topic) tx.(id)
                       (RespondError 4001 "User rejected"));
           SetPendingTx None;
           AppEvent (SetTxStatus idle);
           AppEvent (AddLog info "Transaction rejected by user") ])
    | Throw e =>
        (Throw e,
         [ AppEvent (RespondSessionRequest tx.(topic) tx.(id)
                       (RespondError 4001 "User rejected")) ])
    end
  /\ handleReject None (Some tx) = (Normal tt, [])
  /\ handleReject (Some w) None = (Normal tt, []).
Proof.
  split; [| split; reflexivity].
  unfold handleReject, respond, mapEvents, bindR. cbn [fst snd map].
  destruct (w _ _ _) as [[]|e]; reflexivity.
Qed.

Section LoadSeed.

Variable keygen : list byte -> Completion Signer.MLDSAKeypair.
Variable mldsa_sign : list byte -> list byte -> Completion (list byte).

(** X20. Loading a seed: when the text of the input field, white space
    around it set aside, is the hex encoding of 32 bytes, [handleLoadSeed]
    derives the key pair from exactly those bytes, marks the seed signer
    ready and empties the field; from then on [signUserOpHash] signs with
    the secret key of that pair. *)
Theorem handleLoadSeed_loads (st : Signer.State) (seedInput : string)
  (seed : list byte) (kp : Signer.MLDSAKeypair) (hash : list byte) :
  trim seedInput = SnapSigner.bytesToHex seed ->
  List.length seed = 32 ->
  keygen seed = Normal kp ->
  let '(run, st') :=
    handleLoadSeed (Signer.configureSignerFromSeed keygen) st seedInput in
  run = (Normal tt,
         [ InSigner (Signer.CallKeygen seed);
           SetSeedSignerReady true;
           SetSeedInput EmptyString;
           AppEvent (AddLog success "ML-DSA seed loaded (in-memory only)") ])
  /\ st' = Some kp
  /\ Signer.signUserOpHash mldsa_sign st' hash
     = (mldsa_sign hash kp.(Signer.secretKey),
        [Signer.CallSign hash kp.(Signer.secretKey)]).
Proof.
  intros Ht Hl Hk. unfold handleLoadSeed. rewrite Ht.
  change (SnapSigner.bytesToHex seed)
    with (String "0" (String "x" (joinStrings (map SnapCrypto.byteHex seed)))) at 1.
  cbv iota.
  unfold Signer.configureSignerFromSeed.
  rewrite SeedSigner.strict_decodes_encoding, Hl, Hk. cbn. repeat split.
Qed.

(** X21. Loading a seed that is well-formed hex of the wrong length
    does not throw: [handleLoadSeed] writes one log line, "Invalid ML-DSA
    seed: Error: Expected 32-byte seed, got <n>", calls no key generation
    and leaves signer and input field as they were; an input of white
    space only does nothing at all. *)
Theorem handleLoadSeed_refuses (st : Signer.State) (seedInput : string)
  (seed : list byte) :
  trim seedInput = SnapSigner.bytesToHex seed ->
  List.length seed <> 32 ->
  handleLoadSeed (Signer.configureSignerFromSeed keygen) st seedInput
  = ((Normal tt,
      [ AppEvent (AddLog log_error
                    ("Invalid ML-DSA seed: Error: Expected 32-byte seed, got "
                       ++ decimal (List.length seed))) ]),
     st)
  /\ (forall blank : string,
        trim blank = EmptyString ->
        handleLoadSeed (Signer.configureSignerFromSeed keygen) st blank
        = ((Normal tt, []), st)).
Proof.
  intros Ht Hl. split.
  - unfold handleLoadSeed. rewrite Ht.
    change (SnapSigner.bytesToHex seed)
      with (String "0" (String "x" (joinStrings (map SnapCrypto.byteHex seed)))) at 1.
    cbv iota.
    unfold Signer.configureSignerFromSeed.
    rewrite SeedSigner.strict_decodes_encoding.
    apply Nat.eqb_neq in Hl. rewrite Hl. reflexivity.
  - intros blank Hb. unfold handleLoadSeed. now rewrite Hb.
Qed.

End LoadSeed.

Lemma handleLoadSeed_loads_witness :
  snd (handleLoadSeed
         (Signer.configureSignerFromSeed
            (fun seed => Normal {| Signer.publicKey := seed; Signer.secretKey := [x01] |}))
         None
         ("  0x" ++ repeatChar "a" 64 ++ " "))
  = Some {| Signer.publicKey := repeat xaa 32; Signer.secretKey := [x01] |}.
Proof.
  pose proof (handleLoadSeed_loads
                (fun seed => Normal {| Signer.publicKey := seed; Signer.secretKey := [x01] |})
                (fun _ _ => Normal [])
                None ("  0x" ++ repeatChar "a" 64 ++ " ") (repeat xaa 32)
                {| Signer.publicKey := repeat xaa 32; Signer.secretKey := [x01] |} []
                ltac:(vm_compute; reflexivity) eq_refl eq_refl) as H.
  destruct (handleLoadSeed _ None _) as [run st'].
  exact (proj1 (proj2 H)).
Defined.

Lemma handleLoadSeed_refuses_witness :
  handleLoadSeed
    (Signer.configureSignerFromSeed (fun _ => Throw (Error "unreachable")))
    None " 0xaaaa "
  = ((Normal tt,
      [ AppEvent (AddLog log_error
                    "Invalid ML-DSA seed: Error: Expected 32-byte seed, got 2") ]),
     None).
Proof.
  exact (proj1 (handleLoadSeed_refuses (fun _ => Throw (Error "unreachable"))
                  None " 0xaaaa " [xaa; xaa] eq_refl ltac:(simpl; lia))).
Defined.

End SessionRuns.

(* ================================================================== *)
(** * OperationBuild: what [buildUserOp] asks of the outside           *)
(* ================================================================== *)

Module OperationBuild.

Import Viem UserOp JsFacts.

Lemma limits_packed :
  packPair 2000000 100000
  = Normal "0x000000000000000000000000001e8480000000000000000000000000000186a0".
Proof. vm_compute. reflexivity. Qed.

Lemma fees_packed :
  packPair 1000000000 10000000000
  = Normal "0x0000000000000000000000003b9aca00000000000000000000000002540be400".
Proof. vm_compute. reflexivity. Qed.

Lemma execMode_padded :
  pad "0x00" 32 = Normal ("0x" ++ repeatChar "0" 64).
Proof. vm_compute. reflexivity. Qed.

Lemma toHex_policy : toHex 100000 = Normal "0x186a0".
Proof. vm_compute. reflexivity. Qed.

Lemma Normal_inj {A} (a b : A) : Normal a = Normal b -> a = b.
Proof. now intros [= ->]. Qed.

Lemma lift_normal {E A B} (c : Completion A) (k : A -> Run E B) a :
  c = Normal a -> bindR (lift c) k = k a.
Proof. intros ->. unfold bindR, lift. cbn [fst snd]. now destruct (k a). Qed.

Lemma lift_throw {E A B} (c : Completion A) (k : A -> Run E B) e :
  c = Throw e -> bindR (lift c) k = (Throw e, []).
Proof. now intros ->. Qed.

Lemma call_normal {E A B} (c : Completion A) (ev : E) (k : A -> Run E B) a :
  c = Normal a -> bindR (c, [ev]) k = (fst (k a), ev :: snd (k a)).
Proof. now intros ->. Qed.

Lemma call_throw {E A B} (c : Completion A) (ev : E) (k : A -> Run E B) e :
  c = Throw e -> bindR (c, [ev]) k = (Throw e, [ev]).
Proof. now intros ->. Qed.

Lemma digitValue_lowerChar (c : ascii) :
  digitValue 16 (lowerChar c) = digitValue 16 c.
Proof.
  destruct c as [[] [] [] [] [] [] [] []]; vm_compute; reflexivity.
Qed.

Lemma digitsValue_toLowerCase (s : string) :
  forall acc, digitsValue 16 (toLowerCase s) acc = digitsValue 16 s acc.
Proof.
  induction s as [|c r IH]; intros acc; [reflexivity |].
  cbn [toLowerCase digitsValue]. rewrite digitValue_lowerChar.
  destruct (digitValue 16 c); [apply IH | reflexivity].
Qed.

Lemma digitsValue_shift (s : string) :
  isHexDigits s = true ->
  forall acc,
    digitsValue 16 s acc
    = Some (acc * 16 ^ N.of_nat (String.length s) + hexValue s)%N.
Proof.
  unfold hexValue.
  induction s as [|c r IH]; intros H acc.
  - cbn. f_equal. lia.
  - cbn [isHexDigits allChars] in H. apply andb_true_iff in H. destruct H as [Hc Hr].
    destruct (isHexDigit_value c Hc) as (d & Hd).
    cbn [digitsValue String.length]. rewrite Hd.
    rewrite (IH Hr (16 * acc + d)%N), (IH Hr (16 * 0 + d)%N).
    f_equal. rewrite pow16_succ. lia.
Qed.

Lemma digitValue_lt (radix : N) (c : ascii) (d : N) :
  digitValue radix c = Some d -> (d < radix)%N.
Proof.
  unfold digitValue. destruct (hexDigitValue c) as [x|]; [| discriminate].
  destruct (x <? radix)%N eqn:H; [| discriminate].
  intros [= <-]. now apply N.ltb_lt.
Qed.

Lemma hexValue_bound (s : string) :
  isHexDigits s = true -> (hexValue s < 16 ^ N.of_nat (String.length s))%N.
Proof.
  induction s as [|c r IH]; intros H; [reflexivity |].
  cbn [isHexDigits allChars] in H. apply andb_true_iff in H. destruct H as [Hc Hr].
  destruct (isHexDigit_value c Hc) as (d & Hd).
  pose proof (digitValue_lt _ _ _ Hd) as Hlt.
  unfold hexValue. cbn [digitsValue String.length]. rewrite Hd.
  rewrite (digitsValue_shift r Hr). specialize (IH Hr).
  rewrite pow16_succ. revert IH.
  generalize (hexValue r) (16 ^ N.of_nat (String.length r))%N. intros hv P IH.
  assert (M : (d * P <= 15 * P)%N) by (apply N.mul_le_mono_r; lia).
  lia.
Qed.

Section Build.

Variable ENTRYPOINT : string.
Variable KERNEL_ACCOUNT : string.
Variable PQ_VALIDATOR : string.
Variable CHAIN_ID : option Z.
Variable keccak256 : Hex -> Completion Hex.
Variable checksumAddress : string -> string.
Variable encodePacked_address_uint256_bytes : string -> Z -> Hex -> Completion Hex.
Variable encodeFunctionData_execute : Hex -> Hex -> Completion Hex.
Variable readContract_getNonce : string -> string -> Z -> Completion Z.

Let build :=
  buildUserOp ENTRYPOINT KERNEL_ACCOUNT PQ_VALIDATOR CHAIN_ID keccak256
    checksumAddress encodePacked_address_uint256_bytes
    encodeFunctionData_execute readContract_getNonce.

Let getNonce := readContract_getNonce ENTRYPOINT KERNEL_ACCOUNT.
Let NonceQuery := CallGetNonce ENTRYPOINT KERNEL_ACCOUNT.

(** The key of the nonce query, as [buildUserOp] computes it. *)
Let nonceKeyOf : Completion Z :=
  BigIntOfString ("0x0001" ++ toLowerCase (sliceFrom 2 PQ_VALIDATOR) ++ "0000").

(** The four ways a run of [buildUserOp] can go. *)
Lemma buildUserOp_cases (txParams : TxParams)
  (signFn : list byte -> Completion (list byte)) :
  (exists e, build txParams signFn = (Throw e, []))
  \/ (exists k e,
        nonceKeyOf = Normal k
        /\ (getNonce k = Throw e \/ exists n, getNonce k = Normal n)
        /\ build txParams signFn = (Throw e, [NonceQuery k]))
  \/ (exists k n h e,
        nonceKeyOf = Normal k /\ getNonce k = Normal n /\ signFn h = Throw e
        /\ build txParams signFn = (Throw e, [NonceQuery k; CallSignFn h]))
  \/ (exists k n nonceHex callData h sig,
        nonceKeyOf = Normal k /\ getNonce k = Normal n
        /\ toHex n = Normal nonceHex /\ signFn h = Normal sig
        /\ build txParams signFn
           = (Normal {| sender := KERNEL_ACCOUNT;
                        nonce := nonceHex;
                        initCode := "0x";
                        callData := callData;
                        accountGasLimits :=
                          "0x000000000000000000000000001e8480000000000000000000000000000186a0";
                        preVerificationGas := "0x186a0";
                        gasFees :=
                          "0x0000000000000000000000003b9aca00000000000000000000000002540be400";
                        paymasterAndData := "0x";
                        signature := bytesToHex sig |},
              [NonceQuery k; CallSignFn h])).
Proof.
  unfold build, buildUserOp.
  destruct (encodePacked_address_uint256_bytes _ _ _) as [ec|e] eqn:E1;
    [rewrite (lift_normal _ _ _ eq_refl) | rewrite (lift_throw _ _ _ eq_refl); eauto].
  rewrite (lift_normal _ _ _ execMode_padded).
  destruct (encodeFunctionData_execute _ ec) as [cd|e] eqn:E2;
    [rewrite (lift_normal _ _ _ eq_refl) | rewrite (lift_throw _ _ _ eq_refl); eauto].
  fold nonceKeyOf.
  destruct nonceKeyOf as [k|e] eqn:E3;
    [rewrite (lift_normal _ _ _ eq_refl) | rewrite (lift_throw _ _ _ eq_refl); eauto].
  right.
  fold (getNonce k) (NonceQuery k).
  destruct (getNonce k) as [n|e] eqn:E4;
    [rewrite (call_normal _ _ _ _ eq_refl)
    | rewrite (call_throw _ _ _ _ eq_refl); left; exists k, e; eauto].
  rewrite (lift_normal _ _ _ limits_packed), (lift_normal _ _ _ fees_packed).
  destruct (toHex n) as [nh|e] eqn:E5;
    [rewrite (lift_normal _ _ _ eq_refl)
    | rewrite (lift_throw _ _ _ eq_refl); left; exists k, e; eauto 6].
  rewrite (lift_normal _ _ _ toHex_policy).
  destruct (computeUserOpHash _ _ _ _ _) as [uh|e] eqn:E6;
    [rewrite (lift_normal _ _ _ eq_refl)
    | rewrite (lift_throw _ _ _ eq_refl); left; exists k, e; eauto 6].
  destruct (hexToBytes uh) as [hb|e] eqn:E7;
    [rewrite (lift_normal _ _ _ eq_refl)
    | rewrite (lift_throw _ _ _ eq_refl); left; exists k, e; eauto 6].
  right.
  destruct (signFn hb) as [sig|e] eqn:E8.
  - rewrite (call_normal _ _ _ _ eq_refl). right.
    exists k, n, nh, cd, hb, sig. cbn [fst snd ret app]. auto 6.
  - rewrite (call_throw _ _ _ _ eq_refl). left.
    exists k, n, hb, e. cbn [fst snd app]. auto.
Qed.

(** X22. Whatever the transaction and the signer, [buildUserOp] asks the
    outside for at most two things, in this order: the account's nonce at
    the EntryPoint, then one signature. When the nonce query throws, the
    same exception leaves [buildUserOp] and the signer is never asked;
    when the signer throws, its exception leaves [buildUserOp]; an
    operation is returned only after both calls, and its [signature] is
    the hex encoding of exactly the bytes the signer returned. *)
Theorem buildUserOp_outside_calls (txParams : TxParams)
  (signFn : list byte -> Completion (list byte)) :
  let r := build txParams signFn in
  (snd r = []
   \/ (exists k, snd r = [NonceQuery k])
   \/ (exists k h, snd r = [NonceQuery k; CallSignFn h]))
  /\ (forall k e, In (NonceQuery k) (snd r) -> getNonce k = Throw e ->
      r = (Throw e, [NonceQuery k]))
  /\ (forall h e, In (CallSignFn h) (snd r) -> signFn h = Throw e ->
      fst r = Throw e)
  /\ (forall op, fst r = Normal op ->
      exists k h sig,
        snd r = [NonceQuery k; CallSignFn h]
        /\ signFn h = Normal sig
        /\ op.(signature) = bytesToHex sig).
Proof.
  cbv zeta.
  destruct (buildUserOp_cases txParams signFn)
    as [(e & ->)
       | [(k & e & _ & Hn & ->)
         | [(k & n & h & e & _ & Hn & Hs & ->)
           | (k & n & nh & cd & h & sig & _ & Hn & _ & Hs & ->)]]];
    cbn [fst snd].
  - split; [auto |]. split; [intros ? ? [] |]. split; [intros ? ? [] |].
    discriminate.
  - split; [eauto |]. split; [| split; [| discriminate]].
    + intros k' e' [H|[]] H'. injection H as <-.
      destruct Hn as [Hn | (n & Hn)]; congruence.
    + intros h e' [H|[]]. discriminate.
  - split; [eauto 6 |]. split; [| split; [| discriminate]].
    + intros k' e' [H|[H|[]]] H'; [| discriminate]. injection H as <-. congruence.
    + intros h' e' [H|[H|[]]] H'; [discriminate |]. injection H as <-. congruence.
  - split; [eauto 6 |]. split; [| split].
    + intros k' e' [H|[H|[]]] H'; [| discriminate]. injection H as <-. congruence.
    + intros h' e' [H|[H|[]]] H'; [discriminate |]. injection H as <-. congruence.
    + intros op [= <-]. exists k, h, sig. auto.
Qed.

(** X23. Every operation [buildUserOp] returns is sent by the account
    [KERNEL_ACCOUNT], deploys nothing, names no paymaster, and carries the
    fixed gas policy: unpacked for the relay it reads verification gas
    2,000,000 (0x1e8480), call gas and pre-verification gas 100,000
    (0x186a0), priority fee 1 gwei (0x3b9aca00) and maximum fee 10 gwei
    (0x2540be400), nonce, call data and signature going through
    unchanged. *)
Theorem buildUserOp_gas_policy (txParams : TxParams)
  (signFn : list byte -> Completion (list byte)) (op : PackedUserOp) :
  fst (build txParams signFn) = Normal op ->
  op.(sender) = KERNEL_ACCOUNT
  /\ op.(initCode) = "0x"
  /\ op.(paymasterAndData) = "0x"
  /\ Bundler.unpackUserOp op
     = Normal {| Bundler.Unpacked.sender := KERNEL_ACCOUNT;
                 Bundler.Unpacked.nonce := op.(nonce);
                 Bundler.Unpacked.factory := None;
                 Bundler.Unpacked.factoryData := None;
                 Bundler.Unpacked.callData := op.(callData);
                 Bundler.Unpacked.callGasLimit := "0x186a0";
                 Bundler.Unpacked.verificationGasLimit := "0x1e8480";
                 Bundler.Unpacked.preVerificationGas := "0x186a0";
                 Bundler.Unpacked.maxFeePerGas := "0x2540be400";
                 Bundler.Unpacked.maxPriorityFeePerGas := "0x3b9aca00";
                 Bundler.Unpacked.paymaster := None;
                 Bundler.Unpacked.paymasterVerificationGasLimit := None;
                 Bundler.Unpacked.paymasterPostOpGasLimit := None;
                 Bundler.Unpacked.paymasterData := None;
                 Bundler.Unpacked.signature := op.(signature) |}.
Proof.
  destruct (buildUserOp_cases txParams signFn)
    as [(e & ->)
       | [(k & e & _ & Hn & ->)
         | [(k & n & h & e & _ & Hn & Hs & ->)
           | (k & n & nh & cd & h & sig & _ & Hn & _ & Hs & ->)]]];
    cbn [fst]; try discriminate.
  intros [= <-]. repeat split.
Qed.

(** X24. With [PQ_VALIDATOR] a prefixed 20-byte address, the nonce that
    [buildUserOp] asks for is the account's nonce at the 192-bit key
    0x0001 | validator address | 0x0000: the number
    2^176 + address * 2^16, whatever the case of the address's digits. *)
Theorem buildUserOp_nonce_key (txParams : TxParams)
  (signFn : list byte -> Completion (list byte))
  (body : string) (entryPoint account : string) (key : Z) :
  PQ_VALIDATOR = "0x" ++ body ->
  String.length body = 40 ->
  isHexDigits body = true ->
  In (CallGetNonce entryPoint account key) (snd (build txParams signFn)) ->
  entryPoint = ENTRYPOINT
  /\ account = KERNEL_ACCOUNT
  /\ key = (2 ^ 176 + Z.of_N (hexValue body) * 2 ^ 16)%Z
  /\ (key < 2 ^ 177)%Z.
Proof.
  intros Hv Hl Hh Hin.
  assert (K : nonceKeyOf = Normal (2 ^ 176 + Z.of_N (hexValue body) * 2 ^ 16)%Z).
  { unfold nonceKeyOf. rewrite Hv.
    change (sliceFrom 2 ("0x" ++ body)) with body.
    change ("0x0001" ++ toLowerCase body ++ "0000")
      with ("0x" ++ ("0001" ++ toLowerCase body ++ "0000")).
    assert (Hd : isHexDigits ("0001" ++ toLowerCase body ++ "0000") = true).
    { unfold isHexDigits. rewrite !allChars_append.
      fold (isHexDigits (toLowerCase body)).
      now rewrite OperationHash.isHexDigits_toLowerCase. }
    rewrite BigIntOfString_hex by (exact Hd || discriminate).
    f_equal. unfold hexValue at 1.
    rewrite (digitsValue_append 16 "0001").
    change (digitsValue 16 "0001" 0) with (Some 1%N). cbv iota.
    rewrite digitsValue_append, digitsValue_toLowerCase, (digitsValue_shift body Hh).
    rewrite Hl.
    change (digitsValue 16 "0000" ?a) with (Some (16 * (16 * (16 * (16 * a + 0) + 0) + 0) + 0)%N).
    cbv iota. generalize (hexValue body). intros v.
    change (16 ^ N.of_nat 40)%N with 1461501637330902918203684832716283019655932542976%N.
    change (2 ^ 176)%Z with 95780971304118053647396689196894323976171195136475136%Z.
    change (2 ^ 16)%Z with 65536%Z. lia. }
  assert (B : (Z.of_N (hexValue body) < 2 ^ 160)%Z).
  { pose proof (hexValue_bound body Hh) as B. rewrite Hl in B.
    change (16 ^ N.of_nat 40)%N with 1461501637330902918203684832716283019655932542976%N in B.
    change (2 ^ 160)%Z with 1461501637330902918203684832716283019655932542976%Z. lia. }
  assert (P176 : (2 ^ 176 = 95780971304118053647396689196894323976171195136475136)%Z)
    by reflexivity.
  assert (P177 : (2 ^ 177 = 191561942608236107294793378393788647952342390272950272)%Z)
    by reflexivity.
  assert (P160 : (2 ^ 160 = 1461501637330902918203684832716283019655932542976)%Z)
    by reflexivity.
  assert (P16 : (2 ^ 16 = 65536)%Z) by reflexivity.
  destruct (buildUserOp_cases txParams signFn)
    as [(e & E)
       | [(k & e & Hk & _ & E)
         | [(k & n & h & e & Hk & _ & _ & E)
           | (k & n & nh & cd & h & sig & Hk & _ & _ & _ & E)]]];
    rewrite E in Hin; cbn [snd] in Hin.
  - destruct Hin.
  - destruct Hin as [H|[]]. injection H as <- <- <-.
    pose proof (Normal_inj _ _ (eq_trans (eq_sym Hk) K)) as Q.
    split; [reflexivity |]. split; [reflexivity |]. split; [exact Q |].
    rewrite Q, P176, P177, P16. rewrite P160 in B. lia.
  - destruct Hin as [H|[H|[]]]; [| discriminate]. injection H as <- <- <-.
    pose proof (Normal_inj _ _ (eq_trans (eq_sym Hk) K)) as Q.
    split; [reflexivity |]. split; [reflexivity |]. split; [exact Q |].
    rewrite Q, P176, P177, P16. rewrite P160 in B. lia.
  - destruct Hin as [H|[H|[]]]; [| discriminate]. injection H as <- <- <-.
    pose proof (Normal_inj _ _ (eq_trans (eq_sym Hk) K)) as Q.
    split; [reflexivity |]. split; [reflexivity |]. split; [exact Q |].
    rewrite Q, P176, P177, P16. rewrite P160 in B. lia.
Qed.

End Build.

Lemma buildUserOp_gas_policy_witness :
  Samples.sampleBuilt.(sender) = "0x2222222222222222222222222222222222222222"
  /\ Bundler.unpackUserOp Samples.sampleBuilt
     = Normal {| Bundler.Unpacked.sender := "0x2222222222222222222222222222222222222222";
                 Bundler.Unpacked.nonce := Samples.sampleBuilt.(nonce);
                 Bundler.Unpacked.factory := None;
                 Bundler.Unpacked.factoryData := None;
                 Bundler.Unpacked.callData := Samples.sampleBuilt.(callData);
                 Bundler.Unpacked.callGasLimit := "0x186a0";
                 Bundler.Unpacked.verificationGasLimit := "0x1e8480";
                 Bundler.Unpacked.preVerificationGas := "0x186a0";
                 Bundler.Unpacked.maxFeePerGas := "0x2540be400";
                 Bundler.Unpacked.maxPriorityFeePerGas := "0x3b9aca00";
                 Bundler.Unpacked.paymaster := None;
                 Bundler.Unpacked.paymasterVerificationGasLimit := None;
                 Bundler.Unpacked.paymasterPostOpGasLimit := None;
                 Bundler.Unpacked.paymasterData := None;
                 Bundler.Unpacked.signature := Samples.sampleBuilt.(signature) |}.
Proof.
  pose proof (buildUserOp_gas_policy
                "0x0000000071727de22e5e9d8baf0edac6f37da032"
                "0x2222222222222222222222222222222222222222"
                "0x3333333333333333333333333333333333333333"
                (Some 412346%Z)
                Samples.stub_keccak256
                (fun a => a)
                (fun to value data =>
                   Normal (to ++ padStart 64 "0" (toString16 (Z.to_N value))
                              ++ sliceFrom 2 data))
                (fun _ calldata => Normal ("0xe9ae5c53" ++ sliceFrom 2 calldata))
                (fun _ _ _ => Normal 0%Z)
                {| UserOp.to := Samples.sampleTx.(App.to);
                   UserOp.value := 1000000000000000;
                   UserOp.data := Some "0x" |}
                Samples.sampleSign Samples.sampleBuilt
                ltac:(vm_compute; reflexivity)) as (H1 & _ & _ & H4).
  split; [exact H1 | exact H4].
Defined.

Lemma buildUserOp_nonce_key_witness :
  exists key,
    In (CallGetNonce "0x0000000071727de22e5e9d8baf0edac6f37da032"
          "0x2222222222222222222222222222222222222222" key)
       Samples.sampleCalls
    /\ key = (2 ^ 176 + Z.of_N (hexValue (repeatChar "3" 40)) * 2 ^ 16)%Z.
Proof.
  exists 114937165564941664376876027036273188771405434163757056%Z.
  assert (Hin : In (CallGetNonce "0x0000000071727de22e5e9d8baf0edac6f37da032"
                      "0x2222222222222222222222222222222222222222"
                      114937165564941664376876027036273188771405434163757056%Z)
                   Samples.sampleCalls)
    by (left; reflexivity).
  split; [exact Hin |].
  exact (proj1 (proj2 (proj2
    (buildUserOp_nonce_key
       "0x0000000071727de22e5e9d8baf0edac6f37da032"
       "0x2222222222222222222222222222222222222222"
       "0x3333333333333333333333333333333333333333"
       (Some 412346%Z)
       Samples.stub_keccak256
       (fun a => a)
       (fun to value data =>
          Normal (to ++ padStart 64 "0" (toString16 (Z.to_N value))
                     ++ sliceFrom 2 data))
       (fun _ calldata => Normal ("0xe9ae5c53" ++ sliceFrom 2 calldata))
       (fun _ _ _ => Normal 0%Z)
       {| UserOp.to := Samples.sampleTx.(App.to);
          UserOp.value := 1000000000000000;
          UserOp.data := Some "0x" |}
       Samples.sampleSign (repeatChar "3" 40) _ _ _
       eq_refl eq_refl eq_refl Hin)))).
Defined.

End OperationBuild.

(* ================================================================== *)
(** * SnapSigning: no signature without confirmation                   *)
(* ================================================================== *)

Module SnapSigning.

Import SnapState SnapSign SnapObservations.

Lemma bindS_normal {A B} (m : Snap A) (k : A -> Snap B) w a w1 t1 c w2 t2 :
  m w = (Normal a, w1, t1) -> k a w1 = (c, w2, t2) ->
  bindS m k w = (c, w2, (t1 ++ t2)%list).
Proof. intros Hm Hk. unfold bindS. now rewrite Hm, Hk. Qed.

Lemma bindS_throw {A B} (m : Snap A) (k : A -> Snap B) w e w1 t1 :
  m w = (Throw e, w1, t1) -> bindS m k w = (Throw e, w1, t1).
Proof. intros Hm. unfold bindS. now rewrite Hm. Qed.

Lemma getKeypair_run w : getKeypair w = (Normal (currentKeypair w), w, []).
Proof.
  destruct w as [[s|] d]; unfold getKeypair, currentKeypair, bindS, getState, deref, retS;
    cbn; [| reflexivity].
  now destruct (version s <? STATE_VERSION)%Z.
Qed.

(** Counting a signature stores the state with the counter raised by
    one and returns the counter as it was. *)
Lemma incrementNonce_run w kp :
  currentKeypair w = Some kp ->
  exists w',
    incrementNonce w = (Normal kp.(SnapState.nonce), w', [])
    /\ currentKeypair w' = Some (counted kp)
    /\ w'.(stored) <> None.
Proof.
  destruct w as [[s|] d]; unfold currentKeypair; cbn [stored DEFAULT_STATE]; intros H.
  - unfold incrementNonce, bindS, getState, deref, mutate, setState, retS.
    cbn [stored DEFAULT_STATE].
    destruct (version s <? STATE_VERSION)%Z; cbn; rewrite H; cbn;
      (eexists; split; [reflexivity |]; cbn; rewrite H;
       split; [reflexivity | discriminate]).
  - unfold incrementNonce, bindS, getState, deref, mutate, setState, retS.
    cbn. rewrite H. cbn.
    eexists. split; [reflexivity |]. cbn. rewrite H. split; [reflexivity | discriminate].
Qed.

Lemma incrementNonce_none w :
  currentKeypair w = None ->
  incrementNonce w = (Throw (Error "No keypair stored"), w, []).
Proof.
  destruct w as [[s|] d]; unfold currentKeypair; cbn [stored DEFAULT_STATE]; intros H;
    unfold incrementNonce, bindS, getState, deref, failS; cbn [stored DEFAULT_STATE].
  - destruct (version s <? STATE_VERSION)%Z; cbn; now rewrite H.
  - now rewrite H.
Qed.

Lemma snap_decodes_encoding (bs : list byte) :
  SnapCrypto.hexToBytes (SnapCrypto.bytesToHex bs) = Normal bs.
Proof.
  unfold SnapCrypto.hexToBytes, SnapCrypto.bytesToHex.
  change (sliceFrom 2 ("0x" ++ joinStrings (map SnapCrypto.byteHex bs)))
    with (joinStrings (map SnapCrypto.byteHex bs)).
  change (startsWith ("0x" ++ joinStrings (map SnapCrypto.byteHex bs)) "0x") with true.
  cbv iota zeta.
  now rewrite HexCodec.even_length_joined, HexCodec.half_length_joined,
    HexCodec.decode_joined.
Qed.

Section Handlers.

Variable algo_sign :
  SnapCrypto.SecurityLevel -> list byte -> list byte -> Completion (list byte).
Variable snap_dialog : Dialog -> bool.

(** The ways a run of [handleSignUserOp] can go. *)
Lemma handleSignUserOp_cases (params : SignUserOpParams) (w : World) :
  (exists e,
      handleSignUserOp algo_sign snap_dialog params w = (Throw e, w, [])
      /\ ~ (exists h hash kp,
              params.(userOpHash) = Some h
              /\ SnapCrypto.hexToBytes h = Normal hash
              /\ List.length hash = 32
              /\ currentKeypair w = Some kp))
  \/ (exists h hash kp,
        params.(userOpHash) = Some h
        /\ SnapCrypto.hexToBytes h = Normal hash
        /\ List.length hash = 32
        /\ currentKeypair w = Some kp
        /\ ((snap_dialog (signUserOpDialog h params.(chainId)) = false
             /\ handleSignUserOp algo_sign snap_dialog params w
                = (Throw (Error "User rejected transaction signing"), w,
                   [ShowDialog (signUserOpDialog h params.(chainId))]))
            \/ (snap_dialog (signUserOpDialog h params.(chainId)) = true
                /\ exists w',
                     currentKeypair w' = Some (counted kp)
                     /\ w'.(stored) <> None
                     /\ ((exists e,
                            SnapCrypto.hexToBytes kp.(secretKey) = Throw e
                            /\ handleSignUserOp algo_sign snap_dialog params w
                               = (Throw e, w',
                                  [ShowDialog (signUserOpDialog h params.(chainId))]))
                         \/ (exists sk,
                               SnapCrypto.hexToBytes kp.(secretKey) = Normal sk
                               /\ handleSignUserOp algo_sign snap_dialog params w
                                  = (match SnapCrypto.signUserOp algo_sign sk hash
                                             kp.(level) with
                                     | Normal sig =>
                                         Normal {| signature := SnapCrypto.bytesToHex sig;
                                                   nonce := kp.(SnapState.nonce) |}
                                     | Throw e => Throw e
                                     end,
                                     w',
                                     [ShowDialog (signUserOpDialog h params.(chainId));
                                      CallSignUserOp sk hash kp.(level)])))))).
Proof.
  unfold handleSignUserOp.
  destruct params.(userOpHash) as [[|c0 h0]|] eqn:Hh.
  { left. eexists. split; [reflexivity |].
    intros (h & hash & kp & [= <-] & [= <-] & Hl & _). discriminate. }
  2:{ left. eexists. split; [reflexivity |].
      intros (h & hash & kp & Hn & _). discriminate. }
  set (h := String c0 h0) in *.
  destruct (currentKeypair w) as [kp|] eqn:Hk.
  2:{ left. eexists. split.
      - eapply (bindS_normal _ _ _ _ _ []); [apply getKeypair_run |].
        rewrite Hk. reflexivity.
      - intros (h' & hash & kp & _ & _ & _ & Hn). discriminate. }
  destruct (SnapCrypto.hexToBytes h) as [hash|e] eqn:Hb.
  2:{ left. eexists. split.
      - eapply (bindS_normal _ _ _ _ _ []); [apply getKeypair_run |].
        rewrite Hk. apply bindS_throw. reflexivity.
      - intros (h' & hash & kp' & [= <-] & Hn & _). fold h in Hn. congruence. }
  destruct (Nat.eqb_spec (List.length hash) 32) as [Hl|Hl].
  2:{ left. eexists. split.
      - eapply (bindS_normal _ _ _ _ _ []); [apply getKeypair_run |].
        rewrite Hk. eapply (bindS_normal _ _ _ _ _ []); [reflexivity |].
        apply Nat.eqb_neq in Hl. rewrite Hl. reflexivity.
      - intros (h' & hash' & kp' & [= <-] & Hn & Hl' & _). fold h in Hn. congruence. }
  right. exists h, hash, kp. repeat (split; [reflexivity || assumption |]).
  destruct (snap_dialog (signUserOpDialog h params.(chainId))) eqn:Hc; [right | left];
    (split; [reflexivity |]).
  - destruct (incrementNonce_run w kp Hk) as (w' & Hi & Hk' & Hs').
    exists w'. split; [exact Hk' |]. split; [exact Hs' |].
    destruct (SnapCrypto.hexToBytes kp.(secretKey)) as [sk|e] eqn:Hsk; [right | left].
    + exists sk. split; [reflexivity |].
      eapply (bindS_normal _ _ _ _ _ []); [apply getKeypair_run |].
      rewrite Hk. eapply (bindS_normal _ _ _ _ _ []); [first [reflexivity | unfold liftS; now rewrite Hb] |].
      rewrite Hl. cbn [Nat.eqb negb].
      eapply (bindS_normal _ _ _ _ _ [_]); [unfold confirm; now rewrite Hc |].
      cbn [negb].
      eapply (bindS_normal _ _ _ _ _ []); [exact Hi |].
      eapply (bindS_normal _ _ _ _ _ []); [first [reflexivity | unfold liftS; now rewrite Hsk] |].
      eapply (bindS_normal _ _ _ _ _ [_]); [reflexivity |].
      unfold bindS, liftS, retS.
      now destruct (SnapCrypto.signUserOp algo_sign sk hash kp.(level)).
    + exists e. split; [reflexivity |].
      eapply (bindS_normal _ _ _ _ _ []); [apply getKeypair_run |].
      rewrite Hk. eapply (bindS_normal _ _ _ _ _ []); [first [reflexivity | unfold liftS; now rewrite Hb] |].
      rewrite Hl. cbn [Nat.eqb negb].
      eapply (bindS_normal _ _ _ _ _ [_]); [unfold confirm; now rewrite Hc |].
      cbn [negb].
      eapply (bindS_normal _ _ _ _ _ []); [exact Hi |].
      apply bindS_throw. first [reflexivity | unfold liftS; now rewrite Hsk].
  - eapply (bindS_normal _ _ _ _ _ []); [apply getKeypair_run |].
    rewrite Hk. eapply (bindS_normal _ _ _ _ _ []); [first [reflexivity | unfold liftS; now rewrite Hb] |].
    rewrite Hl. cbn [Nat.eqb negb].
    eapply (bindS_normal _ _ _ _ _ [_]); [unfold confirm; now rewrite Hc |].
    reflexivity.
Qed.

(** X25. [handleSignUserOp] asks first. Whatever the request and the
    stored state: the signing function is called only after the user has
    confirmed a dialog that shows the very hash of the request, and then
    on the 32 bytes that hash decodes to; a signature is returned only
    after that call; and when the user declines, or the request fails a
    check before the dialog, the stored state is left as it was. *)
Theorem handleSignUserOp_asks_first (params : SignUserOpParams) (w : World) :
  let '(c, w', tr) := handleSignUserOp algo_sign snap_dialog params w in
  (forall sk m l,
      In (CallSignUserOp sk m l) tr ->
      exists h,
        params.(userOpHash) = Some h
        /\ tr = [ShowDialog (signUserOpDialog h params.(chainId));
                 CallSignUserOp sk m l]
        /\ snap_dialog (signUserOpDialog h params.(chainId)) = true
        /\ In (copyable h) (signUserOpDialog h params.(chainId)).(content)
        /\ SnapCrypto.hexToBytes h = Normal m
        /\ List.length m = 32)
  /\ (forall response, c = Normal response ->
                       exists sk m l, In (CallSignUserOp sk m l) tr)
  /\ (w' <> w -> exists d, In (ShowDialog d) tr /\ snap_dialog d = true)
  /\ List.length (filter isSigningCall tr) <= 1.
Proof.
  destruct (handleSignUserOp_cases params w)
    as [(e & -> & _)
       | (h & hash & kp & Hh & Hb & Hl & Hk
          & [(Hc & ->)
            | (Hc & w' & Hk' & Hs' & [(e & Hsk & ->) | (sk & Hsk & ->)])])].
  - split; [intros ? ? ? [] |]. split; [discriminate |].
    split; [intros H; now elim H | cbn; lia].
  - split; [intros ? ? ? [H|[]]; discriminate |]. split; [discriminate |].
    split; [intros H; now elim H | cbn; lia].
  - split; [intros ? ? ? [H|[]]; discriminate |]. split; [discriminate |].
    split; [| cbn; lia]. intros _. eexists. split; [left; reflexivity | exact Hc].
  - split; [| split; [| split; [| cbn; lia]]].
    + intros sk' m l [H|[H|[]]]; [discriminate |]. injection H as <- <- <-.
      exists h. repeat (split; [reflexivity || assumption |]).
      split; [| split; assumption].
      unfold signUserOpDialog. cbn [content]. apply in_or_app. left.
      cbn [In]. auto 6.
    + intros _ _. exists sk, hash, kp.(level). right. left. reflexivity.
    + intros _. eexists. split; [left; reflexivity | exact Hc].
Qed.

Lemma signUserOp_run (params : SignUserOpParams) (w : World)
  (h : string) (hash sk sig : list byte) (kp : KeypairState) :
  params.(userOpHash) = Some h ->
  SnapCrypto.hexToBytes h = Normal hash ->
  List.length hash = 32 ->
  currentKeypair w = Some kp ->
  SnapCrypto.hexToBytes kp.(secretKey) = Normal sk ->
  List.length sk = (SnapCrypto.KEY_SIZES kp.(level)).(SnapCrypto.secretKey) ->
  snap_dialog (signUserOpDialog h params.(chainId)) = true ->
  algo_sign kp.(level) hash sk = Normal sig ->
  exists w',
    handleSignUserOp algo_sign snap_dialog params w
    = (Normal {| signature := SnapCrypto.bytesToHex sig;
                 nonce := kp.(SnapState.nonce) |},
       w',
       [ShowDialog (signUserOpDialog h params.(chainId));
        CallSignUserOp sk hash kp.(level)])
    /\ currentKeypair w' = Some (counted kp)
    /\ w'.(stored) <> None.
Proof.
  intros Hh Hb Hl Hk Hsk Hskl Hc Hsig.
  assert (S : SnapCrypto.signUserOp algo_sign sk hash kp.(level) = Normal sig).
  { unfold SnapCrypto.signUserOp, SnapCrypto.sign.
    rewrite Hl, Hskl, !Nat.eqb_refl. exact Hsig. }
  destruct (handleSignUserOp_cases params w)
    as [(e0 & E & N)
       | (h' & hash' & kp' & Hh' & Hb' & Hl' & Hk'
          & [(Hc' & E)
            | (Hc' & w' & Hkw & Hs' & [(e & Hsk' & E) | (sk' & Hsk' & E)])])].
  - elim N. eauto 8.
  - rewrite Hh in Hh'. injection Hh' as <-. congruence.
  - rewrite Hh in Hh'. injection Hh' as <-.
    rewrite Hk in Hk'. injection Hk' as <-. congruence.
  - rewrite Hh in Hh'. injection Hh' as <-.
    rewrite Hk in Hk'. injection Hk' as <-.
    rewrite Hb in Hb'. injection Hb' as <-.
    rewrite Hsk in Hsk'. injection Hsk' as <-.
    exists w'. rewrite E, S. auto.
Qed.

(** X26. With a key pair stored whose secret key has the size of its
    level, a request with a 32-byte hash that the user confirms is
    answered with the hex encoding of what the ML-DSA primitive returned
    for exactly those 32 bytes under the stored secret key, together with
    the signature counter as it stood; afterwards the stored counter is one
    higher and nothing else of the key pair has changed. One dialog was
    shown and the signing function called once. *)
Theorem handleSignUserOp_signs (params : SignUserOpParams) (w : World)
  (h : string) (hash sk sig : list byte) (kp : KeypairState) :
  params.(userOpHash) = Some h ->
  SnapCrypto.hexToBytes h = Normal hash ->
  List.length hash = 32 ->
  currentKeypair w = Some kp ->
  SnapCrypto.hexToBytes kp.(secretKey) = Normal sk ->
  List.length sk = (SnapCrypto.KEY_SIZES kp.(level)).(SnapCrypto.secretKey) ->
  snap_dialog (signUserOpDialog h params.(chainId)) = true ->
  algo_sign kp.(level) hash sk = Normal sig ->
  exists w',
    handleSignUserOp algo_sign snap_dialog params w
    = (Normal {| signature := SnapCrypto.bytesToHex sig;
                 nonce := kp.(SnapState.nonce) |},
       w',
       [ShowDialog (signUserOpDialog h params.(chainId));
        CallSignUserOp sk hash kp.(level)])
    /\ currentKeypair w' = Some (counted kp)
    /\ w'.(stored) <> None.
Proof. exact (signUserOp_run params w h hash sk sig kp). Qed.

(** X27. The counter is raised before the signature is made: when the
    user has confirmed but the signature cannot be made (the stored secret
    key has the wrong size, or the primitive throws), [handleSignUserOp]
    throws that error and the stored counter is one higher all the same. *)
Theorem handleSignUserOp_counts_before_signing (params : SignUserOpParams)
  (w : World) (h : string) (hash sk : list byte) (kp : KeypairState) (e : JsError) :
  params.(userOpHash) = Some h ->
  SnapCrypto.hexToBytes h = Normal hash ->
  List.length hash = 32 ->
  currentKeypair w = Some kp ->
  SnapCrypto.hexToBytes kp.(secretKey) = Normal sk ->
  snap_dialog (signUserOpDialog h params.(chainId)) = true ->
  SnapCrypto.signUserOp algo_sign sk hash kp.(level) = Throw e ->
  exists w',
    handleSignUserOp algo_sign snap_dialog params w
    = (Throw e, w',
       [ShowDialog (signUserOpDialog h params.(chainId));
        CallSignUserOp sk hash kp.(level)])
    /\ currentKeypair w' = Some (counted kp).
Proof.
  intros Hh Hb Hl Hk Hsk Hc Hsig.
  destruct (handleSignUserOp_cases params w)
    as [(e0 & E & N)
       | (h' & hash' & kp' & Hh' & Hb' & Hl' & Hk'
          & [(Hc' & E)
            | (Hc' & w' & Hkw & Hs' & [(e' & Hsk' & E) | (sk' & Hsk' & E)])])].
  - elim N. eauto 8.
  - rewrite Hh in Hh'. injection Hh' as <-. congruence.
  - rewrite Hh in Hh'. injection Hh' as <-.
    rewrite Hk in Hk'. injection Hk' as <-. congruence.
  - rewrite Hh in Hh'. injection Hh' as <-.
    rewrite Hk in Hk'. injection Hk' as <-.
    rewrite Hb in Hb'. injection Hb' as <-.
    rewrite Hsk in Hsk'. injection Hsk' as <-.
    exists w'. rewrite E, Hsig. auto.
Qed.

(** X28. [handleSignMessage], for a request with a message and a stored
    key pair: the message is decoded, one dialog shows its first 66
    characters and its size, and on a refusal nothing is signed and the
    state is untouched. On confirmation the message bytes are signed with
    the stored secret key; the counter is raised only after the signature
    was made, so a failure to sign leaves the stored state as it was. *)
Theorem handleSignMessage_runs (params : SignMessageParams) (w : World)
  (m : string) (mb sk : list byte) (kp : KeypairState) :
  params.(message) = Some m ->
  m <> EmptyString ->
  SnapCrypto.hexToBytes m = Normal mb ->
  currentKeypair w = Some kp ->
  SnapCrypto.hexToBytes kp.(secretKey) = Normal sk ->
  let d := signMessageDialog m mb in
  In (copyable (slice 0 66 m ++ (if (66 <? String.length m)%nat then "..." else EmptyString)))
     d.(content)
  /\ if snap_dialog d then
       match SnapCrypto.sign algo_sign sk mb kp.(level) with
       | Normal sig =>
           exists w',
             handleSignMessage algo_sign snap_dialog params w
             = (Normal {| signature := SnapCrypto.bytesToHex sig;
                          nonce := kp.(SnapState.nonce) |},
                w', [ShowDialog d; CallSign sk mb kp.(level)])
             /\ currentKeypair w' = Some (counted kp)
       | Throw e =>
           handleSignMessage algo_sign snap_dialog params w
           = (Throw e, w, [ShowDialog d; CallSign sk mb kp.(level)])
       end
     else
       handleSignMessage algo_sign snap_dialog params w
       = (Throw (Error "User rejected signing request"), w, [ShowDialog d]).
Proof.
  intros Hm Hne Hb Hk Hsk d.
  split; [unfold d, signMessageDialog; cbn [content In]; auto 6 |].
  unfold handleSignMessage. rewrite Hm.
  destruct m as [|c0 m0]; [now elim Hne |].
  set (m := String c0 m0) in *.
  destruct (snap_dialog d) eqn:Hc.
  - destruct (SnapCrypto.sign algo_sign sk mb kp.(level)) as [sig|e] eqn:Hs.
    + destruct (incrementNonce_run w kp Hk) as (w' & Hi & Hk' & _).
      exists w'. split; [| exact Hk'].
      eapply (bindS_normal _ _ _ _ _ []); [apply getKeypair_run |].
      rewrite Hk. eapply (bindS_normal _ _ _ _ _ []); [unfold liftS; now rewrite Hb |].
      eapply (bindS_normal _ _ _ _ _ [_]); [unfold confirm; fold d; now rewrite Hc |].
      cbn [negb].
      eapply (bindS_normal _ _ _ _ _ []); [unfold liftS; now rewrite Hsk |].
      eapply (bindS_normal _ _ _ _ _ [_]); [reflexivity |].
      eapply (bindS_normal _ _ _ _ _ []); [unfold liftS; now rewrite Hs |].
      eapply (bindS_normal _ _ _ _ _ []); [exact Hi |]. reflexivity.
    + eapply (bindS_normal _ _ _ _ _ []); [apply getKeypair_run |].
      rewrite Hk. eapply (bindS_normal _ _ _ _ _ []); [unfold liftS; now rewrite Hb |].
      eapply (bindS_normal _ _ _ _ _ [_]); [unfold confirm; fold d; now rewrite Hc |].
      cbn [negb].
      eapply (bindS_normal _ _ _ _ _ []); [unfold liftS; now rewrite Hsk |].
      eapply (bindS_normal _ _ _ _ _ [_]); [reflexivity |].
      apply bindS_throw. unfold liftS. now rewrite Hs.
  - eapply (bindS_normal _ _ _ _ _ []); [apply getKeypair_run |].
    rewrite Hk. eapply (bindS_normal _ _ _ _ _ []); [unfold liftS; now rewrite Hb |].
    eapply (bindS_normal _ _ _ _ _ [_]); [unfold confirm; fold d; now rewrite Hc |].
    reflexivity.
Qed.

Lemma strict_decodes_snap_encoding (bs : list byte) :
  SnapSigner.hexToBytesStrict (SnapCrypto.bytesToHex bs) = Normal bs.
Proof.
  unfold SnapSigner.hexToBytesStrict, SnapCrypto.bytesToHex.
  change (sliceFrom 2 ("0x" ++ joinStrings (map SnapCrypto.byteHex bs)))
    with (joinStrings (map SnapCrypto.byteHex bs)).
  change (startsWith ("0x" ++ joinStrings (map SnapCrypto.byteHex bs)) "0x") with true.
  cbv iota zeta.
  now rewrite HexCodec.even_length_joined, HexCodec.half_length_joined,
    HexCodec.decode_joined, HexDecoders.hex_digits_joined.
Qed.

(** X29. Wallet and snap, end to end. When MetaMask forwards the wallet's
    request to the snap, a key pair of the right size is stored and the
    user confirms, [signViaSnap] returns exactly the bytes the ML-DSA
    primitive produced inside the snap for the wallet's 32-byte hash: the
    two hex encodings on the way, of the hash and of the signature, cancel
    out. When the user declines, [signViaSnap] throws the snap's "User
    rejected transaction signing". *)
Theorem signViaSnap_through_snap (provider : SnapSigner.EthereumProvider)
  (SNAP_ID : string) (CHAIN_ID : option Z) (w : World)
  (hash sk : list byte) (kp : KeypairState) :
  forwardsToSnap provider (handleSignUserOp algo_sign snap_dialog) w ->
  List.length hash = 32 ->
  currentKeypair w = Some kp ->
  SnapCrypto.hexToBytes kp.(secretKey) = Normal sk ->
  List.length sk = (SnapCrypto.KEY_SIZES kp.(level)).(SnapCrypto.secretKey) ->
  exists request,
    snd (SnapSigner.signViaSnap (Some provider) SNAP_ID CHAIN_ID hash) = [request]
    /\ request.(SnapSigner.userOpHash) = SnapSigner.bytesToHex hash
    /\ fst (SnapSigner.signViaSnap (Some provider) SNAP_ID CHAIN_ID hash)
       = if snap_dialog (signUserOpDialog request.(SnapSigner.userOpHash)
                           request.(SnapSigner.chainId))
         then algo_sign kp.(level) hash sk
         else Throw (Error "User rejected transaction signing").
Proof.
  intros Hf Hl Hk Hsk Hskl.
  unfold SnapSigner.signViaSnap. rewrite Hl. cbn [Nat.eqb negb].
  cbn [SnapSigner.getEthereumProvider].
  set (cid := match CHAIN_ID with
              | Some c => if (0 <? c)%Z then Some c else None
              | None => None
              end).
  exists {| SnapSigner.snapId := SNAP_ID;
            SnapSigner.userOpHash := SnapSigner.bytesToHex hash;
            SnapSigner.chainId := cid |}.
  split; [| split; [reflexivity |]].
  all: cbn [SnapSigner.userOpHash SnapSigner.chainId].
  all: assert (P : provider {| SnapSigner.snapId := SNAP_ID;
                               SnapSigner.userOpHash := SnapSigner.bytesToHex hash;
                               SnapSigner.chainId := cid |}
                   = if snap_dialog (signUserOpDialog (SnapSigner.bytesToHex hash) cid)
                     then match algo_sign kp.(level) hash sk with
                          | Normal sig =>
                              Normal (SnapSigner.RespValue
                                        (SnapSigner.FString (SnapCrypto.bytesToHex sig)))
                          | Throw e => Throw e
                          end
                     else Throw (Error "User rejected transaction signing")).
  1,3: rewrite Hf; cbn [SnapSigner.userOpHash SnapSigner.chainId];
    assert (S : SnapCrypto.signUserOp algo_sign sk hash kp.(level)
                = algo_sign kp.(level) hash sk)
      by (unfold SnapCrypto.signUserOp, SnapCrypto.sign;
          now rewrite Hl, Hskl, !Nat.eqb_refl);
    destruct (handleSignUserOp_cases
                {| userOpHash := Some (SnapSigner.bytesToHex hash); chainId := cid |} w)
      as [(e0 & E & N)
         | (h' & hash' & kp' & Hh' & Hb' & Hl' & Hk'
            & [(Hc' & E)
              | (Hc' & w' & Hkw & Hs' & [(e' & Hsk' & E) | (sk' & Hsk' & E)])])];
    cbn [userOpHash chainId] in *;
    [ elim N; exists (SnapSigner.bytesToHex hash), hash, kp;
      split; [reflexivity |]; split; [apply snap_decodes_encoding | auto]
    | injection Hh' as <-; rewrite E; cbn [fst]; now rewrite Hc'
    | rewrite Hk in Hk'; injection Hk' as <-; congruence
    | injection Hh' as <-; rewrite Hk in Hk'; injection Hk' as <-;
      rewrite Hsk in Hsk'; injection Hsk' as <-;
      assert (hash' = hash) as ->
        by (pose proof (snap_decodes_encoding hash) as D;
            change (SnapCrypto.bytesToHex hash) with (SnapSigner.bytesToHex hash) in D;
            congruence);
      rewrite E; cbn [fst]; rewrite Hc', S;
      now destruct (algo_sign kp.(level) hash sk) ].
  - rewrite P. destruct (snap_dialog _); [| reflexivity].
    destruct (algo_sign kp.(level) hash sk) as [sig|]; [| reflexivity].
    cbn. now destruct (joinStrings _).
  - rewrite P. destruct (snap_dialog _); [| reflexivity].
    destruct (algo_sign kp.(level) hash sk) as [sig|]; [| reflexivity].
    cbn [fst]. change (SnapCrypto.bytesToHex sig)
      with (String "0" (String "x" (joinStrings (map SnapCrypto.byteHex sig)))) at 1.
    cbv iota. apply strict_decodes_snap_encoding.
Qed.

End Handlers.

(** X30. [getState] hands out the module's [DEFAULT_STATE] object itself
    while nothing is stored, so the first [saveKeypair] writes the key
    pair into that object as well as into the stored state. After
    [saveKeypair] and then [clearState], nothing is stored, yet
    [getKeypair] still returns the saved key pair for as long as the snap
    keeps running; had a state been stored before, [getKeypair] would
    return what [DEFAULT_STATE] held, and for a freshly started snap that
    is no key pair. *)
Theorem clearState_keeps_default (now : Z) (publicKey secretKey : string)
  (level : SnapCrypto.SecurityLevel) (w : World) :
  let saved := {| SnapState.publicKey := publicKey;
                  SnapState.secretKey := secretKey;
                  SnapState.level := level;
                  createdAt := now;
                  SnapState.nonce := 0 |} in
  let w1 := snd (fst (saveKeypair now publicKey secretKey level w)) in
  let w2 := snd (fst (clearState w1)) in
  currentKeypair w1 = Some saved
  /\ w2.(stored) = None
  /\ getKeypair w2
     = (Normal match w.(stored) with
               | None => Some saved
               | Some _ => w.(DEFAULT_STATE).(keypair)
               end, w2, [])
  /\ (forall s, w = started (Some s) -> currentKeypair w2 = None).
Proof.
  cbv zeta. rewrite getKeypair_run.
  destruct w as [[s|] d]; unfold saveKeypair, clearState, bindS, getState, mutate, setState;
    cbn [stored DEFAULT_STATE fst snd].
  - destruct (version s <? STATE_VERSION)%Z; cbn;
      (split; [reflexivity |]; split; [reflexivity |]; split; [reflexivity |];
       intros s' [= -> ->]; reflexivity).
  - cbn. split; [reflexivity |]. split; [reflexivity |]. split; [reflexivity |].
    intros s' [=].
Qed.

Lemma handleSignUserOp_signs_witness :
  exists w',
    handleSignUserOp SnapSamples.sampleAlgoSign SnapSamples.alwaysConfirm
      SnapSamples.sampleRequest (SnapSamples.worldWith SnapSamples.sampleKeypair)
    = (Normal {| signature := "0xaabb"; nonce := 7 |}, w',
       [ShowDialog (signUserOpDialog (SnapCrypto.bytesToHex SnapSamples.sampleHash)
                      (Some 412346%Z));
        CallSignUserOp (repeat x00 2560) SnapSamples.sampleHash SnapCrypto.ml_dsa44])
    /\ currentKeypair w' = Some (counted SnapSamples.sampleKeypair)
    /\ w'.(stored) <> None.
Proof.
  exact (handleSignUserOp_signs SnapSamples.sampleAlgoSign SnapSamples.alwaysConfirm
           SnapSamples.sampleRequest (SnapSamples.worldWith SnapSamples.sampleKeypair)
           (SnapCrypto.bytesToHex SnapSamples.sampleHash) SnapSamples.sampleHash
           (repeat x00 2560) [xaa; xbb] SnapSamples.sampleKeypair
           eq_refl ltac:(vm_compute; reflexivity) eq_refl eq_refl
           ltac:(vm_compute; reflexivity) eq_refl eq_refl eq_refl).
Defined.

Lemma handleSignUserOp_counts_before_signing_witness :
  exists w',
    handleSignUserOp SnapSamples.sampleAlgoSign SnapSamples.alwaysConfirm
      SnapSamples.sampleRequest (SnapSamples.worldWith SnapSamples.brokenKeypair)
    = (Throw (Error "Invalid secret key size: 1, expected 2560"), w',
       [ShowDialog (signUserOpDialog (SnapCrypto.bytesToHex SnapSamples.sampleHash)
                      (Some 412346%Z));
        CallSignUserOp [x00] SnapSamples.sampleHash SnapCrypto.ml_dsa44])
    /\ currentKeypair w' = Some (counted SnapSamples.brokenKeypair).
Proof.
  exact (handleSignUserOp_counts_before_signing
           SnapSamples.sampleAlgoSign SnapSamples.alwaysConfirm
           SnapSamples.sampleRequest (SnapSamples.worldWith SnapSamples.brokenKeypair)
           (SnapCrypto.bytesToHex SnapSamples.sampleHash) SnapSamples.sampleHash
           [x00] SnapSamples.brokenKeypair
           (Error "Invalid secret key size: 1, expected 2560")
           eq_refl ltac:(vm_compute; reflexivity) eq_refl eq_refl
           ltac:(vm_compute; reflexivity) eq_refl ltac:(vm_compute; reflexivity)).
Defined.

Lemma handleSignMessage_runs_witness :
  handleSignMessage SnapSamples.sampleAlgoSign (fun _ => false)
    {| message := Some "0x1234" |} (SnapSamples.worldWith SnapSamples.brokenKeypair)
  = (Throw (Error "User rejected signing request"),
     SnapSamples.worldWith SnapSamples.brokenKeypair,
     [ShowDialog (signMessageDialog "0x1234" [x12; x34])]).
Proof.
  exact (proj2 (handleSignMessage_runs SnapSamples.sampleAlgoSign (fun _ => false)
                  {| message := Some "0x1234" |}
                  (SnapSamples.worldWith SnapSamples.brokenKeypair)
                  "0x1234" [x12; x34] [x00] SnapSamples.brokenKeypair
                  eq_refl ltac:(discriminate) ltac:(vm_compute; reflexivity)
                  eq_refl ltac:(vm_compute; reflexivity))).
Defined.

Lemma signViaSnap_through_snap_witness :
  fst (SnapSigner.signViaSnap (Some SnapSamples.sampleProvider)
         "local:http://localhost:8080" (Some 412346%Z) SnapSamples.sampleHash)
  = Normal [xaa; xbb].
Proof.
  destruct (signViaSnap_through_snap SnapSamples.sampleAlgoSign SnapSamples.alwaysConfirm
              SnapSamples.sampleProvider "local:http://localhost:8080" (Some 412346%Z)
              (SnapSamples.worldWith SnapSamples.sampleKeypair)
              SnapSamples.sampleHash (repeat x00 2560) SnapSamples.sampleKeypair
              ltac:(intros request; reflexivity) eq_refl eq_refl
              ltac:(vm_compute; reflexivity) eq_refl)
    as (request & _ & _ & H).
  exact H.
Defined.

End SnapSigning.
